(** * Mechinweb payment orchestration: a shallow embedding

    The development follows the TypeScript sources of the storefront:

    - [src/lib/paymentFixes.ts] (second part of the listing
      [src/src/lib/alternativePayments.ts]): [EnhancedPaymentService];
    - [src/lib/alternativePayments.ts]: [AlternativePaymentService];
    - [supabase/functions/zoho-integration/index.ts]: the invoicing edge
      function, and its later revision (listed after [src/vite.config.ts]).

    [ServiceManager.getServiceById] and [convertCurrency] live in modules
    that are not listed; they are parameters of the environment.

    Conventions of the embedding.

    - JavaScript strings are modelled by [string], the bytes of their UTF-8
      form.  [String.prototype.toLowerCase] is the case mapping of the host
      and the store's [ILIKE] is an operator of the store: both are
      parameters of the environment.
    - JavaScript numbers are IEEE 754 binary64 values, modelled by the
      [spec_float] of the Standard Library with the operations it specifies
      (round to nearest, ties to even).  [toFixed(2)] rounds the exact value
      of the number to hundredths, ties upwards in magnitude, and
      [parseFloat] reads the digits back to the nearest number.
    - [async] functions are functions in a state-and-exception monad: the
      state survives a [throw], as in JavaScript.
    - The relational store, the authentication service and the HTTP
      endpoints are environments: their answers are data of the model, and
      every request leaves an event in the trace of the world.  A request to
      the store is answered with rows or with an error object; a request
      that raises is modelled where the code catches it, in the resolver. *)

From Stdlib Require Import String Ascii List ZArith Lia Bool Arith.
From Stdlib Require Import DecimalString SpecFloat.
From Stdlib Require Import QArith Qpower Lqa.
Import ListNotations.

Close Scope Q_scope.

Local Open Scope string_scope.

(** ** JavaScript primitives *)

Module JS.

(** The lower-case form of an ASCII letter; other bytes are left alone. *)
Definition lower_ascii (c : ascii) : ascii :=
  let n := nat_of_ascii c in
  if (65 <=? n)%nat && (n <=? 90)%nat then ascii_of_nat (n + 32) else c.

(** A text with its ASCII letters in lower case: what every case mapping
    does to a text of ASCII characters. *)
Fixpoint lower_ascii_text (s : string) : string :=
  match s with
  | EmptyString => EmptyString
  | String c t => String (lower_ascii c) (lower_ascii_text t)
  end.

(** [hay.includes(needle)]. *)
Fixpoint includes (hay needle : string) : bool :=
  String.prefix needle hay
  || match hay with
     | EmptyString => false
     | String _ t => includes t needle
     end.

(** A thrown value: [Error] objects carry a message; [PaymentError]
    objects also a [code], [details] and a [retryable] flag, in the order
    of the arguments of the constructor.  The only details built in these
    sources are [{ transactionId, originalError }]. *)
Inductive Error :=
| mkError (code : option string) (message : string) (details : Details)
          (retryable : bool)
with Details :=
| NoDetails
| mkDetails (transactionId : string) (originalError : Error).

Definition code (e : Error) : option string :=
  match e with mkError c _ _ _ => c end.
Definition message (e : Error) : string :=
  match e with mkError _ m _ _ => m end.
Definition details (e : Error) : Details :=
  match e with mkError _ _ d _ => d end.
Definition retryable (e : Error) : bool :=
  match e with mkError _ _ _ r => r end.

(** [new Error(msg)] *)
Definition plainError (msg : string) : Error := mkError None msg NoDetails false.

(** Outcome of an awaited computation. *)
Inductive Result (A : Type) : Type :=
| Ok (a : A)
| Throw (e : Error).
Arguments Ok {A} a.
Arguments Throw {A} e.

(** Decimal rendering of an integer, as in a template literal. *)
Definition showZ (z : Z) : string := NilZero.string_of_int (Z.to_int z).

(** *** Numbers *)

Definition number := spec_float.

Module Number.

Definition prec : Z := 53.
Definition emax : Z := 1024.

(** [x * y] and [x / y]. *)
Definition mul (x y : number) : number := SFmul prec emax x y.
Definition div (x y : number) : number := SFdiv prec emax x y.

(** The number value of an integer. *)
Definition of_Z (z : Z) : number := binary_normalize prec emax z 0 false.

Definition pow10 (d : nat) : positive := Nat.iter d (Pos.mul 10) 1%positive.

(** The value of the decimal literal [m / 10^d]: the number nearest to
    it. *)
Definition dec (m : Z) (d : nat) : number :=
  match m with
  | Z0 => S754_zero false
  | Zpos p => div (S754_finite false p 0) (S754_finite false (pow10 d) 0)
  | Zneg p => div (S754_finite true p 0) (S754_finite false (pow10 d) 0)
  end.

(** [x === y]: NaN equals nothing, the two zeros are equal. *)
Definition eqb (x y : number) : bool := SFeqb x y.

(** [!!x]: zero and NaN are falsy. *)
Definition truthy (x : number) : bool :=
  match x with
  | S754_zero _ | S754_nan => false
  | _ => true
  end.

(** [parseFloat(x.toFixed(2))].  [toFixed(2)] prints a number that is not
    finite, or whose magnitude is at least 10^21, as [toString] does, and
    [parseFloat] reads it back unchanged.  Otherwise it prints [n / 100]
    for the integer [n] nearest to 100 times the exact magnitude, the larger
    one of two, with the sign of the number when that is below zero;
    [parseFloat] gives the number nearest to what is printed. *)
Definition toFixed2 (x : number) : number :=
  match x with
  | S754_zero _ => S754_zero false
  | S754_infinity _ | S754_nan => x
  | S754_finite s m e =>
    let huge :=
      match e with
      | Zneg k => (10 ^ 21 * 2 ^ Zpos k <=? Zpos m)%Z
      | _ => (10 ^ 21 <=? Zpos m * 2 ^ e)%Z
      end in
    if huge then x
    else
      let n :=
        match e with
        | Zneg k => ((Zpos m * 200 + 2 ^ Zpos k) / 2 ^ (Zpos k + 1))%Z
        | _ => (Zpos m * 2 ^ e * 100)%Z
        end in
      match n with
      | Zpos p => div (S754_finite s p 0) (S754_finite false 100 0)
      | _ => S754_zero s
      end
  end.

End Number.

Declare Scope number_scope.
Delimit Scope number_scope with num.
Infix "*" := Number.mul : number_scope.
Infix "/" := Number.div : number_scope.

End JS.
Export JS.

(** ** The monad of asynchronous code: state passing with exceptions *)

Definition M (W A : Type) : Type := W -> Result A * W.

Definition ret {W A} (a : A) : M W A := fun w => (Ok a, w).

Definition throw {W A} (e : Error) : M W A := fun w => (Throw e, w).

Definition bind {W A B} (c : M W A) (k : A -> M W B) : M W B :=
  fun w =>
    match c w with
    | (Ok a, w') => k a w'
    | (Throw e, w') => (Throw e, w')
    end.

(** [try { c } catch (e) { h e }]. *)
Definition try_catch {W A} (c : M W A) (h : Error -> M W A) : M W A :=
  fun w =>
    match c w with
    | (Ok a, w') => (Ok a, w')
    | (Throw e, w') => h e w'
    end.

Definition lift {W A} (r : Result A) : M W A := fun w => (r, w).

Definition modify {W} (f : W -> W) : M W unit := fun w => (Ok tt, f w).

Declare Scope async_scope.
Delimit Scope async_scope with async.
Notation "x <- c ;; k" := (bind c (fun x => k))
  (at level 61, c at next level, right associativity) : async_scope.
Notation "c ;;; k" := (bind c (fun _ => k))
  (at level 61, right associativity) : async_scope.
Local Open Scope async_scope.

(** ** [EnhancedPaymentService] (src/lib/paymentFixes.ts) *)

Module Payment.

(** *** Rows of the store and values exchanged with the collaborators *)

Record User := mkUser {
  user_id : string;
  email_confirmed_at : option string
}.

(** A catalog row; [pricing] maps a package tier to its unit price and
    may be [null]. *)
Record Service := mkService {
  service_id : string;
  service_name : string;
  service_category : string;
  pricing : option (list (string * number))
}.

Record Client := mkClient {
  client_id : string;
  client_name : string;
  client_email : string;
  client_phone : option string;
  client_company : option string
}.

Record Order := mkOrder {
  order_id : string;
  order_client_id : string;
  order_service_id : string;
  package_type : string;
  amount_usd : number;
  amount_inr : number;
  amount_aud : number;
  currency : string;
  status : string;
  payment_gateway : string;
  zoho_invoice_id : option string;
  zoho_customer_id : option string
}.

Record AuditEntry := mkAudit {
  audit_client_id : option string;
  audit_action : string;
  audit_transaction_id : string;
  audit_error_message : string;
  audit_success : bool
}.

Record PaymentIntent := mkIntent {
  invoice_id : string;
  invoice_number : string;
  payment_url : string;
  total : number;
  invoice_status : string;
  customer_id : string;
  transaction_id : string
}.

(** The four queries of the service resolver. *)
Inductive Stage := StageId | StageName | StageCategory | StageFuzzy.

(** How the store treats a query: it answers with the rows asked for, it
    reports an error (the client then sees [data = null]), or the awaited
    call rejects. *)
Inductive QueryStatus :=
| Answered
| Errored
| Rejected (msg : string).

(** Answer of the edge function to the health probe ([GET]). *)
Inductive HealthReply :=
| HealthRejected (msg : string)               (* fetch or json() throws *)
| HealthNotOk (http_status : Z)               (* !response.ok *)
| HealthJson (success : bool) (error : option string).

(** Body of a non-2xx reply once read: [JSON.parse(errorText)]. *)
Inductive ErrorData :=
| NotJson                                     (* JSON.parse throws *)
| JsonError (error : option string).          (* errorData.error *)

(** Answer of the edge function to the invoice request ([POST]). *)
Inductive InvoiceReply :=
| PostRejected (msg : string)                 (* fetch, json() or reading the result throws *)
| PostNotOk (http_status : Z) (errorText : string) (errorData : ErrorData)
| PostFailure (error : option string)         (* result.success is falsy *)
| PostSuccess (invoice : PaymentIntent).      (* result.invoice, result.customer *)

Record CustomerData := mkCustomerData {
  cd_name : string;
  cd_email : string;
  cd_phone : string;
  cd_company : string
}.

Record ServiceItem := mkServiceItem {
  si_serviceId : string;
  si_serviceName : string;
  si_packageType : string;
  si_quantity : Z;
  si_unitPrice : number;
  si_totalPrice : number
}.

Record InvoiceRequest := mkInvoiceRequest {
  req_customerData : CustomerData;
  req_serviceItems : list ServiceItem;
  req_currency : string;
  req_notes : string
}.

(** What the world outside of the service answers during one call.  The
    store is read-only here except for [orders] and the audit log, which
    live in the [World]. *)
Record Env := mkEnv {
  toLowerCase : string -> string;             (* String.prototype.toLowerCase *)
  auth_user : option User;                    (* supabase.auth.getUser() *)
  auth_error : bool;
  services : list Service;                    (* relation services, as scanned *)
  ilike : string -> string -> bool;           (* value ILIKE pattern, in the store *)
  store_status : Stage -> QueryStatus;
  getServiceById : string -> Result (option Service);  (* ServiceManager *)
  clients : list Client;                      (* relation clients *)
  clients_error : bool;
  currency_module :                           (* import('../utils/currency') *)
    option (number -> string -> string -> Result number);
  order_insert_error : option string;
  fresh_order_id : nat -> string;
  order_update_ok : bool;                     (* the update of step 8 is applied *)
  audit_insert_ok : bool;
  zoho_health : nat -> HealthReply;           (* n-th invoicing attempt *)
  zoho_post : nat -> InvoiceReply;
  new_transaction_id : string                 (* txn_<clock>_<random> *)
}.

Inductive Event :=
| EvQuery (s : Stage)
| EvDelay (ms : Z)
| EvHealth (attempt : nat)
| EvInvoicePost (attempt : nat) (body : InvoiceRequest).

Record World := mkWorld {
  orders : list Order;
  audit : list AuditEntry;
  zoho_attempts : nat;
  events : list Event
}.

Definition emit (e : Event) : M World unit :=
  modify (fun w => mkWorld (orders w) (audit w) (zoho_attempts w) (events w ++ [e])).

Definition MAX_RETRIES : nat := 3.
Definition RETRY_DELAY : Z := 1000.

(** [new PaymentError(code, message)]: no details, not retryable. *)
Definition PaymentError (c msg : string) : Error :=
  mkError (Some c) msg NoDetails false.

(** [delay(ms)]. *)
Definition delay (ms : Z) : M World unit := emit (EvDelay ms).

(** *** resolveServiceWithFallback *)

Definition is_digit (c : ascii) : bool :=
  let n := nat_of_ascii c in (48 <=? n)%nat && (n <=? 57)%nat.

(** [[0-9a-f]] under the [i] flag. *)
Definition is_hex (c : ascii) : bool :=
  let n := nat_of_ascii (lower_ascii c) in
  is_digit c || ((97 <=? n)%nat && (n <=? 102)%nat).

Definition is_dash (c : ascii) : bool := Ascii.eqb c "-"%char.

(** [[1-5]] *)
Definition is_version (c : ascii) : bool :=
  let n := nat_of_ascii c in (49 <=? n)%nat && (n <=? 53)%nat.

(** [[89ab]] under the [i] flag. *)
Definition is_variant (c : ascii) : bool :=
  let l := lower_ascii c in
  Ascii.eqb l "8"%char || Ascii.eqb l "9"%char
  || Ascii.eqb l "a"%char || Ascii.eqb l "b"%char.

(** An anchored sequence of character classes against a whole string. *)
Fixpoint match_classes (cs : list (ascii -> bool)) (s : string) : bool :=
  match cs, s with
  | [], EmptyString => true
  | c :: cs', String a s' => c a && match_classes cs' s'
  | _, _ => false
  end.

(** [/^[0-9a-f]{8}-[0-9a-f]{4}-[1-5][0-9a-f]{3}-[89ab][0-9a-f]{3}-[0-9a-f]{12}$/i] *)
Definition uuidRegex : list (ascii -> bool) :=
  repeat is_hex 8 ++ [is_dash] ++ repeat is_hex 4 ++ [is_dash]
  ++ [is_version] ++ repeat is_hex 3 ++ [is_dash]
  ++ [is_variant] ++ repeat is_hex 3 ++ [is_dash] ++ repeat is_hex 12.

Definition uuidRegex_test (s : string) : bool := match_classes uuidRegex s.

(** [.eq('id', x)] on the uuid column, for an [x] that passed the test
    above: uuids are written in hexadecimal digits and compare up to the
    case of the letters among them. *)
Definition eq_id (x : string) (s : Service) : bool :=
  String.eqb (lower_ascii_text (service_id s)) (lower_ascii_text x).

(** [.ilike(column, `%${x}%`)]: the identifier is put between two percent
    signs as it is; the store matches the column against that pattern. *)
Definition ilike_pattern (x : string) : string := "%" ++ x ++ "%".

(** The predicate of the fuzzy [find]. *)
Definition fuzzy_match (env : Env) (x : string) (s : Service) : bool :=
  includes (toLowerCase env (service_name s)) (toLowerCase env x)
  || includes (toLowerCase env x) (toLowerCase env (service_name s)).

(** One awaited query of stage [st] whose rows would be [rows]. *)
Definition query {A} (env : Env) (st : Stage) (rows : A) (null : A) : M World A :=
  emit (EvQuery st) ;;;
  match store_status env st with
  | Answered => ret rows
  | Errored => ret null
  | Rejected msg => throw (plainError msg)
  end.

(** The body of the [try] block. *)
Definition resolve_try (env : Env) (serviceIdentifier : string)
  : M World (option string) :=
  direct <-
    (if uuidRegex_test serviceIdentifier then
       data <- query env StageId
                 (find (eq_id serviceIdentifier) (services env)) None ;;
       ret (match data with
            | Some _ => Some serviceIdentifier
            | None => None
            end)
     else ret None) ;;
  match direct with
  | Some r => ret (Some r)
  | None =>
    nameMatch <- query env StageName
                   (find (fun s => ilike env (service_name s)
                                         (ilike_pattern serviceIdentifier))
                         (services env)) None ;;
    match nameMatch with
    | Some s => ret (Some (service_id s))
    | None =>
      categoryMatch <- query env StageCategory
                         (find (fun s => ilike env (service_category s)
                                               (ilike_pattern serviceIdentifier))
                               (services env)) None ;;
      match categoryMatch with
      | Some s => ret (Some (service_id s))
      | None =>
        fuzzyMatch <- query env StageFuzzy (Some (firstn 10 (services env))) None ;;
        match fuzzyMatch with
        | Some sample =>
          match find (fuzzy_match env serviceIdentifier) sample with
          | Some m => ret (Some (service_id m))
          | None => ret None
          end
        | None => ret None
        end
      end
    end
  end.

Definition resolveServiceWithFallback (env : Env) (serviceIdentifier : string)
  : M World (option string) :=
  try_catch (resolve_try env serviceIdentifier)
            (fun _ => ret None).

(** *** calculateCurrencyAmounts *)

Record Amounts := mkAmounts { usd : number; inr : number; aud : number }.

(** [83.25] and [1.52] *)
Definition rate_INR : number := Number.dec 8325 2.
Definition rate_AUD : number := Number.dec 152 2.

Definition toFixed2 := Number.toFixed2.

Definition round_amounts (u i a : number) : Amounts :=
  mkAmounts (toFixed2 u) (toFixed2 i) (toFixed2 a).

(** The [try] block: conversions through [convertCurrency]. *)
Definition live_amounts (convertCurrency : number -> string -> string -> Result number)
           (amount : number) (currency : string) : Result Amounts :=
  if currency =? "USD" then
    match convertCurrency amount "USD" "INR" with
    | Throw e => Throw e
    | Ok i =>
      match convertCurrency amount "USD" "AUD" with
      | Throw e => Throw e
      | Ok a => Ok (round_amounts amount i a)
      end
    end
  else if currency =? "INR" then
    match convertCurrency amount "INR" "USD" with
    | Throw e => Throw e
    | Ok u =>
      match convertCurrency amount "INR" "AUD" with
      | Throw e => Throw e
      | Ok a => Ok (round_amounts u amount a)
      end
    end
  else if currency =? "AUD" then
    match convertCurrency amount "AUD" "USD" with
    | Throw e => Throw e
    | Ok u =>
      match convertCurrency amount "AUD" "INR" with
      | Throw e => Throw e
      | Ok i => Ok (round_amounts u i amount)
      end
    end
  else Ok (round_amounts amount amount amount).

(** The [catch] block: the fixed rates. *)
Definition fallback_amounts (amount : number) (currency : string) : Amounts :=
  if currency =? "USD" then
    round_amounts amount (amount * rate_INR)%num (amount * rate_AUD)%num
  else if currency =? "INR" then
    round_amounts (amount / rate_INR)%num amount
                  ((amount / rate_INR) * rate_AUD)%num
  else if currency =? "AUD" then
    round_amounts (amount / rate_AUD)%num
                  ((amount / rate_AUD) * rate_INR)%num amount
  else round_amounts amount amount amount.

Definition calculateCurrencyAmounts (env : Env) (amount : number) (currency : string)
  : Amounts :=
  match currency_module env with
  | None => fallback_amounts amount currency
  | Some convertCurrency =>
    match live_amounts convertCurrency amount currency with
    | Ok r => r
    | Throw _ => fallback_amounts amount currency
    end
  end.

(** *** Error classification *)

Definition retryableErrors : list string :=
  ["NETWORK_ERROR"; "TIMEOUT"; "ZOHO_TEMPORARY_ERROR"; "DATABASE_TIMEOUT"; "RATE_LIMIT"].

Definition code_is (e : Error) (c : string) : bool :=
  match code e with
  | Some c' => c' =? c
  | None => false
  end.

Definition isRetryableError (error : Error) : bool :=
  existsb (fun c =>
             code_is error c
             || includes (message error) "timeout"
             || includes (message error) "network"
             || includes (message error) "temporary")
          retryableErrors.

(** [s || d] on strings: the empty string is falsy. *)
Definition or_else (s : option string) (d : string) : string :=
  match s with
  | Some EmptyString | None => d
  | Some v => v
  end.

Definition enhanceError (error : Error) (transactionId : string) : Error :=
  mkError (Some (or_else (code error) "PAYMENT_ERROR"))
          (or_else (Some (message error)) "Payment creation failed")
          (mkDetails transactionId error)
          (isRetryableError error).

(** [user?.id || null] *)
Definition user_id_or_null (u : option User) : option string :=
  match u with
  | Some v => match user_id v with EmptyString => None | i => Some i end
  | None => None
  end.

Definition logPaymentFailure (env : Env) (transactionId errorMessage : string)
  : M World unit :=
  if audit_insert_ok env then
    modify (fun w =>
      mkWorld (orders w)
              (audit w ++ [mkAudit (user_id_or_null (auth_user env))
                                   "payment_creation_failed"
                                   transactionId errorMessage false])
              (zoho_attempts w) (events w))
  else ret tt.

(** *** Invoicing through the edge function *)

(** [`${x}`] for an optional string. *)
Definition show_opt (o : option string) : string :=
  match o with Some s => s | None => "undefined" end.

Definition checkZohoHealth (env : Env) (k : nat) : M World (bool * option string) :=
  emit (EvHealth k) ;;;
  ret (match zoho_health env k with
       | HealthRejected msg => (false, Some msg)
       | HealthNotOk st => (false, Some ("HTTP " ++ showZ st))
       | HealthJson ok err => (ok, err)
       end).

Definition nl : string := String (ascii_of_nat 10) EmptyString.
Definition dquote : string := String (ascii_of_nat 34) EmptyString.

(** The number of this invoicing attempt; the environment scripts the
    replies of the edge function by that number. *)
Definition next_attempt : M World nat :=
  fun w => (Ok (zoho_attempts w),
            mkWorld (orders w) (audit w) (S (zoho_attempts w)) (events w)).

Definition createZohoInvoiceAttempt (env : Env) (order : Order) (service : Service)
           (client : Client) (quantity : Z) (transactionId : string)
  : M World PaymentIntent :=
  k <- next_attempt ;;
  zohoHealthCheck <- checkZohoHealth env k ;;
  if negb (fst zohoHealthCheck) then
    throw (PaymentError "ZOHO_UNAVAILABLE"
             ("Zoho integration unavailable: " ++ show_opt (snd zohoHealthCheck)))
  else
    let customerData :=
      mkCustomerData (client_name client) (client_email client)
                     (or_else (client_phone client) "")
                     (or_else (client_company client) "") in
    let unitPrice :=
      if currency order =? "USD" then amount_usd order
      else if currency order =? "INR" then amount_inr order
      else amount_aud order in
    let serviceItems :=
      [mkServiceItem (service_id service) (service_name service)
                     (package_type order) quantity
                     (unitPrice / Number.of_Z quantity)%num unitPrice] in
    let notes :=
      "Order ID: " ++ order_id order ++ nl
      ++ "Transaction ID: " ++ transactionId ++ nl
      ++ "Service: " ++ service_name service ++ nl
      ++ "Package: " ++ package_type order ++ nl
      ++ "Quantity: " ++ showZ quantity in
    emit (EvInvoicePost k
            (mkInvoiceRequest customerData serviceItems (currency order) notes)) ;;;
    match zoho_post env k with
    | PostRejected msg => throw (plainError msg)
    | PostNotOk st errorText errorData =>
      let err := match errorData with
                 | NotJson => Some errorText
                 | JsonError e => e
                 end in
      if (st =? 500)%Z
         && match err with
            | Some e => includes e "Missing Zoho configuration"
            | None => false
            end
      then throw (PaymentError "ZOHO_CONFIG_MISSING"
                    "Payment system configuration error. Please contact support.")
      else if (st =? 401)%Z
      then throw (PaymentError "ZOHO_AUTH_FAILED"
                    "Payment gateway authentication failed. Please try again.")
      else throw (PaymentError "ZOHO_API_ERROR"
                    ("Payment gateway error: " ++ or_else err errorText))
    | PostFailure err =>
      throw (PaymentError "ZOHO_INTEGRATION_FAILED"
               (or_else err "Zoho integration failed"))
    | PostSuccess inv =>
      ret (mkIntent (invoice_id inv) (invoice_number inv) (payment_url inv)
                    (total inv) (invoice_status inv) (customer_id inv)
                    transactionId)
    end.

(** The [for] loop of [createZohoInvoiceWithRetry], over the attempt
    numbers still to run. *)
Fixpoint createZohoInvoiceWithRetry_loop (attempts : list nat) (env : Env)
         (order : Order) (service : Service) (client : Client) (quantity : Z)
         (transactionId : string) : M World PaymentIntent :=
  match attempts with
  | [] => throw (plainError "Zoho invoice creation failed after all retries")
  | attempt :: rest =>
    try_catch
      (createZohoInvoiceAttempt env order service client quantity transactionId)
      (fun error =>
         if (attempt =? MAX_RETRIES)%nat then throw error
         else
           delay (RETRY_DELAY * Z.of_nat attempt) ;;;
           createZohoInvoiceWithRetry_loop rest env order service client
                                           quantity transactionId)
  end.

Definition createZohoInvoiceWithRetry :=
  createZohoInvoiceWithRetry_loop (seq 1 MAX_RETRIES).

(** *** createPaymentIntentAttempt *)

(** [service.pricing[packageType]]. *)
Fixpoint price_of (prices : list (string * number)) (packageType : string)
  : option number :=
  match prices with
  | [] => None
  | (k, v) :: rest => if k =? packageType then Some v else price_of rest packageType
  end.

(** The tier names of the catalog. *)
Definition package_tiers : list string := ["basic"; "standard"; "enterprise"].

(** Members that every JavaScript object inherits: indexing [pricing] with
    one of these names yields a function or an object, not [undefined]. *)
Definition inherited_members : list string :=
  ["constructor"; "toString"; "toLocaleString"; "valueOf"; "hasOwnProperty";
   "isPrototypeOf"; "propertyIsEnumerable"; "__proto__"; "__defineGetter__";
   "__defineSetter__"; "__lookupGetter__"; "__lookupSetter__"].

(** [!service.pricing || !service.pricing[packageType]] negated: the
    mapping exists and the member read from it is truthy, that is a price
    other than zero and NaN, or an inherited member when the mapping has no
    such key. *)
Definition package_available (service : Service) (packageType : string) : bool :=
  match pricing service with
  | None => false
  | Some prices =>
    match price_of prices packageType with
    | None => existsb (String.eqb packageType) inherited_members
    | Some p => Number.truthy p
    end
  end.

Definition is_confirmed (u : User) : bool :=
  match email_confirmed_at u with
  | None | Some EmptyString => false
  | Some _ => true
  end.

(** [{ data: order, error: orderError }] *)
Inductive Inserted :=
| InsertedRow (order : Order)
| InsertError (msg : string).

(** [.from('orders').insert([orderData]).select().single()] *)
Definition insert_order (env : Env) (mk : string -> Order) : M World Inserted :=
  fun w =>
    match order_insert_error env with
    | Some msg => (Ok (InsertError msg), w)
    | None =>
      let order := mk (fresh_order_id env (length (orders w))) in
      (Ok (InsertedRow order),
       mkWorld (orders w ++ [order]) (audit w) (zoho_attempts w) (events w))
    end.

(** [.from('orders').update({...}).eq('id', id)], its result unread: the
    store applies the update to the rows of that id, or refuses it, or lets
    it match no row, and the caller is not told. *)
Definition update_order_zoho (env : Env) (id : string) (invoice customer : string)
  : M World unit :=
  if order_update_ok env then
    modify (fun w =>
      mkWorld
        (map (fun o =>
                if order_id o =? id then
                  mkOrder (order_id o) (order_client_id o) (order_service_id o)
                          (package_type o) (amount_usd o) (amount_inr o)
                          (amount_aud o) (currency o) (status o)
                          (payment_gateway o) (Some invoice) (Some customer)
                else o)
             (orders w))
        (audit w) (zoho_attempts w) (events w))
  else ret tt.

Definition createPaymentIntentAttempt (env : Env)
           (serviceIdentifier packageType : string) (totalPrice : number)
           (currency : string) (quantity : Z) (transactionId : string)
  : M World PaymentIntent :=
  (* Step 1 *)
  match (if auth_error env then None else auth_user env) with
  | None =>
    throw (PaymentError "AUTH_REQUIRED"
             "Authentication required. Please log in to continue.")
  | Some user =>
    if negb (is_confirmed user) then
      throw (PaymentError "EMAIL_NOT_VERIFIED"
               "Email verification required. Please verify your email before making purchases.")
    else
      (* Step 2 *)
      resolved <- resolveServiceWithFallback env serviceIdentifier ;;
      match resolved with
      | None | Some EmptyString =>
        throw (PaymentError "SERVICE_NOT_FOUND"
                 ("Service not found: " ++ serviceIdentifier
                  ++ ". Please check the service ID and try again."))
      | Some serviceId =>
        (* Step 3 *)
        found <- lift (getServiceById env serviceId) ;;
        match found with
        | None =>
          throw (PaymentError "SERVICE_DATA_MISSING"
                   ("Service data not found for ID: " ++ serviceId))
        | Some service =>
          if negb (package_available service packageType) then
            throw (PaymentError "INVALID_PACKAGE"
                     ("Package type " ++ dquote ++ packageType ++ dquote
                      ++ " not available for " ++ service_name service))
          else
            (* Step 4 *)
            if clients_error env then
              throw (PaymentError "CLIENT_PROFILE_ERROR"
                       "Failed to load client profile. Please try again.")
            else
              match find (fun c => client_id c =? user_id user) (clients env) with
              | None =>
                throw (PaymentError "CLIENT_PROFILE_MISSING"
                         "Client profile not found. Please complete your profile setup.")
              | Some clientProfile =>
                (* Step 5 *)
                let amounts := calculateCurrencyAmounts env totalPrice currency in
                (* Step 6 *)
                inserted <-
                  insert_order env (fun id =>
                    mkOrder id (user_id user) serviceId packageType
                            (usd amounts) (inr amounts) (aud amounts)
                            currency "pending" "zoho" None None) ;;
                match inserted with
                | InsertError msg =>
                  throw (PaymentError "ORDER_CREATION_FAILED"
                           ("Failed to create order: " ++ msg))
                | InsertedRow order =>
                  (* Step 7 *)
                  zohoResult <-
                    createZohoInvoiceWithRetry env order service clientProfile
                                               quantity transactionId ;;
                  (* Step 8 *)
                  update_order_zoho env (order_id order) (invoice_id zohoResult)
                                    (customer_id zohoResult) ;;;
                  ret (mkIntent (invoice_id zohoResult) (invoice_number zohoResult)
                                (payment_url zohoResult) (total zohoResult)
                                (invoice_status zohoResult) (customer_id zohoResult)
                                transactionId)
                end
              end
        end
      end
  end.

(** *** createPaymentIntent *)

(** The [for] loop of [createPaymentIntent], over the attempt numbers
    still to run. *)
Fixpoint createPaymentIntent_loop (attempts : list nat) (env : Env)
         (serviceIdentifier packageType : string) (totalPrice : number)
         (currency : string) (quantity : Z) (transactionId : string)
  : M World PaymentIntent :=
  match attempts with
  | [] => throw (plainError "Payment creation failed after all retries")
  | attempt :: rest =>
    try_catch
      (createPaymentIntentAttempt env serviceIdentifier packageType totalPrice
                                  currency quantity transactionId)
      (fun error =>
         if (attempt =? MAX_RETRIES)%nat || negb (isRetryableError error) then
           logPaymentFailure env transactionId (message error) ;;;
           throw (enhanceError error transactionId)
         else
           delay (RETRY_DELAY * 2 ^ (Z.of_nat attempt - 1)) ;;;
           createPaymentIntent_loop rest env serviceIdentifier packageType
                                    totalPrice currency quantity transactionId)
  end.

Definition createPaymentIntent (env : Env)
           (serviceIdentifier packageType : string) (totalPrice : number)
           (currency : string) (quantity : Z) : M World PaymentIntent :=
  createPaymentIntent_loop (seq 1 MAX_RETRIES) env serviceIdentifier packageType
                           totalPrice currency quantity (new_transaction_id env).

End Payment.

(** ** [AlternativePaymentService] (src/lib/alternativePayments.ts) *)

Module Alternative.
Import Payment.

Record OrderData := mkOrderData {
  serviceId : string;
  serviceName : string;
  packageType : string;
  amount : number;
  od_currency : string;
  clientEmail : string;
  clientName : string
}.

(** [encodeURIComponent], byte by byte. *)
Definition unreserved (c : ascii) : bool :=
  let n := nat_of_ascii c in
  is_digit c
  || ((65 <=? n)%nat && (n <=? 90)%nat)
  || ((97 <=? n)%nat && (n <=? 122)%nat)
  || existsb (Ascii.eqb c)
       ["-"; "_"; "."; "!"; "~"; "*"; "'"; "("; ")"]%char.

Definition hex_digit (n : nat) : ascii :=
  if (n <? 10)%nat then ascii_of_nat (48 + n) else ascii_of_nat (55 + n).

Fixpoint encodeURIComponent (s : string) : string :=
  match s with
  | EmptyString => EmptyString
  | String c t =>
    if unreserved c then String c (encodeURIComponent t)
    else
      let n := nat_of_ascii c in
      String "%" (String (hex_digit (n / 16))
                         (String (hex_digit (n mod 16)) (encodeURIComponent t)))
  end.

(** The row both channels insert, up to the gateway tag. *)
Definition channel_order (user : User) (orderData : OrderData) (gateway id : string)
  : Order :=
  mkOrder id (user_id user) (serviceId orderData) (packageType orderData)
          (if od_currency orderData =? "USD" then amount orderData
           else (amount orderData / rate_INR)%num)
          (if od_currency orderData =? "INR" then amount orderData
           else (amount orderData * rate_INR)%num)
          (if od_currency orderData =? "AUD" then amount orderData
           else (amount orderData * rate_AUD)%num)
          (od_currency orderData) "pending" gateway None None.

Section Channels.

(** Rendering of a number inside a template literal. *)
Variable showNumber : number -> string.

Definition email_body (orderId : string) (orderData : OrderData) : string :=
  nl ++ "Dear Mechinweb Team," ++ nl ++ nl
  ++ "I would like to proceed with payment for my order:" ++ nl ++ nl
  ++ "Order ID: " ++ orderId ++ nl
  ++ "Service: " ++ serviceName orderData ++ nl
  ++ "Package: " ++ packageType orderData ++ nl
  ++ "Amount: " ++ showNumber (amount orderData) ++ " "
  ++ od_currency orderData ++ nl
  ++ "Client: " ++ clientName orderData ++ nl
  ++ "Email: " ++ clientEmail orderData ++ nl ++ nl
  ++ "Please send me payment instructions." ++ nl ++ nl
  ++ "Best regards," ++ nl
  ++ clientName orderData ++ nl ++ "      ".

Definition createEmailPayment (env : Env) (orderData : OrderData)
  : M World string :=
  match auth_user env with
  | None => throw (plainError "Authentication required")
  | Some user =>
    inserted <- insert_order env (channel_order user orderData "email") ;;
    match inserted with
    | InsertError msg => throw (plainError msg)
    | InsertedRow order =>
      let subject :=
        encodeURIComponent ("Payment for " ++ serviceName orderData
                            ++ " - Order " ++ order_id order) in
      let body := encodeURIComponent (email_body (order_id order) orderData) in
      ret ("mailto:contact@mechinweb.com?subject=" ++ subject
           ++ "&body=" ++ body)
    end
  end.

Definition createBankTransferPayment (env : Env) (orderData : OrderData)
  : M World string :=
  match auth_user env with
  | None => throw (plainError "Authentication required")
  | Some user =>
    inserted <- insert_order env (channel_order user orderData "bank_transfer") ;;
    match inserted with
    | InsertError msg => throw (plainError msg)
    | InsertedRow order =>
      ret ("/payment/bank-transfer?order_id=" ++ order_id order)
    end
  end.

End Channels.

End Alternative.

(** ** The invoicing edge function (supabase/functions/zoho-integration) *)

(** Types shared by the two revisions of [index.ts], and the provider. *)
Module ZohoApi.

Record ZohoConfig := mkConfig {
  clientId : string;
  clientSecret : string;
  refreshToken : string;
  organizationId : string
}.

Record CustomerData := mkCustomerData {
  name : string;
  email : string;
  phone : option string;
  company : option string
}.

Record ServiceItem := mkServiceItem {
  serviceName : string;
  packageType : string;
  quantity : Z;
  unitPrice : number;
  totalPrice : number
}.

Record InvoiceRequest := mkInvoiceRequest {
  customerData : CustomerData;
  serviceItems : list ServiceItem;
  currency : string;
  notes : option string
}.

(** A contact as the provider returns it. *)
Record Contact := mkContact {
  contact_id : string;
  contact_name : string;
  contact_email : string
}.

(** An invoice as the provider returns it. *)
Record Invoice := mkInvoice {
  invoice_id : string;
  invoice_number : string;
  total : number;
  status : string;
  invoice_url : option string
}.

Record ContactPayload := mkContactPayload {
  cp_contact_name : string;
  cp_company_name : string;
  cp_email : string;
  cp_phone : string
}.

Record LineItem := mkLineItem {
  li_name : string;
  li_description : string;
  li_rate : number;
  li_quantity : Z;
  li_item_total : number
}.

(** The body of the create-invoice request.  [ip_invoice_number] is
    [None] when the field is left out; dates are UTC calendar days, counted
    from the epoch. *)
Record InvoicePayload := mkInvoicePayload {
  ip_customer_id : string;
  ip_invoice_number : option string;
  ip_date : Z;
  ip_due_date : Z;
  ip_line_items : list LineItem;
  ip_notes : string;
  ip_terms : string;
  ip_currency_code : string
}.

(** What the function returns for a created invoice. *)
Record InvoiceResult := mkInvoiceResult {
  r_invoice_id : string;
  r_invoice_number : string;
  r_payment_url : string;
  r_total : number;
  r_status : string;
  r_customer_id : string
}.

Inductive Request :=
| CreateContact (payload : ContactPayload)
| SearchContactsByEmail (address : string)
| SearchContactsByName (who : string)
| CreateInvoice (payload : InvoicePayload)
| MarkInvoiceSent (invoiceId : string)
| GetInvoice (invoiceId : string).

(** [JSON.parse(errorText)] of a provider error body. *)
Record ApiError := mkApiError {
  api_code : option Z;
  api_message : option string
}.

(** Outcome of one [fetch] and of reading its body.  [OkJson p]: a 2xx
    reply whose body parses; [p] is the member the code reads from it
    ([None] when the body lacks it). *)
Inductive Reply (A : Type) : Type :=
| FetchRejected (msg : string)
| NotOk (http_status : Z) (errorText : string) (errorData : option ApiError)
| OkNotJson (msg : string)
| OkJson (payload : option A).
Arguments FetchRejected {A} msg.
Arguments NotOk {A} http_status errorText errorData.
Arguments OkNotJson {A} msg.
Arguments OkJson {A} payload.

(** The provider: each endpoint answers from the requests seen so far. *)
Record Provider := mkProvider {
  create_contact : list Request -> ContactPayload -> Reply Contact;
  contacts_by_email : list Request -> string -> Reply (list Contact);
  contacts_by_name : list Request -> string -> Reply (list Contact);
  create_invoice : list Request -> InvoicePayload -> Reply Invoice;
  mark_sent : list Request -> string -> Reply Invoice;
  get_invoice : list Request -> string -> Reply Invoice
}.

(** The world of one run of the function: the requests sent so far. *)
Definition History := list Request.

Definition fetch {A} (req : Request) (answer : History -> Reply A)
  : M History (Reply A) :=
  fun h => (Ok (answer h), (h ++ [req])%list).

(** The UTC calendar day of a clock value in milliseconds:
    [new Date(ms).toISOString().split('T')[0]]. *)
Definition utc_day (ms : Z) : Z := (ms / 86400000)%Z.

Definition typeError (what : string) : Error :=
  plainError ("Cannot read properties of undefined (reading '" ++ what ++ "')").

Definition lineItems (invoiceData : InvoiceRequest) : list LineItem :=
  map (fun item =>
         mkLineItem (serviceName item)
                    (serviceName item ++ " - " ++ packageType item
                     ++ " Package (Quantity: " ++ showZ (quantity item) ++ ")")
                    (unitPrice item) (quantity item) (totalPrice item))
      (serviceItems invoiceData).

Definition valid_customer_id (customerId : string) : bool :=
  negb ((customerId =? "") || (customerId =? "undefined") || (customerId =? "null")).

Definition terms_text : string :=
  "Payment due within 30 days. Service delivery begins upon payment confirmation.".

End ZohoApi.

(** The function as listed under supabase/functions/zoho-integration/index.ts. *)
Module ZohoIntegration.
Import ZohoApi.

Definition findZohoCustomer (p : Provider) (config : ZohoConfig) (address : string)
  : M History Contact :=
  response <- fetch (SearchContactsByEmail address) (fun h => contacts_by_email p h address) ;;
  match response with
  | FetchRejected msg => throw (plainError msg)
  | NotOk st errorText _ =>
    throw (plainError ("Customer search failed: " ++ showZ st ++ " " ++ errorText))
  | OkNotJson msg => throw (plainError msg)
  | OkJson None | OkJson (Some []) =>
    throw (plainError ("Customer not found: " ++ address))
  | OkJson (Some (customer :: _)) => ret customer
  end.

Definition createZohoCustomer (p : Provider) (config : ZohoConfig)
           (customerData : CustomerData) : M History Contact :=
  let customerPayload :=
    mkContactPayload (name customerData)
                     (Payment.or_else (company customerData) "")
                     (email customerData)
                     (Payment.or_else (phone customerData) "") in
  response <- fetch (CreateContact customerPayload)
                    (fun h => create_contact p h customerPayload) ;;
  match response with
  | FetchRejected msg => throw (plainError msg)
  | NotOk st errorText _ =>
    recovered <-
      (if (st =? 400)%Z || (st =? 422)%Z
          || includes errorText "already exists" || includes errorText "duplicate"
       then
         try_catch
           (existingCustomer <- findZohoCustomer p config (email customerData) ;;
            ret (Some existingCustomer))
           (fun _ => ret None)
       else ret None) ;;
    match recovered with
    | Some existingCustomer => ret existingCustomer
    | None =>
      throw (plainError ("Customer creation failed: " ++ showZ st ++ " " ++ errorText))
    end
  | OkNotJson msg => throw (plainError msg)
  | OkJson None => throw (typeError "contact_id")
  | OkJson (Some customer) => ret customer
  end.

Definition createZohoInvoice (p : Provider) (config : ZohoConfig) (now : Z)
           (customerId : string) (invoiceData : InvoiceRequest)
  : M History InvoiceResult :=
  if negb (valid_customer_id customerId) then
    throw (plainError ("Invalid customer ID: " ++ customerId))
  else
    let invoicePayload :=
      mkInvoicePayload customerId
                       (Some ("MW-" ++ showZ now))
                       (utc_day now)
                       (utc_day (now + 30 * 24 * 60 * 60 * 1000))
                       (lineItems invoiceData)
                       (Payment.or_else (notes invoiceData)
                                        "Thank you for choosing Mechinweb!")
                       terms_text
                       (currency invoiceData) in
    response <- fetch (CreateInvoice invoicePayload)
                      (fun h => create_invoice p h invoicePayload) ;;
    match response with
    | FetchRejected msg => throw (plainError msg)
    | NotOk st errorText _ =>
      throw (plainError ("Invoice creation failed: " ++ showZ st ++ " " ++ errorText))
    | OkNotJson msg => throw (plainError msg)
    | OkJson None => throw (plainError "No invoice data in response")
    | OkJson (Some invoice) =>
      ret (mkInvoiceResult
             (invoice_id invoice) (invoice_number invoice)
             ("https://invoice.zoho.in/invoices/" ++ invoice_id invoice ++ "/payment")
             (total invoice) (status invoice) customerId)
    end.

End ZohoIntegration.

(** The later revision of the same function (listed after
    [src/vite.config.ts]): it looks the customer up first, leaves the invoice
    number to the provider, marks the invoice sent and asks for its portal
    address. *)
Module ZohoIntegrationRevised.
Import ZohoApi.

Definition findZohoCustomerByEmail (p : Provider) (config : ZohoConfig)
           (address : string) : M History Contact :=
  response <- fetch (SearchContactsByEmail address) (fun h => contacts_by_email p h address) ;;
  match response with
  | FetchRejected msg => throw (plainError msg)
  | NotOk st _ _ => throw (plainError ("Customer search failed: " ++ showZ st))
  | OkNotJson msg => throw (plainError msg)
  | OkJson None | OkJson (Some []) =>
    throw (plainError ("Customer not found: " ++ address))
  | OkJson (Some (customer :: _)) => ret customer
  end.

Definition findZohoCustomerByName (p : Provider) (config : ZohoConfig)
           (who : string) : M History Contact :=
  response <- fetch (SearchContactsByName who) (fun h => contacts_by_name p h who) ;;
  match response with
  | FetchRejected msg => throw (plainError msg)
  | NotOk st _ _ => throw (plainError ("Customer search failed: " ++ showZ st))
  | OkNotJson msg => throw (plainError msg)
  | OkJson None | OkJson (Some []) =>
    throw (plainError ("Customer not found: " ++ who))
  | OkJson (Some (customer :: _)) => ret customer
  end.

(** [try { return await find } catch { }]: the contact when found. *)
Definition attempt_find (find : M History Contact) : M History (option Contact) :=
  try_catch (c <- find ;; ret (Some c)) (fun _ => ret None).

(** [errorData.code === 3062 || (errorData.message &&
    errorData.message.includes('already exists'))] *)
Definition already_exists (errorData : ApiError) : bool :=
  match api_code errorData with
  | Some c => (c =? 3062)%Z
  | None => false
  end
  || match api_message errorData with
     | Some m => negb (m =? "") && includes m "already exists"
     | None => false
     end.

Definition createZohoCustomer (p : Provider) (config : ZohoConfig)
           (customerData : CustomerData) : M History Contact :=
  existing <- attempt_find (findZohoCustomerByEmail p config (email customerData)) ;;
  match existing with
  | Some existingCustomer => ret existingCustomer
  | None =>
    let customerPayload :=
      mkContactPayload (name customerData)
                       (Payment.or_else (company customerData) "")
                       (email customerData)
                       (Payment.or_else (phone customerData) "") in
    response <- fetch (CreateContact customerPayload)
                      (fun h => create_contact p h customerPayload) ;;
    match response with
    | FetchRejected msg => throw (plainError msg)
    | NotOk st errorText parsed =>
      let errorData :=
        match parsed with
        | Some d => d
        | None => mkApiError None (Some errorText)
        end in
      recovered <-
        (if already_exists errorData then
           byEmail <- attempt_find
                        (findZohoCustomerByEmail p config (email customerData)) ;;
           match byEmail with
           | Some c => ret (Some c)
           | None =>
             attempt_find (findZohoCustomerByName p config (name customerData))
           end
         else ret None) ;;
      match recovered with
      | Some c => ret c
      | None =>
        throw (plainError ("Customer creation failed: "
                           ++ Payment.or_else (api_message errorData) errorText))
      end
    | OkNotJson msg => throw (plainError msg)
    | OkJson None => throw (typeError "contact_id")
    | OkJson (Some customer) => ret customer
    end
  end.

Definition sendZohoInvoice (p : Provider) (config : ZohoConfig) (invoiceId : string)
  : M History (option Invoice) :=
  response <- fetch (MarkInvoiceSent invoiceId) (fun h => mark_sent p h invoiceId) ;;
  match response with
  | FetchRejected msg => throw (plainError msg)
  | NotOk st errorText _ =>
    throw (plainError ("Failed to send invoice: " ++ showZ st ++ " " ++ errorText))
  | OkNotJson msg => throw (plainError msg)
  | OkJson sent => ret sent
  end.

Definition portal_url (config : ZohoConfig) (invoiceId : string) : string :=
  "https://invoice.zoho.in/portal/" ++ organizationId config
  ++ "/invoices/" ++ invoiceId.

Definition getZohoPaymentUrl (p : Provider) (config : ZohoConfig) (invoiceId : string)
  : M History string :=
  try_catch
    (response <- fetch (GetInvoice invoiceId) (fun h => get_invoice p h invoiceId) ;;
     match response with
     | FetchRejected msg => throw (plainError msg)
     | NotOk st _ _ =>
       throw (plainError ("Failed to get invoice details: " ++ showZ st))
     | OkNotJson msg => throw (plainError msg)
     | OkJson None => throw (plainError "No invoice data in response")
     | OkJson (Some invoice) =>
       ret (Payment.or_else (invoice_url invoice) (portal_url config invoiceId))
     end)
    (fun _ => ret (portal_url config invoiceId)).

Definition createZohoInvoice (p : Provider) (config : ZohoConfig) (now : Z)
           (customerId : string) (invoiceData : InvoiceRequest)
  : M History InvoiceResult :=
  if negb (valid_customer_id customerId) then
    throw (plainError ("Invalid customer ID: " ++ customerId))
  else
    let invoicePayload :=
      mkInvoicePayload customerId
                       None
                       (utc_day now)
                       (utc_day (now + 30 * 24 * 60 * 60 * 1000))
                       (lineItems invoiceData)
                       (Payment.or_else (notes invoiceData)
                                        "Thank you for choosing Mechinweb!")
                       terms_text
                       (currency invoiceData) in
    response <- fetch (CreateInvoice invoicePayload)
                      (fun h => create_invoice p h invoicePayload) ;;
    match response with
    | FetchRejected msg => throw (plainError msg)
    | NotOk st errorText _ =>
      throw (plainError ("Invoice creation failed: " ++ showZ st ++ " " ++ errorText))
    | OkNotJson msg => throw (plainError msg)
    | OkJson None => throw (plainError "No invoice data in response")
    | OkJson (Some invoice) =>
      sentInvoice <- sendZohoInvoice p config (invoice_id invoice) ;;
      paymentUrl <- getZohoPaymentUrl p config (invoice_id invoice) ;;
      match sentInvoice with
      | None => throw (typeError "status")
      | Some sent =>
        ret (mkInvoiceResult (invoice_id invoice) (invoice_number invoice)
                             paymentUrl (total invoice) (status sent) customerId)
      end
    end.

End ZohoIntegrationRevised.

(** ** [ProductionLogger] (src/lib/productionLogger.ts, listed after
    [scripts/test-payment-flow.js]): the rolling log the payment service
    writes to *)

Module Logger.

Inductive Level := LevelInfo | LevelWarn | LevelError | LevelDebug.

Definition level_eqb (a b : Level) : bool :=
  match a, b with
  | LevelInfo, LevelInfo | LevelWarn, LevelWarn
  | LevelError, LevelError | LevelDebug, LevelDebug => true
  | _, _ => false
  end.

(** [level.toUpperCase()] *)
Definition level_name (l : Level) : string :=
  match l with
  | LevelInfo => "INFO"
  | LevelWarn => "WARN"
  | LevelError => "ERROR"
  | LevelDebug => "DEBUG"
  end.

Record LogEntry := mkLogEntry {
  timestamp : string;
  level : Level;
  message : string;
  data : option string;
  component : option string;
  sessionId : string;
  url : string;
  userAgent : string
}.

(** The item [mechinweb_error_logs] of [localStorage]: absent, not readable
    as a JSON array, or an array of entries. *)
Inductive Stored :=
| NoItem
| Unreadable
| Items (entries : list LogEntry).

(** What the page provides to one call of the logger. *)
Record Browser := mkBrowser {
  now : string;                 (* new Date().toISOString() *)
  href : string;                (* window.location.href *)
  agent : string;               (* navigator.userAgent *)
  storage_writable : bool;      (* localStorage.setItem does not throw *)
  prod : bool                   (* import.meta.env.PROD *)
}.

(** The logger and what it has written outside of itself. *)
Record State := mkState {
  logs : list LogEntry;
  session : string;
  stored : Stored;
  console : list (string * string)   (* method, first argument *)
}.

Definition maxLogs : nat := 1000.

(** [a.slice(-n)]: the last [n] elements; [slice(-0)] is the whole array. *)
Definition slice_last {A} (n : nat) (a : list A) : list A :=
  if (n =? 0)%nat then a else skipn (length a - n) a.

Definition console_method (l : Level) : string :=
  match l with
  | LevelError => "error"
  | LevelWarn => "warn"
  | _ => "log"
  end.

(** The [try] block that keeps the last 50 errors in [localStorage]. *)
Definition store_error (b : Browser) (logEntry : LogEntry) (s : Stored)
  : Result Stored :=
  match s with
  | Unreadable => Throw (plainError "Unexpected token in JSON")
  | NoItem | Items _ =>
    let errorLogs := match s with Items l => l | _ => [] end in
    let trimmedLogs := slice_last 50 (errorLogs ++ [logEntry]) in
    if storage_writable b then Ok (Items trimmedLogs)
    else Throw (plainError "QuotaExceededError")
  end.

Definition log (b : Browser) (lv : Level) (msg : string) (d : option string)
           (comp : option string) (st : State) : State :=
  let logEntry := mkLogEntry (now b) lv msg d comp (session st) (href b) (agent b) in
  let pushed := (logs st ++ [logEntry])%list in
  let kept := if (maxLogs <? length pushed)%nat then slice_last maxLogs pushed
              else pushed in
  let line := (console_method lv,
               "[" ++ now b ++ "] " ++ level_name lv ++ ": " ++ msg) in
  let printed := (console st ++ [line])%list in
  let '(stored', printed') :=
    if level_eqb lv LevelError then
      match store_error b logEntry (stored st) with
      | Ok s' => (s', printed)
      | Throw _ => (stored st, (printed ++ [("error", "Failed to store error log:")])%list)
      end
    else (stored st, printed) in
  let printed'' :=
    if prod b && level_eqb lv LevelError
    then (printed' ++ [("log", "Would send to external logging service:")])%list
    else printed' in
  mkState kept (session st) stored' printed''.

(** [getLogs(level?)] *)
Definition getLogs (lv : option Level) (st : State) : list LogEntry :=
  match lv with
  | Some l => filter (fun e => level_eqb (level e) l) (logs st)
  | None => logs st
  end.

Definition getErrorLogs (st : State) : list LogEntry := getLogs (Some LevelError) st.

Definition clearLogs (b : Browser) (st : State) : State :=
  log b LevelInfo "Logs cleared" None None
      (mkState [] (session st) NoItem (console st)).

End Logger.

(** ** [EnhancedPaymentService]: the direct payment and the health check *)

Module PaymentExtra.
Import Payment.

(** *** createDirectPayment *)

Record DirectPayment := mkDirectPayment {
  orderId : string;
  paymentUrl : string
}.

Section Direct.

(** Rendering of a number inside a template literal. *)
Variable showNumber : number -> string.

Definition createDirectPayment (env : Env) (serviceId packageType : string)
           (amount : number) (currency : string) : M World DirectPayment :=
  try_catch
    (match auth_user env with
     | None => throw (plainError "Authentication required")
     | Some user =>
       inserted <-
         insert_order env (fun id =>
           mkOrder id (user_id user) serviceId packageType
                   (if currency =? "USD" then amount else (amount / rate_INR)%num)
                   (if currency =? "INR" then amount else (amount * rate_INR)%num)
                   (if currency =? "AUD" then amount else (amount * rate_AUD)%num)
                   currency "pending" "direct" None None) ;;
       match inserted with
       | InsertError msg => throw (plainError msg)
       | InsertedRow order =>
         ret (mkDirectPayment
                (order_id order)
                ("mailto:contact@mechinweb.com?subject=Payment for Order "
                 ++ order_id order
                 ++ "&body=Please process payment for order " ++ order_id order
                 ++ " - Amount: " ++ showNumber amount ++ " " ++ currency))
       end
     end)
    (fun error => throw error).

End Direct.

(** *** performSystemHealthCheck *)

(** Answer of the store to the count query on the catalog. *)
Inductive CountReply :=
| CountOk
| CountError (msg : string)        (* { error } *)
| CountRejected (msg : string).    (* the awaited call rejects *)

Record Checks := mkChecks {
  count_services : CountReply;
  getAllServices : Result (list Service)     (* ServiceManager.getAllServices() *)
}.

Record Report := mkReport {
  database : bool;
  zoho : bool;
  services : bool;
  overall : bool;
  issues : list string
}.

Definition performSystemHealthCheck (env : Env) (checks : Checks) : M World Report :=
  (* Test database *)
  let '(database, issues1) :=
    match count_services checks with
    | CountOk => (true, [])
    | CountError msg => (false, ["Database: " ++ msg])
    | CountRejected msg => (false, ["Database connection failed: " ++ msg])
    end in
  (* Test Zoho *)
  probed <-
    try_catch
      (k <- next_attempt ;;
       zohoHealth <- checkZohoHealth env k ;;
       ret (fst zohoHealth,
            if fst zohoHealth then issues1
            else (issues1 ++ [("Zoho: " ++ show_opt (snd zohoHealth))%string])%list))
      (fun error =>
         ret (false, (issues1 ++ [("Zoho integration failed: " ++ message error)%string])%list)) ;;
  let '(zoho, issues2) := probed in
  (* Test services *)
  let '(services, issues3) :=
    match getAllServices checks with
    | Ok servicesList =>
      if (0 <? length servicesList)%nat then (true, issues2)
      else (false, (issues2 ++ ["No services found in database"])%list)
    | Throw error =>
      (false, (issues2 ++ [("Services loading failed: " ++ message error)%string])%list)
    end in
  ret (mkReport database zoho services (database && services) issues3).

End PaymentExtra.

(** ** [AlternativePaymentService]: the choice of a payment method *)

Module AlternativeExtra.
Import Payment.
Import Alternative.

Record AlternativePaymentMethod := mkMethod {
  id : string;
  name : string;
  description : string;
  available : bool;
  handler : OrderData -> M World string
}.

Section Methods.

Variable showNumber : number -> string.

(** [methods[0].available = result.success] *)
Definition set_first_available (ok : bool) (methods : list AlternativePaymentMethod)
  : list AlternativePaymentMethod :=
  match methods with
  | [] => []
  | m :: rest => mkMethod (id m) (name m) (description m) ok (handler m) :: rest
  end.

Definition getAvailablePaymentMethods (env : Env)
  : M World (list AlternativePaymentMethod) :=
  let methods :=
    [ mkMethod "zoho" "Zoho Invoice" "Secure online payment via Zoho" false
               (fun _ => throw (plainError "Zoho unavailable"));
      mkMethod "email" "Email Payment Request"
               "Request payment instructions via email" true
               (createEmailPayment showNumber env);
      mkMethod "bank_transfer" "Bank Transfer"
               "Direct bank transfer with instructions" true
               (createBankTransferPayment env) ] in
  (* Test Zoho availability *)
  k <- next_attempt ;;
  emit (EvHealth k) ;;;
  match zoho_health env k with
  | HealthJson ok _ => ret (set_first_available ok methods)
  | HealthNotOk _ => ret methods
  | HealthRejected _ => ret methods
  end.

Definition createPaymentWithFallback (env : Env) (orderData : OrderData)
  : M World string :=
  methods <- getAvailablePaymentMethods env ;;
  (* Try Zoho first *)
  tried <-
    match find (fun m => (id m =? "zoho") && available m) methods with
    | Some zohoMethod =>
      try_catch (url <- handler zohoMethod orderData ;; ret (Some url))
                (fun _ => ret None)
    | None => ret None
    end ;;
  match tried with
  | Some url => ret url
  | None =>
    (* Fallback to email payment *)
    match find (fun m => id m =? "email") methods with
    | Some emailMethod => handler emailMethod orderData
    | None => throw (plainError "No payment methods available")
    end
  end.

End Methods.

End AlternativeExtra.

(** ** The request handler of the edge function ([Deno.serve]) *)

Module EdgeFunction.
Import ZohoApi.

(** Every request the function sends: to the token endpoint, to the
    contacts list for the connection test, or to the contacts and invoices
    endpoints of [ZohoApi]. *)
Inductive Call :=
| TokenCall
| ProbeCall
| ApiCall (r : Request).

Definition Calls := list Call.

Fixpoint api_of (cs : Calls) : History :=
  match cs with
  | [] => []
  | ApiCall r :: rest => r :: api_of rest
  | _ :: rest => api_of rest
  end.

(** A computation on the contacts and invoices endpoints, run among the
    other calls: it sees the requests of its kind sent so far and what it
    sends is appended. *)
Definition in_api {A} (c : M History A) : M Calls A :=
  fun cs =>
    let h := api_of cs in
    match c h with
    | (r, h') => (r, (cs ++ map ApiCall (skipn (length h) h'))%list)
    end.

Record Platform := mkPlatform {
  token_endpoint : Calls -> Reply string;          (* tokenData.access_token *)
  contacts_probe : Calls -> Reply (list Contact);  (* data.contacts *)
  provider : Provider
}.

Definition getZohoAccessToken (platform : Platform) (config : ZohoConfig)
  : M Calls string :=
  response <- (fun cs => (Ok (token_endpoint platform cs), (cs ++ [TokenCall])%list)) ;;
  match response with
  | FetchRejected msg => throw (plainError msg)
  | NotOk st errorText _ =>
    throw (plainError ("Token request failed: " ++ showZ st ++ " " ++ errorText))
  | OkNotJson msg => throw (plainError msg)
  | OkJson None | OkJson (Some EmptyString) =>
    throw (plainError "No access token received")
  | OkJson (Some accessToken) => ret accessToken
  end.

Definition testZohoConnection (platform : Platform) (accessToken : string)
           (config : ZohoConfig) : M Calls unit :=
  response <- (fun cs => (Ok (contacts_probe platform cs), (cs ++ [ProbeCall])%list)) ;;
  match response with
  | FetchRejected msg => throw (plainError msg)
  | NotOk st errorText _ =>
    throw (plainError ("Zoho API test failed: " ++ showZ st ++ " " ++ errorText))
  | OkNotJson msg => throw (plainError msg)
  | OkJson _ => ret tt
  end.

(** The body of a request once parsed; a missing member and an empty one are
    both falsy. *)
Record RawBody := mkRawBody {
  raw_customerData : option CustomerData;
  raw_serviceItems : list ServiceItem;
  raw_currency : string;
  raw_notes : option string
}.

Record HttpRequest := mkRequest {
  method : string;
  body : option RawBody          (* None: req.json() rejects *)
}.

Record DebugFlags := mkDebugFlags {
  hasZohoClientId : bool;
  hasZohoClientSecret : bool;
  hasZohoRefreshToken : bool;
  hasZohoOrgId : bool;
  debug_organizationId : string
}.

(** The JSON body of a response (request id and timestamp left out). *)
Inductive Payload :=
| NoContent
| Working (message : string)
| Created (customer : Contact) (invoice : InvoiceResult)
| Failed (error : string) (debug : DebugFlags).

Record HttpResponse := mkResponse {
  status : Z;
  payload : Payload
}.

Definition present (s : string) : bool := negb (s =? "").

(** [missing]: the names of the secrets that are not set, in the order of
    the checks. *)
Definition missing_secrets (config : ZohoConfig) : list string :=
  ((if present (clientId config) then [] else ["ZOHO_CLIENT_ID"])
   ++ (if present (clientSecret config) then [] else ["ZOHO_CLIENT_SECRET"])
   ++ (if present (refreshToken config) then [] else ["ZOHO_REFRESH_TOKEN"])
   ++ (if present (organizationId config) then [] else ["ZOHO_ORGANIZATION_ID"]))%list.

Definition debug_of (config : ZohoConfig) : DebugFlags :=
  mkDebugFlags (present (clientId config)) (present (clientSecret config))
               (present (refreshToken config)) (present (organizationId config))
               (organizationId config).

Section Serve.

(** The two functions the revisions of [index.ts] differ in. *)
Variable createZohoCustomer :
  Provider -> ZohoConfig -> CustomerData -> M History Contact.
Variable createZohoInvoice :
  Provider -> ZohoConfig -> Z -> string -> InvoiceRequest -> M History InvoiceResult.

Definition serve (config : ZohoConfig) (platform : Platform) (now : Z)
           (req : HttpRequest) : M Calls HttpResponse :=
  if method req =? "OPTIONS" then ret (mkResponse 200 NoContent)
  else
    try_catch
      (let missing := missing_secrets config in
       if (0 <? length missing)%nat then
         throw (plainError ("Missing Zoho configuration: "
                            ++ String.concat ", " missing))
       else
         accessToken <- getZohoAccessToken platform config ;;
         if method req =? "GET" then
           testZohoConnection platform accessToken config ;;;
           ret (mkResponse 200 (Working "Zoho integration is working correctly"))
         else if method req =? "POST" then
           match body req with
           | None => throw (plainError "Invalid JSON in request body")
           | Some requestData =>
             match raw_customerData requestData with
             | None => throw (plainError "Missing customerData in request")
             | Some customerData =>
               if email customerData =? "" then
                 throw (plainError "Missing customer email in customerData")
               else if name customerData =? "" then
                 throw (plainError "Missing customer name in customerData")
               else if (length (raw_serviceItems requestData) =? 0)%nat then
                 throw (plainError "Missing serviceItems or empty serviceItems array")
               else if raw_currency requestData =? "" then
                 throw (plainError "Missing currency in request")
               else
                 customer <- in_api (createZohoCustomer (provider platform) config
                                                        customerData) ;;
                 if contact_id customer =? "" then
                   throw (plainError "Invalid customer data received from Zoho")
                 else
                   invoice <-
                     in_api (createZohoInvoice
                               (provider platform) config now (contact_id customer)
                               (mkInvoiceRequest customerData
                                                 (raw_serviceItems requestData)
                                                 (raw_currency requestData)
                                                 (raw_notes requestData))) ;;
                   ret (mkResponse 200 (Created customer invoice))
             end
           end
         else throw (plainError "Method not allowed"))
      (fun error => ret (mkResponse 500 (Failed (message error) (debug_of config)))).

End Serve.

(** The handler of the listed [index.ts] and the one of its revision. *)
Definition serve_listed :=
  serve ZohoIntegration.createZohoCustomer ZohoIntegration.createZohoInvoice.

Definition serve_revised :=
  serve ZohoIntegrationRevised.createZohoCustomer
        ZohoIntegrationRevised.createZohoInvoice.

End EdgeFunction.

(** * Specification-side definitions *)

Module Spec.
Import Payment.

(** The world after some more events. *)
Definition after_events (w : World) (evs : list Event) : World :=
  mkWorld (orders w) (audit w) (zoho_attempts w) (events w ++ evs).

(** The waits recorded in a trace. *)
Fixpoint delays_of (evs : list Event) : list Z :=
  match evs with
  | [] => []
  | EvDelay ms :: rest => ms :: delays_of rest
  | _ :: rest => delays_of rest
  end.

(** *** The resolver as the specification words it *)

(** [needle] occurs in [hay]. *)
Definition substring (needle hay : string) : Prop :=
  exists before rest, hay = before ++ needle ++ rest.

(** [c] is one of the characters of [set]. *)
Definition one_of (set : string) (c : ascii) : Prop :=
  In c (list_ascii_of_string set).

(** The shape of a UUID of version 1 to 5: 36 characters, hyphens at
    positions 8, 13, 18 and 23 (counted from 0), the version digit at
    position 14, a variant digit among 8, 9, a and b at position 19, and
    hexadecimal digits elsewhere, letters in either case. *)
Definition uuid_position (i : nat) (c : ascii) : Prop :=
  if existsb (Nat.eqb i) [8; 13; 18; 23]%nat then c = "-"%char
  else if (i =? 14)%nat then one_of "12345" c
  else if (i =? 19)%nat then one_of "89abAB" c
  else one_of "0123456789abcdefABCDEF" c.

Definition uuid_shaped (s : string) : Prop :=
  String.length s = 36%nat
  /\ forall i c, String.get i s = Some c -> uuid_position i c.

(** Two characters that are the same letter in different cases. *)
Definition same_letter (c d : ascii) : Prop :=
  exists n, (65 <= n <= 90)%nat
            /\ ((nat_of_ascii c = n /\ nat_of_ascii d = (n + 32)%nat)
                \/ (nat_of_ascii d = n /\ nat_of_ascii c = (n + 32)%nat)).

(** Two identifiers that differ at most in the case of their letters. *)
Inductive same_up_to_case : string -> string -> Prop :=
| same_empty : same_up_to_case "" ""
| same_next c d s t :
    c = d \/ same_letter c d ->
    same_up_to_case s t ->
    same_up_to_case (String c s) (String d t).

(** The first element of a list that has a property, if any. *)
Inductive first_such {A} (P : A -> Prop) : list A -> option A -> Prop :=
| first_of_none : first_such P [] None
| first_here a l : P a -> first_such P (a :: l) (Some a)
| first_later a l r : ~ P a -> first_such P l r -> first_such P (a :: l) r.

(** A stage: when it is attempted, and what it finds. *)
Record Rule := mkRule {
  rule_stage : Stage;
  rule_applies : Prop;
  rule_finds : option string -> Prop
}.

(** The stages in order: a stage that does not apply is passed over; a
    stage that applies is attempted, and the first one that finds a service
    gives the answer; the stages after it are not attempted. *)
Inductive run_stages : list Rule -> option string -> list Stage -> Prop :=
| run_out : run_stages [] None []
| run_skip r rest answer tried :
    ~ rule_applies r ->
    run_stages rest answer tried ->
    run_stages (r :: rest) answer tried
| run_hit r rest found :
    rule_applies r ->
    rule_finds r (Some found) ->
    run_stages (r :: rest) (Some found) [rule_stage r]
| run_miss r rest answer tried :
    rule_applies r ->
    rule_finds r None ->
    run_stages rest answer tried ->
    run_stages (r :: rest) answer (rule_stage r :: tried).

Section Stages.

Variable env : Env.
Variable identifier : string.

(** Stage one: the row whose primary key is the identifier. *)
Definition by_id (row : Service) : Prop :=
  same_up_to_case (service_id row) identifier.

(** Stages two and three: the store is asked for a row whose name, or
    category, matches the identifier between two percent signs. *)
Definition by_name (row : Service) : Prop :=
  ilike env (service_name row) ("%" ++ identifier ++ "%") = true.

Definition by_category (row : Service) : Prop :=
  ilike env (service_category row) ("%" ++ identifier ++ "%") = true.

(** Stage four: the name contains the identifier or the identifier the
    name, both in lower case. *)
Definition fuzzy (row : Service) : Prop :=
  substring (toLowerCase env identifier) (toLowerCase env (service_name row))
  \/ substring (toLowerCase env (service_name row)) (toLowerCase env identifier).

(** The id of the first row of [rows] with the property, if any. *)
Definition finds_first (P : Service -> Prop) (rows : list Service)
           (answer : option string) : Prop :=
  exists hit, first_such P rows hit /\ answer = option_map service_id hit.

Definition staged_resolve : option string -> list Stage -> Prop :=
  run_stages
    [ mkRule StageId (uuid_shaped identifier)
             (fun answer =>
                (answer = Some identifier
                 /\ exists row, In row (services env) /\ by_id row)
                \/ (answer = None
                    /\ forall row, In row (services env) -> ~ by_id row));
      mkRule StageName True (finds_first by_name (services env));
      mkRule StageCategory True (finds_first by_category (services env));
      mkRule StageFuzzy True (finds_first fuzzy (firstn 10 (services env))) ].

End Stages.

(** The characters that are not read as themselves in a pattern of the
    store: the two wildcards, the escape character, and the star that the
    interface of the store reads as a percent sign. *)
Definition pattern_character (c : ascii) : bool :=
  existsb (Ascii.eqb c) ["%"; "_"; "\"; "*"]%char.

(** An identifier that holds no such character. *)
Fixpoint plain (s : string) : bool :=
  match s with
  | EmptyString => true
  | String c t => negb (pattern_character c) && plain t
  end.

(** A store whose ILIKE, for a plain text between two percent signs, tests
    whether the value contains the text, both folded by [fold]. *)
Definition substring_store (env : Env) (fold : string -> string) : Prop :=
  forall value x,
    plain x = true ->
    (ilike env value ("%" ++ x ++ "%") = true
     <-> substring (fold x) (fold value)).

End Spec.

(** * The pattern matching of a relational store

    [LIKE] as the SQL standard has it: a percent sign stands for any
    sequence of characters, an underscore for any one character, a backslash
    makes the next character stand for itself; [ILIKE] folds the case of
    both sides first.  A character is a byte followed by the continuation
    bytes of its UTF-8 form; on well-formed text it makes no difference that
    the search for the text after a percent sign goes byte by byte. *)

Module Sql.

Definition continuation (c : ascii) : bool :=
  let n := nat_of_ascii c in (128 <=? n)%nat && (n <? 192)%nat.

Fixpoint drop_continuation (t : string) : string :=
  match t with
  | String c t' => if continuation c then drop_continuation t' else t
  | EmptyString => EmptyString
  end.

Fixpoint like (pattern text : string) {struct pattern} : bool :=
  match pattern with
  | EmptyString =>
    match text with EmptyString => true | _ => false end
  | String c p =>
    if Ascii.eqb c "%" then
      (fix scan (t : string) : bool :=
         like p t
         || match t with
            | EmptyString => false
            | String _ t' => scan t'
            end) text
    else if Ascii.eqb c "_" then
      match text with
      | EmptyString => false
      | String _ t' => like p (drop_continuation t')
      end
    else if Ascii.eqb c "\" then
      match p, text with
      | String d p', String e t' => Ascii.eqb d e && like p' t'
      | _, _ => false
      end
    else
      match text with
      | EmptyString => false
      | String e t' => Ascii.eqb c e && like p t'
      end
  end.

Definition ilike (fold : string -> string) (value pattern : string) : bool :=
  like (fold pattern) (fold value).

End Sql.

Module Notes.
Import Payment.

(** The audit row [logPaymentFailure] submits. *)
Definition failure_entry (env : Env) (errorMessage : string) : AuditEntry :=
  mkAudit (user_id_or_null (auth_user env)) "payment_creation_failed"
          (new_transaction_id env) errorMessage false.

(** The rows the audit log gains when the store accepts the insert. *)
Definition logged (env : Env) (errorMessage : string) : list AuditEntry :=
  if audit_insert_ok env then [failure_entry env errorMessage] else [].

(** The error [createPaymentIntent] raises for an unresolved identifier. *)
Definition not_found_error (env : Env) (serviceIdentifier : string) : Error :=
  enhanceError
    (PaymentError "SERVICE_NOT_FOUND"
       ("Service not found: " ++ serviceIdentifier
        ++ ". Please check the service ID and try again."))
    (new_transaction_id env).

Definition empty_world : World := mkWorld [] [] 0 [].

(** The intent the service hands back for the provider's invoice. *)
Definition with_transaction (inv : PaymentIntent) (transactionId : string)
  : PaymentIntent :=
  mkIntent (invoice_id inv) (invoice_number inv) (payment_url inv) (total inv)
           (invoice_status inv) (customer_id inv) transactionId.

(** The [k]-th call of the invoicing client raises [e], whatever it is
    asked. *)
Definition invoicing_raises (env : Env) (k : nat) (e : Error) : Prop :=
  forall order service client quantity transactionId w,
    zoho_attempts w = k ->
    fst (createZohoInvoiceAttempt env order service client quantity
                                  transactionId w) = Throw e.

(** The [k]-th call of the invoicing client returns the invoice [inv]. *)
Definition invoicing_returns (env : Env) (k : nat) (inv : PaymentIntent) : Prop :=
  forall order service client quantity transactionId w,
    zoho_attempts w = k ->
    fst (createZohoInvoiceAttempt env order service client quantity
                                  transactionId w)
    = Ok (with_transaction inv transactionId).

(** The row written by step 6 of [createPaymentIntentAttempt]. *)
Definition step6_order (env : Env) (user : User) (serviceId packageType : string)
           (totalPrice : number) (currency id : string) : Order :=
  let amounts := calculateCurrencyAmounts env totalPrice currency in
  mkOrder id (user_id user) serviceId packageType
          (usd amounts) (inr amounts) (aud amounts)
          currency "pending" "zoho" None None.

(** Steps 1 to 6 go through: a verified user, a service that resolves to
    [serviceId] and offers the package, a client profile, and a store that
    accepts the order. *)
Definition reaches_invoicing (env : Env) (serviceIdentifier packageType : string)
           (user : User) (serviceId : string) (service : Service)
           (client : Client) : Prop :=
  auth_error env = false /\ auth_user env = Some user
  /\ is_confirmed user = true
  /\ fst (resolveServiceWithFallback env serviceIdentifier empty_world)
     = Ok (Some serviceId)
  /\ serviceId <> ""
  /\ getServiceById env serviceId = Ok (Some service)
  /\ package_available service packageType = true
  /\ clients_error env = false
  /\ find (fun c => client_id c =? user_id user) (clients env) = Some client
  /\ order_insert_error env = None.

(** The invoice requests recorded in a trace. *)
Fixpoint posts_of (evs : list Event) : list nat :=
  match evs with
  | [] => []
  | EvInvoicePost k _ :: rest => k :: posts_of rest
  | _ :: rest => posts_of rest
  end.

End Notes.

(** * A sample store and provider scripts *)

Module Sample.
Import Payment.
Import Notes.

Definition email_migration : Service :=
  mkService "11111111-1111-4111-8111-111111111111" "Email Migration & Setup"
            "email" (Some [("basic", Number.of_Z 4)]).

Definition ssl_setup : Service :=
  mkService "22222222-2222-4222-9222-222222222222" "SSL & HTTPS Setup"
            "security"
            (Some [("basic", Number.of_Z 7); ("standard", Number.of_Z 10);
                   ("enterprise", Number.of_Z 25)]).

Definition catalog : list Service := [email_migration; ssl_setup].

Definition lookup (id : string) : Result (option Service) :=
  Ok (find (fun s => service_id s =? id) catalog).

Definition alice : User := mkUser "user-1" (Some "2025-01-01T00:00:00Z").
Definition alice_unverified : User := mkUser "user-1" None.
Definition alice_profile : Client :=
  mkClient "user-1" "Alice" "alice@example.com" None None.

Definition invoice : PaymentIntent :=
  mkIntent "INV-1" "INV-000001" "https://invoice.zoho.in/invoices/INV-1/payment"
           (Number.of_Z 200) "draft" "CUST-1" "".

Definition order_ids (n : nat) : string := "order-" ++ showZ (Z.of_nat n).

(** An environment from the parts that vary between scenarios.  The texts
    of the scenarios are ASCII, so the case mapping is the one of ASCII
    letters; the store matches patterns as SQL has it; the conversion module
    is missing, so the fixed rates apply. *)
Definition scenario (user : User) (store : Stage -> QueryStatus)
           (health : nat -> HealthReply) (post : nat -> InvoiceReply) : Env :=
  mkEnv lower_ascii_text (Some user) false catalog (Sql.ilike lower_ascii_text)
        store lookup [alice_profile] false
        None None order_ids true true health post "txn_1_abc".

Definition healthy (_ : nat) : HealthReply := HealthJson true None.
Definition answered (_ : Stage) : QueryStatus := Answered.

(** Everything works. *)
Definition base : Env :=
  scenario alice answered healthy (fun _ => PostSuccess invoice).

(** The user has not confirmed the address. *)
Definition unverified : Env :=
  scenario alice_unverified answered healthy (fun _ => PostSuccess invoice).

(** The store cannot be reached. *)
Definition store_down : Env :=
  scenario alice (fun _ => Rejected "Failed to fetch") healthy
           (fun _ => PostSuccess invoice).

(** The reply of the edge function when the provider times out: status 500
    with the error in a JSON body. *)
Definition quoted (s : string) : string := dquote ++ s ++ dquote.

Definition upstream_timeout : InvoiceReply :=
  PostNotOk 500
            ("{" ++ quoted "success" ++ ":false," ++ quoted "error" ++ ":"
             ++ quoted "Invoice creation failed: 504 upstream request timeout" ++ "}")
            (JsonError (Some "Invoice creation failed: 504 upstream request timeout")).

(** The error the service raises for [upstream_timeout]; its message
    contains the word timeout, so it is classified as retryable. *)
Definition timeout_error : Error :=
  PaymentError "ZOHO_API_ERROR"
    "Payment gateway error: Invoice creation failed: 504 upstream request timeout".

(** The invoice request times out twice, then succeeds. *)
Definition twice_then_ok : Env :=
  scenario alice answered healthy
           (fun n => if (n <? 2)%nat then upstream_timeout else PostSuccess invoice).

(** The invoice request times out every time. *)
Definition always_timeout : Env :=
  scenario alice answered healthy (fun _ => upstream_timeout).

(** A request for one mailbox migration at 20.01 USD. *)
Definition mailbox_order : Alternative.OrderData :=
  Alternative.mkOrderData "11111111-1111-4111-8111-111111111111"
                          "Email Migration & Setup" "basic" (Number.dec 2001 2) "USD"
                          "alice@example.com" "Alice".

Definition show_2001 (_ : number) : string := "20.01".

(** The same request paid in rupees: 8325 INR. *)
Definition rupee_order : Alternative.OrderData :=
  Alternative.mkOrderData "11111111-1111-4111-8111-111111111111"
                          "Email Migration & Setup" "basic" (Number.of_Z 8325) "INR"
                          "alice@example.com" "Alice".

(** A host whose case mapping also knows the accented capitals of Latin-1:
    in UTF-8 they are the byte 195 followed by a byte from 128 to 158 other
    than 151, and the small letter is 32 further. *)
Fixpoint lower_latin (s : string) : string :=
  match s with
  | EmptyString => EmptyString
  | String c t =>
    match t with
    | String d u =>
      let n := nat_of_ascii d in
      if (nat_of_ascii c =? 195)%nat && (128 <=? n)%nat && (n <=? 158)%nat
         && negb (n =? 151)%nat
      then String c (String (ascii_of_nat (n + 32)) (lower_latin u))
      else String (lower_ascii c) (lower_latin t)
    | EmptyString => String (lower_ascii c) EmptyString
    end
  end.

(** E and e with an acute accent. *)
Definition E_acute : string := String (ascii_of_nat 195) (String (ascii_of_nat 137) "").
Definition e_acute : string := String (ascii_of_nat 195) (String (ascii_of_nat 169) "").

Definition cafe_setup : Service :=
  mkService "33333333-3333-4333-8333-333333333333" ("Caf" ++ e_acute ++ " Setup")
            "hospitality" (Some [("basic", Number.of_Z 9)]).

(** A catalogue with an accented name, on such a host. *)
Definition latin : Env :=
  mkEnv lower_latin (Some alice) false [cafe_setup] (Sql.ilike lower_latin)
        answered lookup [alice_profile] false
        None None order_ids true true healthy (fun _ => PostSuccess invoice)
        "txn_1_abc".

(** The gateway refuses the credentials on every request. *)
Definition unauthorized : Env :=
  scenario alice answered healthy (fun _ => PostNotOk 401 "Unauthorized" NotJson).

(** The invoice request times out three times, through the first attempt,
    and the gateway refuses the credentials from then on. *)
Definition timeout_then_unauthorized : Env :=
  scenario alice answered healthy
           (fun n => if (n <? 3)%nat then upstream_timeout
                     else PostNotOk 401 "Unauthorized" NotJson).

End Sample.

(** * The exact value of a number *)

Module Exact.

(** The value of a finite number, a rational; 0 stands for the others. *)
Definition value (x : number) : Q :=
  match x with
  | S754_finite s m e => ((if s then -1 else 1) * inject_Z (Z.pos m) * 2 ^ e)%Q
  | _ => 0%Q
  end.

(** 2^-52: rounding to the nearest number moves a value in the normal range
    by at most this fraction of it. *)
Definition eps : Q := (1 # 4503599627370496)%Q.

(** A positive number with a full mantissa, between a millionth and
    10^18. *)
Definition ordinary (x : number) : Prop :=
  exists m e, x = S754_finite false m e
              /\ (2 ^ 52 <= Z.pos m < 2 ^ 53)%Z
              /\ ((1 # 1000000) <= value x <= (1000000000000000000 # 1))%Q.

End Exact.

(** * Vocabulary of the statements about money *)

Module Money.
Import Payment.

Definition supported (c : string) : Prop := c = "USD" \/ c = "INR" \/ c = "AUD".

(** The stored amount for currency [c]. *)
Definition component (a : Amounts) (c : string) : number :=
  if c =? "USD" then usd a else if c =? "INR" then inr a else aud a.

(** The conversion module is missing or raises: the fixed rates apply. *)
Definition on_fallback_path (env : Env) (x : number) (c : string) : Prop :=
  match currency_module env with
  | None => True
  | Some convertCurrency => exists e, live_amounts convertCurrency x c = Throw e
  end.

(** Two numbers that are equal, as [===] has it. *)
Definition equal (x y : number) : Prop := Number.eqb x y = true.

(** Exactly one of the three stored amounts is the amount [x]. *)
Definition exactly_one_equals (a : Amounts) (x : number) : Prop :=
  (equal (usd a) x /\ ~ equal (inr a) x /\ ~ equal (aud a) x)
  \/ (~ equal (usd a) x /\ equal (inr a) x /\ ~ equal (aud a) x)
  \/ (~ equal (usd a) x /\ ~ equal (inr a) x /\ equal (aud a) x).

(** The stored amount of an order for currency [c]. *)
Definition order_amount (o : Order) (c : string) : number :=
  if c =? "USD" then amount_usd o else if c =? "INR" then amount_inr o
  else amount_aud o.

(** Two order rows with the same content, gateway tag and identifiers aside:
    client, service, package, the three amounts, currency and status. *)
Definition same_content (a b : Order) : Prop :=
  order_client_id a = order_client_id b
  /\ order_service_id a = order_service_id b
  /\ package_type a = package_type b
  /\ equal (amount_usd a) (amount_usd b)
  /\ equal (amount_inr a) (amount_inr b)
  /\ equal (amount_aud a) (amount_aud b)
  /\ currency a = currency b
  /\ status a = status b.

End Money.

(** * A sample provider *)

Module SampleProvider.
Import ZohoApi.

Definition config : ZohoConfig := mkConfig "client" "secret" "refresh" "60001".

Definition alice : CustomerData :=
  mkCustomerData "Alice" "alice@example.com" None None.

Definition alice_contact : Contact := mkContact "CUST-1" "Alice" "alice@example.com".

(** Fifty mailboxes at 4.00 USD. *)
Definition request : InvoiceRequest :=
  mkInvoiceRequest alice
                   [mkServiceItem "Email Migration & Setup" "basic" 50
                                  (Number.of_Z 4) (Number.of_Z 200)]
                   "USD" None.

Definition draft : Invoice :=
  mkInvoice "INV-1" "INV-000001" (Number.of_Z 200) "draft" None.
Definition sent : Invoice :=
  mkInvoice "INV-1" "INV-000001" (Number.of_Z 200) "sent" None.
Definition published : Invoice :=
  mkInvoice "INV-1" "INV-000001" (Number.of_Z 200) "sent"
            (Some "https://zohosecurepay.in/invoice/mechinweb/secure?CInvoiceID=INV-1").

(** 14 November 2023, 22:13:20 UTC. *)
Definition now : Z := 1700000000000.

Definition duplicate_name : ApiError :=
  mkApiError (Some 3062%Z) (Some "The customer already exists.").

Definition duplicate_text : string :=
  "{" ++ Sample.quoted "code" ++ ":3062," ++ Sample.quoted "message" ++ ":"
  ++ Sample.quoted "The customer already exists." ++ "}".

(** A provider that already knows Alice by her address. *)
Definition knows_alice : Provider :=
  mkProvider (fun _ _ => NotOk 400 duplicate_text (Some duplicate_name))
             (fun _ _ => OkJson (Some [alice_contact]))
             (fun _ _ => OkJson (Some [alice_contact]))
             (fun _ _ => OkJson (Some draft))
             (fun _ _ => OkJson (Some sent))
             (fun _ _ => OkJson (Some published)).

(** A provider that knows a contact of that name under another address. *)
Definition knows_the_name : Provider :=
  mkProvider (fun _ _ => NotOk 400 duplicate_text (Some duplicate_name))
             (fun _ _ => OkJson (Some []))
             (fun _ _ => OkJson (Some [alice_contact]))
             (fun _ _ => OkJson (Some draft))
             (fun _ _ => OkJson (Some sent))
             (fun _ _ => OkJson (Some published)).

Definition alice_payload : ContactPayload :=
  mkContactPayload "Alice" "" "alice@example.com" "".

(** The invoice body both revisions build for [request], up to the invoice
    number. *)
Definition invoice_payload (invoiceNumber : option string) : InvoicePayload :=
  mkInvoicePayload "CUST-1" invoiceNumber 19675 19705
    [mkLineItem "Email Migration & Setup"
                "Email Migration & Setup - basic Package (Quantity: 50)"
                (Number.of_Z 4) 50 (Number.of_Z 200)]
    "Thank you for choosing Mechinweb!" terms_text "USD".

End SampleProvider.

(** * Vocabulary of the statements about the edge function *)

Module ZohoSpec.
Import ZohoApi.

(** The contact a search reply yields: the first of a non-empty list. *)
Definition found (r : Reply (list Contact)) : option Contact :=
  match r with
  | OkJson (Some (c :: _)) => Some c
  | _ => None
  end.

(** The portal address a get-invoice reply yields, when it has one. *)
Definition fetched_url (r : Reply Invoice) : option string :=
  match r with
  | OkJson (Some inv) =>
    match invoice_url inv with
    | Some EmptyString | None => None
    | Some u => Some u
    end
  | _ => None
  end.

Definition contact_payload (customerData : CustomerData) : ContactPayload :=
  mkContactPayload (name customerData)
                   (Payment.or_else (company customerData) "")
                   (email customerData)
                   (Payment.or_else (phone customerData) "").

(** Find-or-create as the specification words it: look the customer up by
    address; create only when none is found; when the creation is rejected
    because the customer exists, search by address again, then by name. *)
Definition find_or_create (p : Provider) (customerData : CustomerData) (h : History)
  : option Contact * History :=
  let byEmail := SearchContactsByEmail (email customerData) in
  let h1 := (h ++ [byEmail])%list in
  match found (contacts_by_email p h (email customerData)) with
  | Some c => (Some c, h1)
  | None =>
    let h2 := (h1 ++ [CreateContact (contact_payload customerData)])%list in
    match create_contact p h1 (contact_payload customerData) with
    | OkJson (Some c) => (Some c, h2)
    | NotOk _ errorText parsed =>
      let errorData := match parsed with
                       | Some d => d
                       | None => mkApiError None (Some errorText)
                       end in
      if ZohoIntegrationRevised.already_exists errorData then
        let h3 := (h2 ++ [byEmail])%list in
        match found (contacts_by_email p h2 (email customerData)) with
        | Some c => (Some c, h3)
        | None =>
          let h4 := (h3 ++ [SearchContactsByName (name customerData)])%list in
          (found (contacts_by_name p h3 (name customerData)), h4)
        end
      else (None, h2)
    | _ => (None, h2)
    end
  end.

(** The contact a run returned, if it returned. *)
Definition returned {A} (r : Result A) : option A :=
  match r with
  | Ok a => Some a
  | Throw _ => None
  end.

End ZohoSpec.

(** * Vocabulary of the further properties *)

Module LoggerSpec.
Import Logger.

(** One call of [log] as data. *)
Record Call := mkCall {
  call_browser : Browser;
  call_level : Level;
  call_message : string;
  call_data : option string;
  call_component : option string
}.

(** The entry a call adds, for a logger of session [sid]. *)
Definition entry_of (sid : string) (c : Call) : LogEntry :=
  mkLogEntry (now (call_browser c)) (call_level c) (call_message c) (call_data c)
             (call_component c) sid (href (call_browser c)) (agent (call_browser c)).

(** The calls made one after the other. *)
Definition log_all (calls : list Call) (st : State) : State :=
  fold_left (fun s c => log (call_browser c) (call_level c) (call_message c)
                            (call_data c) (call_component c) s)
            calls st.

Definition sample_browser : Browser :=
  mkBrowser "2025-10-01T04:36:43.000Z" "https://mechinweb.com/services" "agent" true false.

Definition fresh : State := mkState [] "session_1_abc" NoItem [].

End LoggerSpec.

Module PaymentSpec.
Import Payment.
Import Notes.

(** The order of step 6 once step 8 has written the provider's identifiers
    into it. *)
Definition invoiced_order (env : Env) (user : User) (serviceId packageType : string)
           (totalPrice : number) (currency id : string) (inv : PaymentIntent) : Order :=
  let o := step6_order env user serviceId packageType totalPrice currency id in
  mkOrder (order_id o) (order_client_id o) (order_service_id o) (package_type o)
          (amount_usd o) (amount_inr o) (amount_aud o) (Payment.currency o)
          (status o) (payment_gateway o)
          (Some (invoice_id inv)) (Some (customer_id inv)).

(** How many errors an error carries inside its details, one inside the
    other. *)
Fixpoint nesting (e : Error) : nat :=
  match e with
  | mkError _ _ d _ =>
    match d with
    | NoDetails => 0%nat
    | mkDetails _ original => S (nesting original)
    end
  end.

(** The sum of the waits recorded in a trace, in milliseconds. *)
Definition total_delay (evs : list Event) : Z :=
  fold_right Z.add 0%Z (Spec.delays_of evs).

(** The stored amount of an order in its own currency, as
    [createZohoInvoiceAttempt] picks it. *)
Definition charged (o : Order) : number :=
  if Payment.currency o =? "USD" then amount_usd o
  else if Payment.currency o =? "INR" then amount_inr o
  else amount_aud o.

(** The request the invoicing client posts for an order. *)
Definition invoice_request_for (order : Order) (service : Service) (client : Client)
           (quantity : Z) (transactionId : string) : InvoiceRequest :=
  mkInvoiceRequest
    (mkCustomerData (client_name client) (client_email client)
                    (or_else (client_phone client) "")
                    (or_else (client_company client) ""))
    [mkServiceItem (service_id service) (service_name service)
                   (package_type order) quantity
                   (charged order / Number.of_Z quantity)%num (charged order)]
    (Payment.currency order)
    ("Order ID: " ++ order_id order ++ nl
     ++ "Transaction ID: " ++ transactionId ++ nl
     ++ "Service: " ++ service_name service ++ nl
     ++ "Package: " ++ package_type order ++ nl
     ++ "Quantity: " ++ showZ quantity).

(** The first invoice request recorded in a trace. *)
Fixpoint first_post (evs : list Event) : option InvoiceRequest :=
  match evs with
  | [] => None
  | EvInvoicePost _ body :: _ => Some body
  | _ :: rest => first_post rest
  end.

(** The number of checks of a health report that failed. *)
Definition failed_checks (r : PaymentExtra.Report) : nat :=
  length (filter negb [PaymentExtra.database r; PaymentExtra.zoho r;
                       PaymentExtra.services r]).

(** The world once the edge function has been probed. *)
Definition probed (w : World) : World :=
  mkWorld (orders w) (audit w) (S (zoho_attempts w))
          (events w ++ [EvHealth (zoho_attempts w)]).

(** The arguments of [createDirectPayment] as the order data of a channel. *)
Definition direct_order_data (serviceId packageType : string) (amount : number)
           (currency : string) : Alternative.OrderData :=
  Alternative.mkOrderData serviceId "" packageType amount currency "" "".

End PaymentSpec.

Module LinkSpec.

(** How often a character occurs in a text. *)
Fixpoint occurrences (c : ascii) (s : string) : nat :=
  match s with
  | EmptyString => 0
  | String d t => (if Ascii.eqb c d then 1 else 0) + occurrences c t
  end.

End LinkSpec.

Module EdgeSpec.
Import ZohoApi.
Import EdgeFunction.

(** A request body that passes the checks of the handler. *)
Definition well_formed (req : HttpRequest) : bool :=
  match body req with
  | None => false
  | Some requestData =>
    match raw_customerData requestData with
    | None => false
    | Some customerData =>
      negb (email customerData =? "")
      && negb (name customerData =? "")
      && negb (length (raw_serviceItems requestData) =? 0)%nat
      && negb (raw_currency requestData =? "")
    end
  end.

Definition is_failure (p : Payload) : bool :=
  match p with
  | Failed _ _ => true
  | _ => false
  end.

(** How the payment service reads an answer to its probe: [response.ok],
    then the members [success] and [error] of the body. *)
Definition health_reply (resp : HttpResponse) : Payment.HealthReply :=
  if (200 <=? status resp)%Z && (status resp <=? 299)%Z then
    match payload resp with
    | NoContent => Payment.HealthRejected "Unexpected end of JSON input"
    | Working _ => Payment.HealthJson true None
    | Created _ _ => Payment.HealthJson true None
    | Failed e _ => Payment.HealthJson false (Some e)
    end
  else Payment.HealthNotOk (status resp).

(** What both revisions of [createZohoInvoice] grant when they return. *)
Definition bills_the_given_customer
           (createZohoInvoice :
              Provider -> ZohoConfig -> Z -> string
              -> InvoiceRequest -> M History InvoiceResult)
  : Prop :=
  forall p config now customerId invoiceData h r h',
    createZohoInvoice p config now customerId invoiceData h = (Ok r, h') ->
    r_customer_id r = customerId
    /\ valid_customer_id customerId = true
    /\ exists payload rest,
        h' = (h ++ CreateInvoice payload :: rest)%list
        /\ ip_customer_id payload = customerId.

Definition probe_request : HttpRequest := mkRequest "GET" None.

Section Wired.

Variable createZohoCustomer :
  Provider -> ZohoConfig -> CustomerData -> M History Contact.
Variable createZohoInvoice :
  Provider -> ZohoConfig -> Z -> string -> InvoiceRequest -> M History InvoiceResult.

(** The answer the payment service gets when its probe is served by the
    handler. *)
Definition probe_answer (config : ZohoConfig) (platform : Platform) (now : Z)
           (cs : Calls) : Payment.HealthReply :=
  match fst (serve createZohoCustomer createZohoInvoice config platform now
                   probe_request cs) with
  | Ok resp => health_reply resp
  | Throw e => Payment.HealthRejected (JS.message e)
  end.

End Wired.

End EdgeSpec.

Module SampleEdge.
Import ZohoApi.
Import EdgeFunction.
Import EdgeSpec.

(** The token endpoint hands out a token, the contacts list answers, and
    the provider already knows Alice. *)
Definition platform : Platform :=
  mkPlatform (fun _ => OkJson (Some "token-1")) (fun _ => OkJson (Some []))
             SampleProvider.knows_alice.

Definition no_client_id : ZohoConfig := mkConfig "" "secret" "refresh" "60001".

Definition invoice_post : HttpRequest :=
  mkRequest "POST"
            (Some (mkRawBody (Some SampleProvider.alice)
                             (serviceItems SampleProvider.request) "USD" None)).

Definition empty_post : HttpRequest :=
  mkRequest "POST" (Some (mkRawBody None [] "" None)).

(** The payment service in front of an edge function that lacks a secret. *)
Definition misconfigured : Payment.Env :=
  Sample.scenario Sample.alice Sample.answered
                  (fun _ => probe_answer ZohoIntegration.createZohoCustomer
                                         ZohoIntegration.createZohoInvoice
                                         no_client_id platform SampleProvider.now [])
                  (fun _ => Payment.PostSuccess Sample.invoice).

End SampleEdge.
(** * Numbers: what rounding does

    The operations on numbers are those of the Standard Library's
    [SpecFloat].  This part relates them to exact arithmetic: the result of
    a product or a quotient in the normal range is within a fraction
    [2^-52] of the exact result, and [toFixed2] gives the nearest number of
    hundredths. *)

Import Exact.
Import Payment.

Section Mantissas.

Local Open Scope Z_scope.

Lemma digits2_pos_spec (p : positive) :
  2 ^ (Z.pos (digits2_pos p) - 1) <= Z.pos p < 2 ^ Z.pos (digits2_pos p).
Proof.
  induction p as [p IH|p IH|]; cbn [digits2_pos].
  - rewrite Pos2Z.inj_succ.
    replace (Z.succ (Z.pos (digits2_pos p)) - 1) with (Z.succ (Z.pos (digits2_pos p) - 1)) by lia.
    rewrite !Z.pow_succ_r by lia. lia.
  - rewrite Pos2Z.inj_succ.
    replace (Z.succ (Z.pos (digits2_pos p)) - 1) with (Z.succ (Z.pos (digits2_pos p) - 1)) by lia.
    rewrite !Z.pow_succ_r by lia. lia.
  - cbn. lia.
Qed.

Lemma Zdigits2_spec (m : Z) :
  0 < m -> 2 ^ (Zdigits2 m - 1) <= m < 2 ^ Zdigits2 m.
Proof.
  destruct m as [|p|p]; try lia. intros _. apply digits2_pos_spec.
Qed.

Lemma Zdigits2_pos (m : Z) : 0 < m -> 0 < Zdigits2 m.
Proof. destruct m; cbn; lia. Qed.

Lemma Zdigits2_unique (m d : Z) :
  2 ^ (d - 1) <= m < 2 ^ d -> 0 < m -> Zdigits2 m = d.
Proof.
  intros H Hm. pose proof (Zdigits2_spec m Hm) as S.
  pose proof (Zdigits2_pos m Hm) as P.
  assert (D : 0 < d).
  { destruct (Z_lt_le_dec 0 d) as [|N]; [assumption|].
    assert (2 ^ d <= 1).
    { destruct (Z.eq_dec d 0) as [->|]; [cbn; lia|].
      rewrite Z.pow_neg_r by lia. lia. }
    lia. }
  destruct (Z.lt_trichotomy (Zdigits2 m) d) as [L|[E|G]]; [|exact E|].
  - assert (2 ^ Zdigits2 m <= 2 ^ (d - 1)) by (apply Z.pow_le_mono_r; lia). lia.
  - assert (2 ^ d <= 2 ^ (Zdigits2 m - 1)) by (apply Z.pow_le_mono_r; lia). lia.
Qed.

Lemma shr_1_m (r : shr_record) :
  0 <= shr_m r -> shr_m (shr_1 r) = shr_m r / 2.
Proof.
  destruct r as [m r s]. cbn [shr_m]. intros H.
  destruct m as [|[p|p|]|p]; cbn [shr_1 shr_m]; try lia.
  - reflexivity.
  - apply Z.div_unique with (r := 1); lia.
  - apply Z.div_unique with (r := 0); lia.
  - reflexivity.
Qed.

Lemma iter_shr_1_m (p : positive) (r : shr_record) :
  0 <= shr_m r -> shr_m (SpecFloat.iter_pos shr_1 p r) = shr_m r / 2 ^ Z.pos p.
Proof.
  revert r. induction p as [p IH|p IH|]; intros r H; cbn [SpecFloat.iter_pos].
  - assert (H1 : 0 <= shr_m (shr_1 r)).
    { rewrite shr_1_m by assumption. apply Z.div_pos; lia. }
    assert (H2 : 0 <= shr_m (SpecFloat.iter_pos shr_1 p (shr_1 r))).
    { rewrite IH by assumption. apply Z.div_pos; lia. }
    rewrite IH, IH, shr_1_m by assumption.
    rewrite !Z.div_div by lia.
    f_equal.
    replace (Z.pos p~1) with (1 + Z.pos p + Z.pos p) by lia.
    rewrite !Z.pow_add_r by lia. rewrite Z.pow_1_r, Z.mul_assoc. reflexivity.
  - assert (H2 : 0 <= shr_m (SpecFloat.iter_pos shr_1 p r)).
    { rewrite IH by assumption. apply Z.div_pos; lia. }
    rewrite IH, IH by assumption.
    rewrite !Z.div_div by lia.
    f_equal.
    replace (Z.pos p~0) with (Z.pos p + Z.pos p) by lia.
    rewrite !Z.pow_add_r by lia. reflexivity.
  - rewrite shr_1_m by assumption. reflexivity.
Qed.

Lemma shr_record_of_loc_m (m : Z) (l : location) :
  shr_m (shr_record_of_loc m l) = m.
Proof. destruct l as [|[]]; reflexivity. Qed.

Lemma round_nearest_even_cases (m : Z) (l : location) :
  round_nearest_even m l = m \/ round_nearest_even m l = m + 1.
Proof.
  destruct l as [|[]]; cbn; auto. destruct (Z.even m); auto.
Qed.

(** Shifting a mantissa of [d] digits, 53 <= d, down to 53 digits. *)
Lemma shr_fexp_normal (m e : Z) (l : location) :
  2 ^ 52 <= m ->
  -1021 <= Zdigits2 m + e ->
  let n := Zdigits2 m - 53 in
  exists r, shr_fexp 53 1024 m e l = (r, e + n) /\ shr_m r = m / 2 ^ n.
Proof.
  intros Hm He n.
  assert (Hp : 0 < m) by lia.
  pose proof (Zdigits2_spec m Hp) as S.
  assert (Hd : 53 <= Zdigits2 m).
  { destruct (Z_lt_le_dec (Zdigits2 m) 53) as [L|]; [|assumption].
    assert (2 ^ Zdigits2 m <= 2 ^ 52) by (apply Z.pow_le_mono_r; lia). lia. }
  unfold shr_fexp, fexp, SpecFloat.emin.
  replace (Z.max (Zdigits2 m + e - 53) (3 - 1024 - 53) - e) with n by (unfold n; lia).
  unfold shr. destruct n as [|p|p] eqn:En.
  - eexists; split; [rewrite Z.add_0_r; reflexivity|].
    rewrite shr_record_of_loc_m. cbn. rewrite Z.div_1_r. reflexivity.
  - eexists; split; [reflexivity|].
    rewrite iter_shr_1_m by (rewrite shr_record_of_loc_m; lia).
    rewrite shr_record_of_loc_m. reflexivity.
  - unfold n in En. lia.
Qed.

(** Rounding a positive mantissa of at least 53 digits, in the range of
    the normal numbers: the result is finite, its mantissa has 53 digits, and
    its value is one of the two neighbours [M * 2^E] and [(M + 1) * 2^E] of
    the value rounded, where [M] is the mantissa cut to 53 digits. *)
Lemma binary_round_aux_normal (s : bool) (mx ex : Z) (l : location) :
  2 ^ 52 <= mx ->
  -1021 <= Zdigits2 mx + ex <= 1023 ->
  let n := Zdigits2 mx - 53 in
  exists m j,
    binary_round_aux 53 1024 s mx ex l = S754_finite s m (ex + n + j)
    /\ 2 ^ 52 <= Z.pos m < 2 ^ 53
    /\ 0 <= j <= 1
    /\ (Z.pos m * 2 ^ j = mx / 2 ^ n \/ Z.pos m * 2 ^ j = mx / 2 ^ n + 1).
Proof.
  intros Hm He n.
  assert (Hp : 0 < mx) by lia.
  pose proof (Zdigits2_spec mx Hp) as S.
  assert (Hd : 53 <= Zdigits2 mx).
  { destruct (Z_lt_le_dec (Zdigits2 mx) 53) as [L|]; [|assumption].
    assert (2 ^ Zdigits2 mx <= 2 ^ 52) by (apply Z.pow_le_mono_r; lia). lia. }
  assert (Hn : 0 <= n) by (unfold n; lia).
  set (M := mx / 2 ^ n).
  assert (HM : 2 ^ 52 <= M < 2 ^ 53).
  { unfold M.
    assert (P : 0 < 2 ^ n) by (apply Z.pow_pos_nonneg; lia).
    assert (E1 : 2 ^ (Zdigits2 mx - 1) = 2 ^ 52 * 2 ^ n)
      by (rewrite <- Z.pow_add_r by lia; f_equal; unfold n; lia).
    assert (E2 : 2 ^ Zdigits2 mx = 2 ^ 53 * 2 ^ n)
      by (rewrite <- Z.pow_add_r by lia; f_equal; unfold n; lia).
    split.
    - apply Z.div_le_lower_bound; lia.
    - apply Z.div_lt_upper_bound; lia. }
  unfold binary_round_aux.
  destruct (shr_fexp_normal mx ex l Hm (proj1 He)) as [r [E1 R1]].
  fold n in E1, R1. fold M in R1. rewrite E1.
  set (m2 := round_nearest_even (shr_m r) (loc_of_shr_record r)).
  assert (C : m2 = M \/ m2 = M + 1).
  { unfold m2. rewrite R1. apply round_nearest_even_cases. }
  assert (H2 : 2 ^ 52 <= m2 <= 2 ^ 53) by lia.
  destruct (Z_lt_le_dec m2 (2 ^ 53)) as [L|G].
  - assert (D2 : Zdigits2 m2 = 53) by (apply Zdigits2_unique; [cbn; lia | lia]).
    assert (E2 : shr_fexp 53 1024 m2 (ex + n) loc_Exact
                 = ({| shr_m := m2; shr_r := false; shr_s := false |}, ex + n)).
    { unfold shr_fexp, fexp, SpecFloat.emin. rewrite D2.
      replace (Z.max (53 + (ex + n) - 53) (3 - 1024 - 53) - (ex + n)) with 0
        by (unfold n; lia).
      reflexivity. }
    rewrite E2. cbn [shr_m].
    destruct m2 as [|p|p] eqn:Em; try lia.
    exists p, 0.
    replace (ex + n <=? 1024 - 53) with true
      by (symmetry; apply Z.leb_le; unfold n; lia).
    split; [rewrite Z.add_0_r; reflexivity|].
    split; [lia|]. split; [lia|].
    rewrite Z.pow_0_r, Z.mul_1_r. exact C.
  - assert (Em : m2 = 2 ^ 53) by lia.
    rewrite Em.
    exists (2 ^ 52)%positive, 1.
    assert (E2 : shr_fexp 53 1024 (2 ^ 53) (ex + n) loc_Exact
                 = ({| shr_m := 2 ^ 52; shr_r := false; shr_s := false |},
                    ex + n + 1)).
    { unfold shr_fexp, fexp, SpecFloat.emin.
      change (Zdigits2 (2 ^ 53)) with 54.
      replace (Z.max (54 + (ex + n) - 53) (3 - 1024 - 53) - (ex + n)) with 1
        by (unfold n; lia).
      reflexivity. }
    split.
    + rewrite E2. cbn [shr_m]. change (2 ^ 52) with (Z.pos (2 ^ 52)).
      cbv iota beta.
      replace (ex + n + 1 <=? 1024 - 53) with true
        by (symmetry; apply Z.leb_le; unfold n; lia).
      reflexivity.
    + split; [cbn; lia|]. split; [lia|].
      change (Z.pos (2 ^ 52) * 2 ^ 1) with (2 ^ 53). lia.
Qed.

End Mantissas.

Section Values.

Local Open Scope Q_scope.

Lemma pow2_pos (e : Z) : 0 < 2 ^ e.
Proof. apply Qpower_0_lt. reflexivity. Qed.

Lemma pow2_add (a b : Z) : 2 ^ (a + b) == 2 ^ a * 2 ^ b.
Proof. apply Qpower_plus. discriminate. Qed.

Lemma pow2_inject (n : Z) : (0 <= n)%Z -> 2 ^ n == inject_Z (2 ^ n).
Proof. intros H. rewrite Zpower_Qpower by assumption. reflexivity. Qed.

Lemma inject_le (a b : Z) : (a <= b)%Z -> inject_Z a <= inject_Z b.
Proof. intros H. rewrite <- Zle_Qle. exact H. Qed.

Lemma inject_lt (a b : Z) : (a < b)%Z -> inject_Z a < inject_Z b.
Proof. intros H. rewrite <- Zlt_Qlt. exact H. Qed.

(** Rounding, by value: a positive value [t] between [mx * 2^ex] and
    [(mx + 1) * 2^ex] is rounded to a number within [t * 2^-52] of it. *)
Lemma round_value (mx ex : Z) (l : location) (t : Q) :
  (2 ^ 52 <= mx)%Z ->
  (-1021 <= Zdigits2 mx + ex <= 1023)%Z ->
  inject_Z mx * 2 ^ ex <= t <= inject_Z (mx + 1) * 2 ^ ex ->
  exists m e,
    binary_round_aux 53 1024 false mx ex l = S754_finite false m e
    /\ (2 ^ 52 <= Z.pos m < 2 ^ 53)%Z
    /\ (Zdigits2 mx + ex - 53 <= e <= Zdigits2 mx + ex - 52)%Z
    /\ t * (1 - eps) <= inject_Z (Z.pos m) * 2 ^ e <= t * (1 + eps).
Proof.
  intros Hm He Ht.
  destruct (binary_round_aux_normal false mx ex l Hm He) as (m & j & E & N & J & C).
  set (n := (Zdigits2 mx - 53)%Z) in *.
  exists m, (ex + n + j)%Z. split; [exact E|]. split; [exact N|].
  split; [unfold n; lia|].
  assert (Hp : (0 < mx)%Z) by lia.
  pose proof (Zdigits2_spec mx Hp) as S.
  assert (Hd : (53 <= Zdigits2 mx)%Z).
  { destruct (Z_lt_le_dec (Zdigits2 mx) 53) as [L|]; [|assumption].
    assert (2 ^ Zdigits2 mx <= 2 ^ 52)%Z by (apply Z.pow_le_mono_r; lia). lia. }
  assert (Hn : (0 <= n)%Z) by (unfold n; lia).
  set (M := (mx / 2 ^ n)%Z) in *.
  assert (P : (0 < 2 ^ n)%Z) by (apply Z.pow_pos_nonneg; lia).
  assert (D1 : (M * 2 ^ n <= mx)%Z)
    by (unfold M; rewrite Z.mul_comm; apply Z.mul_div_le; lia).
  assert (D2 : (mx + 1 <= (M + 1) * 2 ^ n)%Z).
  { unfold M. pose proof (Z.mod_pos_bound mx (2 ^ n) P).
    pose proof (Z.div_mod mx (2 ^ n)). lia. }
  assert (HM : (2 ^ 52 <= M)%Z).
  { unfold M. apply Z.div_le_lower_bound; [lia|].
    assert (E1 : (2 ^ (Zdigits2 mx - 1) = 2 ^ 52 * 2 ^ n)%Z)
      by (rewrite <- Z.pow_add_r by lia; f_equal; unfold n; lia).
    lia. }
  set (u := 2 ^ ex * 2 ^ n).
  assert (U : 0 < u).
  { unfold u. apply Qmult_lt_0_compat; apply pow2_pos. }
  set (W := inject_Z M * u).
  assert (L1 : W <= t).
  { apply Qle_trans with (inject_Z mx * 2 ^ ex); [|tauto].
    unfold W, u. rewrite (pow2_inject n Hn).
    setoid_replace (inject_Z M * (2 ^ ex * inject_Z (2 ^ n)))
      with (inject_Z (M * 2 ^ n) * 2 ^ ex)
      by (rewrite inject_Z_mult; ring).
    apply Qmult_le_compat_r; [apply inject_le; exact D1|].
    apply Qlt_le_weak, pow2_pos. }
  assert (L2 : t <= W + u).
  { apply Qle_trans with (inject_Z (mx + 1) * 2 ^ ex); [tauto|].
    unfold W, u. rewrite (pow2_inject n Hn).
    setoid_replace (inject_Z M * (2 ^ ex * inject_Z (2 ^ n)) + 2 ^ ex * inject_Z (2 ^ n))
      with (inject_Z ((M + 1) * 2 ^ n) * 2 ^ ex)
      by (rewrite inject_Z_mult, inject_Z_plus; ring).
    apply Qmult_le_compat_r; [apply inject_le; exact D2|].
    apply Qlt_le_weak, pow2_pos. }
  assert (L3 : inject_Z (2 ^ 52) * u <= W).
  { unfold W. apply Qmult_le_compat_r; [apply inject_le; exact HM|].
    apply Qlt_le_weak; exact U. }
  assert (V : inject_Z (Z.pos m) * 2 ^ (ex + n + j) == W
              \/ inject_Z (Z.pos m) * 2 ^ (ex + n + j) == W + u).
  { assert (X : inject_Z (Z.pos m) * 2 ^ (ex + n + j)
                == inject_Z (Z.pos m * 2 ^ j) * u).
    { unfold u. rewrite !pow2_add, inject_Z_mult.
      rewrite (pow2_inject j) by lia. ring. }
    destruct C as [C|C]; rewrite X, C; [left|right]; unfold W.
    - reflexivity.
    - rewrite inject_Z_plus. ring. }
  change (inject_Z (2 ^ 52)) with (4503599627370496 # 1) in L3.
  unfold eps.
  destruct V as [V|V]; rewrite V; split; lra.
Qed.

Lemma normal_digits (m : Z) : (2 ^ 52 <= m < 2 ^ 53)%Z -> Zdigits2 m = 53%Z.
Proof. intros H. apply Zdigits2_unique; [cbn; lia | lia]. Qed.

(** The product of two positive numbers with 53-digit mantissas. *)
Lemma mul_value (mx my : positive) (ex ey : Z) :
  (2 ^ 52 <= Z.pos mx < 2 ^ 53)%Z ->
  (2 ^ 52 <= Z.pos my < 2 ^ 53)%Z ->
  (-1126 <= ex + ey <= 917)%Z ->
  let x := S754_finite false mx ex in
  let y := S754_finite false my ey in
  exists m e,
    Number.mul x y = S754_finite false m e
    /\ (2 ^ 52 <= Z.pos m < 2 ^ 53)%Z
    /\ (ex + ey + 52 <= e <= ex + ey + 54)%Z
    /\ value x * value y * (1 - eps) <= value (S754_finite false m e)
       <= value x * value y * (1 + eps).
Proof.
  intros Hx Hy He x y.
  assert (Hxy : (2 ^ 104 <= Z.pos (mx * my) < 2 ^ 106)%Z).
  { rewrite Pos2Z.inj_mul.
    change (2 ^ 104)%Z with (2 ^ 52 * 2 ^ 52)%Z.
    change (2 ^ 106)%Z with (2 ^ 53 * 2 ^ 53)%Z. nia. }
  assert (Hd : (105 <= Zdigits2 (Z.pos (mx * my)) <= 106)%Z).
  { pose proof (Zdigits2_spec (Z.pos (mx * my)) eq_refl) as S.
    split.
    - destruct (Z_lt_le_dec (Zdigits2 (Z.pos (mx * my))) 105) as [L|]; [|assumption].
      assert (2 ^ Zdigits2 (Z.pos (mx * my)) <= 2 ^ 104)%Z
        by (apply Z.pow_le_mono_r; lia). lia.
    - destruct (Z_lt_le_dec 106 (Zdigits2 (Z.pos (mx * my)))) as [L|]; [|assumption].
      assert (2 ^ 106 <= 2 ^ (Zdigits2 (Z.pos (mx * my)) - 1))%Z
        by (apply Z.pow_le_mono_r; lia). lia. }
  destruct (round_value (Z.pos (mx * my)) (ex + ey) loc_Exact (value x * value y))
    as (m & e & E & N & B & V).
  - assert (2 ^ 52 < 2 ^ 104)%Z by (cbn; lia). lia.
  - lia.
  - assert (X : value x * value y == inject_Z (Z.pos (mx * my)) * 2 ^ (ex + ey)).
    { unfold x, y, value. rewrite Pos2Z.inj_mul, inject_Z_mult, pow2_add. ring. }
    rewrite X. split; [apply Qle_refl|].
    apply Qmult_le_compat_r; [apply inject_le; lia|].
    apply Qlt_le_weak, pow2_pos.
  - exists m, e. split; [exact E|]. split; [exact N|]. split; [lia|].
    unfold value at 3 6. 
    setoid_replace (1 * inject_Z (Z.pos m) * 2 ^ e) with (inject_Z (Z.pos m) * 2 ^ e) by ring.
    exact V.
Qed.

(** The quotient of two positive numbers, the mantissa of the first at most
    53 digits longer than that of the second. *)
Lemma div_value (m1 m2 : positive) (e1 e2 : Z) :
  let d1 := Zdigits2 (Z.pos m1) in
  let d2 := Zdigits2 (Z.pos m2) in
  (d1 - d2 <= 53)%Z ->
  (-1021 <= d1 + e1 - (d2 + e2) <= 1022)%Z ->
  let x := S754_finite false m1 e1 in
  let y := S754_finite false m2 e2 in
  exists m e,
    Number.div x y = S754_finite false m e
    /\ (2 ^ 52 <= Z.pos m < 2 ^ 53)%Z
    /\ (d1 + e1 - (d2 + e2) - 53 <= e <= d1 + e1 - (d2 + e2) - 51)%Z
    /\ value x / value y * (1 - eps) <= value (S754_finite false m e)
       <= value x / value y * (1 + eps).
Proof.
  intros d1 d2 Hd HD x y.
  pose proof (Zdigits2_spec (Z.pos m1) eq_refl) as S1. fold d1 in S1.
  pose proof (Zdigits2_spec (Z.pos m2) eq_refl) as S2. fold d2 in S2.
  pose proof (Zdigits2_pos (Z.pos m1) eq_refl) as P1. fold d1 in P1.
  pose proof (Zdigits2_pos (Z.pos m2) eq_refl) as P2. fold d2 in P2.
  set (e' := (d1 + e1 - (d2 + e2) - 53)%Z).
  set (s := (53 - (d1 - d2))%Z).
  assert (Hs : (0 <= s)%Z) by (unfold s; lia).
  set (m' := (Z.pos m1 * 2 ^ s)%Z).
  set (q := (m' / Z.pos m2)%Z).
  set (r := (m' mod Z.pos m2)%Z).
  assert (Core : SFdiv_core_binary 53 1024 (Z.pos m1) e1 (Z.pos m2) e2
                 = (q, e', new_location (Z.pos m2) r)).
  { unfold SFdiv_core_binary. fold d1 d2.
    unfold fexp, SpecFloat.emin.
    replace (Z.min (Z.max (d1 + e1 - (d2 + e2) - 53) (3 - 1024 - 53)) (e1 - e2))
      with e' by (unfold e'; lia).
    replace (e1 - e2 - e')%Z with s by (unfold s, e'; lia).
    assert (Em : match s with
                 | 0%Z => Z.pos m1
                 | Z.pos _ => Z.shiftl (Z.pos m1) s
                 | Z.neg _ => 0%Z
                 end = m').
    { unfold m'. destruct s as [|p|p] eqn:Es.
      - cbn. lia.
      - rewrite Z.shiftl_mul_pow2 by lia. reflexivity.
      - lia. }
    rewrite Em. unfold q, r, Z.div, Z.modulo.
    destruct (Z.div_eucl m' (Z.pos m2)); reflexivity. }
  assert (Hm' : (2 ^ (d2 + 52) <= m' < 2 ^ (d2 + 53))%Z).
  { unfold m'.
    replace (d2 + 52)%Z with ((d1 - 1) + s)%Z by (unfold s; lia).
    replace (d2 + 53)%Z with (d1 + s)%Z by (unfold s; lia).
    rewrite !Z.pow_add_r by lia.
    assert (0 < 2 ^ s)%Z by (apply Z.pow_pos_nonneg; lia). nia. }
  assert (Hq : (2 ^ 52 <= q < 2 ^ 54)%Z).
  { unfold q. split.
    - apply Z.div_le_lower_bound; [lia|].
      replace (d2 + 52)%Z with (52 + d2)%Z in Hm' by lia.
      rewrite (Z.pow_add_r 2 52 d2) in Hm' by lia.
      assert (2 ^ 52 * Z.pos m2 <= 2 ^ 52 * 2 ^ d2)%Z
        by (apply Z.mul_le_mono_nonneg_l; [cbn|]; lia).
      apply Z.le_trans with (2 ^ 52 * 2 ^ d2)%Z; [|apply Hm'].
      rewrite (Z.mul_comm (Z.pos m2)). exact H.
    - apply Z.div_lt_upper_bound; [lia|].
      replace (d2 + 53)%Z with (54 + (d2 - 1))%Z in Hm' by lia.
      rewrite (Z.pow_add_r 2 54 (d2 - 1)) in Hm' by lia.
      assert (2 ^ 54 * 2 ^ (d2 - 1) <= 2 ^ 54 * Z.pos m2)%Z
        by (apply Z.mul_le_mono_nonneg_l; [cbn|]; lia).
      apply Z.lt_le_trans with (2 ^ 54 * 2 ^ (d2 - 1))%Z; [apply Hm'|].
      rewrite (Z.mul_comm (Z.pos m2)). exact H. }
  assert (Hdq : (53 <= Zdigits2 q <= 54)%Z).
  { pose proof (Zdigits2_spec q ltac:(lia)) as S.
    split.
    - destruct (Z_lt_le_dec (Zdigits2 q) 53) as [L|]; [|assumption].
      assert (2 ^ Zdigits2 q <= 2 ^ 52)%Z by (apply Z.pow_le_mono_r; lia). lia.
    - destruct (Z_lt_le_dec 54 (Zdigits2 q)) as [L|]; [|assumption].
      assert (2 ^ 54 <= 2 ^ (Zdigits2 q - 1))%Z by (apply Z.pow_le_mono_r; lia). lia. }
  destruct (round_value q e' (new_location (Z.pos m2) r) (value x / value y))
    as (m & e & E & N & B & V).
  - lia.
  - unfold e'. lia.
  - assert (X : value x / value y
                == inject_Z m' / inject_Z (Z.pos m2) * 2 ^ e').
    { unfold x, y, value, m'. rewrite inject_Z_mult.
      rewrite <- (pow2_inject s Hs).
      replace e1 with (s + e' + e2)%Z at 1 by (unfold s, e'; lia).
      rewrite !pow2_add.
      field. split.
      - assert (0 < inject_Z (Z.pos m2)) by (apply (inject_lt 0); lia). lra.
      - pose proof (pow2_pos e2). lra. }
    rewrite X.
    assert (B2 : 0 < inject_Z (Z.pos m2)) by (apply (inject_lt 0); lia).
    assert (Dm : (m' = Z.pos m2 * q + r)%Z) by (apply Z.div_mod; lia).
    assert (Rm : (0 <= r < Z.pos m2)%Z) by (apply Z.mod_pos_bound; lia).
    split.
    + apply Qmult_le_compat_r; [|apply Qlt_le_weak, pow2_pos].
      apply Qle_shift_div_l; [exact B2|].
      rewrite <- inject_Z_mult. apply inject_le. lia.
    + apply Qmult_le_compat_r; [|apply Qlt_le_weak, pow2_pos].
      apply Qle_shift_div_r; [exact B2|].
      rewrite <- inject_Z_mult. apply inject_le. lia.
  - exists m, e. unfold Number.div, SFdiv, x, y.
    unfold Number.prec, Number.emax. rewrite Core. cbn [xorb].
    split; [exact E|]. split; [exact N|]. split; [unfold e' in B; lia|].
    unfold value at 3 6. 
    setoid_replace (1 * inject_Z (Z.pos m) * 2 ^ e) with (inject_Z (Z.pos m) * 2 ^ e) by ring.
    exact V.
Qed.

Lemma ordinary_exponent (m : positive) (e : Z) :
  (2 ^ 52 <= Z.pos m < 2 ^ 53)%Z ->
  (1 # 1000000) <= value (S754_finite false m e) <= (1000000000000000000 # 1) ->
  (-73 <= e <= 8)%Z.
Proof.
  intros N [L H]. unfold value in L, H.
  assert (M1 : inject_Z (2 ^ 52) <= inject_Z (Z.pos m)) by (apply inject_le; lia).
  assert (M2 : inject_Z (Z.pos m) < inject_Z (2 ^ 53)) by (apply inject_lt; lia).
  change (inject_Z (2 ^ 52)) with (4503599627370496 # 1) in M1.
  change (inject_Z (2 ^ 53)) with (9007199254740992 # 1) in M2.
  pose proof (pow2_pos e) as P.
  split.
  - destruct (Z_lt_le_dec e (-73)) as [B|]; [|assumption]. exfalso.
    assert (X : 2 ^ e <= 2 ^ (-74)) by (apply Qpower_le_compat_l; [lia|discriminate]).
    assert (Y : (2:Q) ^ (-74) == 1 # (2 ^ 74)) by reflexivity.
    rewrite Y in X.
    assert (Z1 : inject_Z (Z.pos m) * 2 ^ e <= (9007199254740992 # 1) * (1 # 2 ^ 74)).
    { apply Qle_trans with (inject_Z (Z.pos m) * (1 # 2 ^ 74)).
      - apply Qmult_le_l; [lra|exact X].
      - apply Qmult_le_compat_r; [lra|discriminate]. }
    assert (Z2 : (9007199254740992 # 1) * (1 # 2 ^ 74) < 1 # 1000000) by reflexivity.
    lra.
  - destruct (Z_lt_le_dec 8 e) as [B|]; [|lia]. exfalso.
    assert (X : 2 ^ 9 <= 2 ^ e) by (apply Qpower_le_compat_l; [lia|discriminate]).
    assert (Y : (2:Q) ^ 9 == 512 # 1) by reflexivity.
    rewrite Y in X.
    assert (Z1 : (4503599627370496 # 1) * (512 # 1) <= inject_Z (Z.pos m) * 2 ^ e).
    { apply Qle_trans with (inject_Z (Z.pos m) * (512 # 1)).
      - apply Qmult_le_compat_r; [lra|discriminate].
      - apply Qmult_le_l; [lra|exact X]. }
    assert (Z2 : 1000000000000000000 # 1 < (4503599627370496 # 1) * (512 # 1)) by reflexivity.
    lra.
Qed.

Lemma ordinary_value (x : number) :
  ordinary x -> (1 # 1000000) <= value x <= (1000000000000000000 # 1).
Proof. intros (m & e & -> & _ & V). exact V. Qed.

Lemma mul_ordinary (x y : number) :
  ordinary x -> ordinary y ->
  (2 # 1000000) <= value x * value y <= (500000000000000000 # 1) ->
  ordinary (x * y)%num
  /\ value x * value y * (1 - eps) <= value (x * y)%num
     <= value x * value y * (1 + eps).
Proof.
  intros (mx & ex & -> & Nx & Vx) (my & ey & -> & Ny & Vy) [L H].
  pose proof (ordinary_exponent mx ex Nx Vx) as Ex.
  pose proof (ordinary_exponent my ey Ny Vy) as Ey.
  destruct (mul_value mx my ex ey Nx Ny ltac:(lia)) as (m & e & E & N & _ & V).
  cbv zeta in E, V. rewrite E.
  split; [|exact V].
  exists m, e. split; [reflexivity|]. split; [exact N|].
  unfold eps in V. split; lra.
Qed.

Lemma div_ordinary (x y : number) :
  ordinary x -> ordinary y ->
  (2 # 1000000) <= value x / value y <= (500000000000000000 # 1) ->
  ordinary (x / y)%num
  /\ value x / value y * (1 - eps) <= value (x / y)%num
     <= value x / value y * (1 + eps).
Proof.
  intros (mx & ex & -> & Nx & Vx) (my & ey & -> & Ny & Vy) [L H].
  pose proof (ordinary_exponent mx ex Nx Vx) as Ex.
  pose proof (ordinary_exponent my ey Ny Vy) as Ey.
  pose proof (normal_digits _ Nx) as Dx.
  pose proof (normal_digits _ Ny) as Dy.
  destruct (div_value mx my ex ey) as (m & e & E & N & _ & V).
  - rewrite Dx, Dy. lia.
  - rewrite Dx, Dy. lia.
  - cbv zeta in E, V. rewrite E.
    split; [|exact V].
    exists m, e. split; [reflexivity|]. split; [exact N|].
    unfold eps in V. split; lra.
Qed.

(** The number nearest to [k / 100]. *)
Lemma dec_ordinary (k : Z) :
  (1 <= k <= 1000000000000000000)%Z ->
  ordinary (Number.dec k 2)
  /\ inject_Z k / 100 * (1 - eps) <= value (Number.dec k 2)
     <= inject_Z k / 100 * (1 + eps).
Proof.
  intros Hk. destruct k as [|p|p]; try lia.
  unfold Number.dec. change (Number.pow10 2) with 100%positive.
  pose proof (Zdigits2_spec (Z.pos p) eq_refl) as S.
  pose proof (Zdigits2_pos (Z.pos p) eq_refl) as P.
  assert (D : (Zdigits2 (Z.pos p) <= 60)%Z).
  { destruct (Z_lt_le_dec 60 (Zdigits2 (Z.pos p))) as [L|]; [|assumption].
    assert (2 ^ 60 <= 2 ^ (Zdigits2 (Z.pos p) - 1))%Z by (apply Z.pow_le_mono_r; lia).
    assert (1000000000000000000 < 2 ^ 60)%Z by reflexivity. lia. }
  destruct (div_value p 100 0 0) as (m & e & E & N & _ & V).
  - change (Zdigits2 100) with 7%Z. lia.
  - change (Zdigits2 100) with 7%Z. lia.
  - cbv zeta in E, V. rewrite E.
    assert (X : value (S754_finite false p 0) / value (S754_finite false 100 0)
                == inject_Z (Z.pos p) / 100).
    { unfold value. change (inject_Z 100) with 100. rewrite Qpower_0_r.
      field. }
    rewrite X in V.
    split; [|exact V].
    exists m, e. split; [reflexivity|]. split; [exact N|].
    assert (K1 : inject_Z 1 <= inject_Z (Z.pos p)) by (apply inject_le; lia).
    assert (K2 : inject_Z (Z.pos p) <= inject_Z 1000000000000000000) by (apply inject_le; lia).
    change (inject_Z 1) with 1 in K1.
    change (inject_Z 1000000000000000000) with (1000000000000000000 # 1) in K2.
    assert (T : inject_Z (Z.pos p) / 100 == inject_Z (Z.pos p) * (1 # 100))
      by reflexivity.
    rewrite T in V. unfold eps in V. split; lra.
Qed.

(** [toFixed2] of an ordinary number is the number of [n] hundredths, for
    the integer [n] nearest to 100 times its value, the larger of two. *)
Lemma toFixed2_ordinary (x : number) :
  ordinary x ->
  exists n : Z,
    (0 <= n)%Z
    /\ 100 * value x - (1 # 2) < inject_Z n <= 100 * value x + (1 # 2)
    /\ Number.toFixed2 x = Number.dec n 2.
Proof.
  intros (m & e & -> & N & V).
  pose proof (ordinary_exponent m e N V) as E.
  destruct V as [_ V].
  assert (Vm : value (S754_finite false m e) == inject_Z (Z.pos m) * 2 ^ e)
    by (unfold value; ring).
  rewrite Vm in V.
  assert (Dec : forall n : Z, (0 <= n)%Z ->
            match n with
            | Z.pos p => Number.div (S754_finite false p 0) (S754_finite false 100 0)
            | _ => S754_zero false
            end = Number.dec n 2).
  { intros [|p|p] H; try reflexivity. lia. }
  destruct e as [|k|k].
  - (* exponent 0 *)
    rewrite Qpower_0_r in V, Vm.
    assert (B : (Z.pos m <= 1000000000000000000)%Z).
    { rewrite Zle_Qle. change (inject_Z 1000000000000000000) with (1000000000000000000 # 1). lra. }
    exists (Z.pos m * 100)%Z. split; [lia|]. split.
    + rewrite Vm, inject_Z_mult. change (inject_Z 100) with 100. split; lra.
    + unfold Number.toFixed2.
      replace (10 ^ 21 <=? Z.pos m * 2 ^ 0)%Z with false
        by (symmetry; apply Z.leb_gt; change (10 ^ 21)%Z with 1000000000000000000000%Z; lia).
      rewrite <- Dec by lia. rewrite Z.pow_0_r, Z.mul_1_r. reflexivity.
  - (* positive exponent *)
    assert (P : 2 ^ Z.pos k == inject_Z (2 ^ Z.pos k)) by (apply pow2_inject; lia).
    rewrite P in V, Vm.
    assert (Pz : (0 < 2 ^ Z.pos k)%Z) by (apply Z.pow_pos_nonneg; lia).
    assert (B : (Z.pos m * 2 ^ Z.pos k <= 1000000000000000000)%Z).
    { rewrite Zle_Qle, inject_Z_mult.
      change (inject_Z 1000000000000000000) with (1000000000000000000 # 1). lra. }
    exists (Z.pos m * 2 ^ Z.pos k * 100)%Z. split; [lia|]. split.
    + rewrite Vm, !inject_Z_mult. change (inject_Z 100) with 100. split; lra.
    + unfold Number.toFixed2.
      replace (10 ^ 21 <=? Z.pos m * 2 ^ Z.pos k)%Z with false
        by (symmetry; apply Z.leb_gt; change (10 ^ 21)%Z with 1000000000000000000000%Z; lia).
      rewrite <- Dec by lia. reflexivity.
  - (* negative exponent *)
    assert (Pz : (0 < 2 ^ Z.pos k)%Z) by (apply Z.pow_pos_nonneg; lia).
    assert (P : 2 ^ Z.neg k == / inject_Z (2 ^ Z.pos k)).
    { change (Z.neg k) with (- Z.pos k)%Z. rewrite Qpower_opp.
      rewrite (pow2_inject (Z.pos k)) by lia. reflexivity. }
    rewrite P in V, Vm.
    set (D := (2 ^ Z.pos k)%Z) in *.
    assert (QD : 0 < inject_Z D) by (apply (inject_lt 0); exact Pz).
    assert (B : (Z.pos m <= 1000000000000000000 * D)%Z).
    { rewrite Zle_Qle, inject_Z_mult.
      change (inject_Z 1000000000000000000) with (1000000000000000000 # 1).
      assert (X0 : inject_Z (Z.pos m)
                   == inject_Z (Z.pos m) * / inject_Z D * inject_Z D)
        by (field; lra).
      rewrite X0. apply Qmult_le_compat_r; [exact V | lra]. }
    set (n := ((Z.pos m * 200 + D) / (2 * D))%Z).
    assert (Dm : (Z.pos m * 200 + D = 2 * D * n + (Z.pos m * 200 + D) mod (2 * D))%Z)
      by (apply Z.div_mod; lia).
    assert (Rm : (0 <= (Z.pos m * 200 + D) mod (2 * D) < 2 * D)%Z)
      by (apply Z.mod_pos_bound; lia).
    assert (Hn : (0 <= n)%Z) by (apply Z.div_pos; lia).
    exists n. split; [exact Hn|]. split.
    + assert (X : 100 * (inject_Z (Z.pos m) * / inject_Z D)
                  == inject_Z (Z.pos m * 200 + D) / inject_Z (2 * D) - (1 # 2)).
      { rewrite inject_Z_plus, !inject_Z_mult.
        change (inject_Z 200) with 200. change (inject_Z 2) with 2.
        field. lra. }
      rewrite Vm, X.
      assert (Q2 : 0 < inject_Z (2 * D)) by (apply (inject_lt 0); lia).
      split.
      * assert (Y : inject_Z (Z.pos m * 200 + D) / inject_Z (2 * D) < inject_Z n + 1).
        { apply Qlt_shift_div_r; [exact Q2|].
          change 1 with (inject_Z 1). rewrite <- inject_Z_plus, <- inject_Z_mult.
          apply inject_lt. lia. }
        lra.
      * assert (Y : inject_Z n <= inject_Z (Z.pos m * 200 + D) / inject_Z (2 * D)).
        { apply Qle_shift_div_l; [exact Q2|].
          rewrite <- inject_Z_mult. apply inject_le. lia. }
        lra.
    + unfold Number.toFixed2.
      fold D.
      replace (10 ^ 21 * D <=? Z.pos m)%Z with false
        by (symmetry; apply Z.leb_gt; change (10 ^ 21)%Z with 1000000000000000000000%Z; lia).
      replace (2 ^ (Z.pos k + 1))%Z with (2 * D)%Z
        by (unfold D; rewrite Z.pow_add_r by lia; lia).
      fold n. rewrite <- Dec by lia. reflexivity.
Qed.

Lemma eqb_refl_finite (s : bool) (m : positive) (e : Z) :
  Number.eqb (S754_finite s m e) (S754_finite s m e) = true.
Proof.
  unfold Number.eqb, SFeqb, SFcompare.
  rewrite Z.compare_refl.
  assert (Pos.compare_cont Eq m m = Eq) by (apply Pos.compare_cont_refl).
  destruct s; rewrite H; reflexivity.
Qed.

Lemma eqb_value (m1 m2 : positive) (e1 e2 : Z) :
  Number.eqb (S754_finite false m1 e1) (S754_finite false m2 e2) = true ->
  value (S754_finite false m1 e1) == value (S754_finite false m2 e2).
Proof.
  unfold Number.eqb, SFeqb, SFcompare.
  destruct (e1 ?= e2)%Z eqn:Ee; try discriminate.
  apply Z.compare_eq in Ee. subst e2.
  destruct (Pos.compare_cont Eq m1 m2) eqn:Em; try discriminate.
  apply Pos.compare_eq in Em. subst m2. reflexivity.
Qed.

Lemma ordinary_eqb_refl (x : number) : ordinary x -> Number.eqb x x = true.
Proof. intros (m & e & -> & _). apply eqb_refl_finite. Qed.

Lemma ordinary_eqb_value (x y : number) :
  ordinary x -> ordinary y -> Number.eqb x y = true -> value x == value y.
Proof.
  intros (m1 & e1 & -> & _) (m2 & e2 & -> & _). apply eqb_value.
Qed.

(** Amounts of different numbers of hundredths are different numbers. *)
Lemma dec_distinct (n k : Z) :
  (0 <= n <= 1000000000000000)%Z -> (0 <= k <= 1000000000000000)%Z ->
  n <> k -> Number.eqb (Number.dec n 2) (Number.dec k 2) = false.
Proof.
  intros Hn Hk Hnk.
  destruct (Z.eq_dec n 0) as [->|Nn]; [|destruct (Z.eq_dec k 0) as [->|Nk]].
  - destruct (dec_ordinary k ltac:(lia)) as [(m & e & -> & _) _]. reflexivity.
  - destruct (dec_ordinary n ltac:(lia)) as [(m & e & -> & _) _]. reflexivity.
  - destruct (dec_ordinary n ltac:(lia)) as [On Vn].
    destruct (dec_ordinary k ltac:(lia)) as [Ok Vk].
    destruct (Number.eqb (Number.dec n 2) (Number.dec k 2)) eqn:E; [|reflexivity].
    exfalso. pose proof (ordinary_eqb_value _ _ On Ok E) as V.
    assert (Tn : inject_Z n / 100 == inject_Z n * (1 # 100)) by reflexivity.
    assert (Tk : inject_Z k / 100 == inject_Z k * (1 # 100)) by reflexivity.
    rewrite Tn in Vn. rewrite Tk in Vk. unfold eps in *.
    assert (Bn : inject_Z n <= inject_Z 1000000000000000) by (apply inject_le; lia).
    assert (Bk : inject_Z k <= inject_Z 1000000000000000) by (apply inject_le; lia).
    change (inject_Z 1000000000000000) with (1000000000000000 # 1) in Bn, Bk.
    assert (Pn : 1 <= inject_Z n) by (apply (inject_le 1); lia).
    assert (Pk : 1 <= inject_Z k) by (apply (inject_le 1); lia).
    destruct (Z_lt_le_dec n k) as [L|G].
    + assert (S : inject_Z n + 1 <= inject_Z k).
      { change 1 with (inject_Z 1). rewrite <- inject_Z_plus. apply inject_le. lia. }
      lra.
    + assert (S : inject_Z k + 1 <= inject_Z n).
      { change 1 with (inject_Z 1). rewrite <- inject_Z_plus. apply inject_le. lia. }
      lra.
Qed.

(** An amount of whole hundredths is unchanged by [toFixed2]. *)
Lemma toFixed2_dec (k : Z) :
  (0 <= k <= 1000000000000000)%Z ->
  Number.toFixed2 (Number.dec k 2) = Number.dec k 2.
Proof.
  intros Hk. destruct (Z.eq_dec k 0) as [->|Nk]; [reflexivity|].
  destruct (dec_ordinary k ltac:(lia)) as [Ok Vk].
  destruct (toFixed2_ordinary _ Ok) as (n & Hn & Vn & ->).
  f_equal.
  assert (Tk : inject_Z k / 100 == inject_Z k * (1 # 100)) by reflexivity.
  rewrite Tk in Vk. unfold eps in *.
  assert (Bk : inject_Z k <= inject_Z 1000000000000000) by (apply inject_le; lia).
  change (inject_Z 1000000000000000) with (1000000000000000 # 1) in Bk.
  assert (Pk : 1 <= inject_Z k) by (apply (inject_le 1); lia).
  assert (L : inject_Z (k - 1) < inject_Z n).
  { unfold Z.sub. rewrite inject_Z_plus, inject_Z_opp. change (inject_Z 1) with 1. lra. }
  assert (U : inject_Z n < inject_Z (k + 1)).
  { rewrite inject_Z_plus. change (inject_Z 1) with 1. lra. }
  rewrite <- Zlt_Qlt in L, U. lia.
Qed.

Lemma mul_between (x y : number) (la ha lb hb : Q) :
  ordinary x -> ordinary y ->
  la <= value x <= ha -> lb <= value y <= hb ->
  0 <= la -> 0 <= lb ->
  (2 # 1000000) <= la * lb -> ha * hb <= (500000000000000000 # 1) ->
  ordinary (x * y)%num
  /\ la * lb * (1 - eps) <= value (x * y)%num <= ha * hb * (1 + eps).
Proof.
  intros Ox Oy Bx By La Lb Lo Hi.
  assert (P : la * lb <= value x * value y <= ha * hb) by (split; nra).
  destruct (mul_ordinary x y Ox Oy) as [O V]; [split; lra|].
  split; [exact O|]. unfold eps in *. split; nra.
Qed.

Lemma div_between (x y : number) (la ha lb hb cl cu : Q) :
  ordinary x -> ordinary y ->
  la <= value x <= ha -> lb <= value y <= hb ->
  0 <= la -> 0 < lb -> 0 <= cl -> cl * hb <= 1 -> 1 <= cu * lb ->
  (2 # 1000000) <= la * cl -> ha * cu <= (500000000000000000 # 1) ->
  ordinary (x / y)%num
  /\ la * cl * (1 - eps) <= value (x / y)%num <= ha * cu * (1 + eps).
Proof.
  intros Ox Oy Bx By La Lb Cl C1 C2 Lo Hi.
  assert (Py : 0 < value y) by lra.
  assert (Cu : 0 <= cu) by nra.
  assert (P : la * cl <= value x / value y <= ha * cu).
  { split.
    - apply Qle_shift_div_l; [exact Py|].
      assert (A0 : 0 <= la * cl) by nra.
      assert (A1 : la * cl * value y <= la * cl * hb) by nra.
      assert (A2 : la * (cl * hb) <= la * 1) by nra.
      lra.
    - apply Qle_shift_div_r; [exact Py|].
      assert (Ha : 0 <= ha) by lra.
      assert (A0 : 0 <= ha * cu) by nra.
      assert (A1 : ha * cu * lb <= ha * cu * value y) by nra.
      assert (A2 : ha * 1 <= ha * (cu * lb)) by nra.
      lra. }
  destruct (div_ordinary x y Ox Oy) as [O V]; [split; lra|].
  split; [exact O|]. unfold eps in *. 
  set (t := value x / value y) in *. split; nra.
Qed.

Lemma rate_INR_value :
  ordinary rate_INR
  /\ (8325 # 100) * (1 - eps) <= value rate_INR <= (8325 # 100) * (1 + eps).
Proof.
  destruct (dec_ordinary 8325 ltac:(lia)) as [O V]. split; [exact O|].
  assert (T : inject_Z 8325 / 100 == 8325 # 100) by reflexivity.
  rewrite T in V. exact V.
Qed.

Lemma rate_AUD_value :
  ordinary rate_AUD
  /\ (152 # 100) * (1 - eps) <= value rate_AUD <= (152 # 100) * (1 + eps).
Proof.
  destruct (dec_ordinary 152 ltac:(lia)) as [O V]. split; [exact O|].
  assert (T : inject_Z 152 / 100 == 152 # 100) by reflexivity.
  rewrite T in V. exact V.
Qed.

(** An amount of [k] hundredths, 1 <= k <= 10^13. *)
Lemma amount_value (k : Z) :
  (1 <= k <= 10000000000000)%Z ->
  ordinary (Number.dec k 2)
  /\ inject_Z k * (1 # 100) * (1 - eps) <= value (Number.dec k 2)
     <= inject_Z k * (1 # 100) * (1 + eps)
  /\ 1 <= inject_Z k <= 10000000000000 # 1.
Proof.
  intros Hk. destruct (dec_ordinary k ltac:(lia)) as [O V]. split; [exact O|].
  assert (T : inject_Z k / 100 == inject_Z k * (1 # 100)) by reflexivity.
  rewrite T in V. split; [exact V|].
  split; [apply (inject_le 1) | apply (inject_le k 10000000000000)]; lia.
Qed.

(** [toFixed2] of an ordinary number away from [k] hundredths differs from
    the amount of [k] hundredths. *)
Lemma toFixed2_differs (y : number) (k : Z) :
  ordinary y -> (0 <= k <= 1000000000000000)%Z ->
  100 * value y <= 999999999999999 # 1 ->
  100 * value y + (1 # 2) < inject_Z k \/ inject_Z k <= 100 * value y - (1 # 2) ->
  Number.eqb (toFixed2 y) (Number.dec k 2) = false.
Proof.
  intros Oy Hk Hy Hd.
  destruct (toFixed2_ordinary y Oy) as (n & Hn & Vn & E).
  unfold toFixed2. rewrite E. apply dec_distinct; [|exact Hk|].
  - split; [exact Hn|].
    assert (L : inject_Z n < inject_Z (1000000000000000 + 1)).
    { change (inject_Z (1000000000000000 + 1)) with (1000000000000001 # 1). lra. }
    rewrite <- Zlt_Qlt in L. lia.
  - intros ->. lra.
Qed.

(** [toFixed2] of an ordinary number within half a hundredth of [k]
    hundredths is the amount of [k] hundredths. *)
Lemma toFixed2_hits (y : number) (k : Z) :
  ordinary y ->
  inject_Z k - (1 # 2) < 100 * value y < inject_Z k + (1 # 2) ->
  toFixed2 y = Number.dec k 2.
Proof.
  intros Oy Hd.
  destruct (toFixed2_ordinary y Oy) as (n & Hn & Vn & E).
  unfold toFixed2. rewrite E. f_equal.
  assert (L : inject_Z (k - 1) < inject_Z n).
  { unfold Z.sub. rewrite inject_Z_plus, inject_Z_opp. change (inject_Z 1) with 1. lra. }
  assert (U : inject_Z n < inject_Z (k + 1)).
  { rewrite inject_Z_plus. change (inject_Z 1) with 1. lra. }
  rewrite <- Zlt_Qlt in L, U. lia.
Qed.

Section Amount.

Variable k : Z.
Hypothesis Hk : (2 <= k <= 10000000000000)%Z.

Let x := Number.dec k 2.

Lemma usd_to_inr_differs : Number.eqb (toFixed2 (x * rate_INR)%num) x = false.
Proof.
  destruct (amount_value k ltac:(lia)) as (Ox & Vx & K).
  destruct rate_INR_value as [Or Vr].
  destruct (mul_between x rate_INR _ _ _ _ Ox Or Vx Vr) as [O V];
    unfold eps in *; try lra.
  apply toFixed2_differs; [exact O | lia | lra | right; lra].
Qed.

Lemma usd_to_aud_differs : Number.eqb (toFixed2 (x * rate_AUD)%num) x = false.
Proof.
  destruct (amount_value k ltac:(lia)) as (Ox & Vx & K).
  destruct rate_AUD_value as [Or Vr].
  destruct (mul_between x rate_AUD _ _ _ _ Ox Or Vx Vr) as [O V];
    unfold eps in *; try lra.
  apply toFixed2_differs; [exact O | lia | lra | right; lra].
Qed.

Lemma inr_to_usd_differs : Number.eqb (toFixed2 (x / rate_INR)%num) x = false.
Proof.
  destruct (amount_value k ltac:(lia)) as (Ox & Vx & K).
  destruct rate_INR_value as [Or Vr].
  destruct (div_between x rate_INR _ _ _ _ (100 # 8326) (100 # 8324) Ox Or Vx Vr)
    as [O V]; unfold eps in *; try lra.
  apply toFixed2_differs; [exact O | lia | lra | left; lra].
Qed.

Lemma inr_to_aud_differs :
  Number.eqb (toFixed2 ((x / rate_INR) * rate_AUD)%num) x = false.
Proof.
  destruct (amount_value k ltac:(lia)) as (Ox & Vx & K).
  destruct rate_INR_value as [Or Vr].
  destruct rate_AUD_value as [Oa Va].
  destruct (div_between x rate_INR _ _ _ _ (100 # 8326) (100 # 8324) Ox Or Vx Vr)
    as [O V]; unfold eps in *; try lra.
  destruct (mul_between _ rate_AUD _ _ _ _ O Oa V Va) as [O2 V2];
    unfold eps in *; try lra.
  apply toFixed2_differs; [exact O2 | lia | lra | left; lra].
Qed.

Lemma aud_to_usd_differs : Number.eqb (toFixed2 (x / rate_AUD)%num) x = false.
Proof.
  destruct (amount_value k ltac:(lia)) as (Ox & Vx & K).
  assert (K2 : 2 <= inject_Z k) by (apply (inject_le 2); lia).
  destruct rate_AUD_value as [Or Vr].
  destruct (div_between x rate_AUD _ _ _ _ (100 # 153) (100 # 151) Ox Or Vx Vr)
    as [O V]; unfold eps in *; try lra.
  apply toFixed2_differs; [exact O | lia | lra | left; lra].
Qed.

Lemma aud_to_inr_differs :
  Number.eqb (toFixed2 ((x / rate_AUD) * rate_INR)%num) x = false.
Proof.
  destruct (amount_value k ltac:(lia)) as (Ox & Vx & K).
  destruct rate_AUD_value as [Oa Va].
  destruct rate_INR_value as [Or Vr].
  destruct (div_between x rate_AUD _ _ _ _ (100 # 153) (100 # 151) Ox Oa Vx Va)
    as [O V]; unfold eps in *; try lra.
  destruct (mul_between _ rate_INR _ _ _ _ O Or V Vr) as [O2 V2];
    unfold eps in *; try lra.
  apply toFixed2_differs; [exact O2 | lia | lra | right; lra].
Qed.

End Amount.

Lemma round_trip (k : Z) (rate : number) (r : Q) :
  (1 <= k <= 10000000000000)%Z ->
  ordinary rate ->
  r * (1 - eps) <= value rate <= r * (1 + eps) ->
  (3 # 2) <= r <= 100 ->
  forall c : Q, c * r == 1 ->
  toFixed2 (toFixed2 (Number.dec k 2 * rate)%num / rate)%num = Number.dec k 2.
Proof.
  intros Hk Or Vr Hr c Hc.
  destruct (amount_value k Hk) as (Ox & Vx & K).
  assert (C0 : 0 < c) by nra.
  assert (C1 : c <= (2 # 3)) by nra.
  destruct (mul_between _ rate _ _ _ _ Ox Or Vx Vr) as [O V];
    unfold eps in *; try nra.
  destruct (toFixed2_ordinary _ O) as (n & Hn & Vn & E).
  unfold toFixed2 at 2. rewrite E.
  assert (N1 : 1 <= inject_Z n) .
  { assert (L : inject_Z 0 < inject_Z n) by (change (inject_Z 0) with 0; nra).
    rewrite <- Zlt_Qlt in L. apply (inject_le 1). lia. }
  assert (N2 : (n <= 1000000000000000000)%Z).
  { assert (L : inject_Z n < inject_Z 1000000000000000000).
    { change (inject_Z 1000000000000000000) with (1000000000000000000 # 1). nra. }
    rewrite <- Zlt_Qlt in L. lia. }
  assert (N3 : (1 <= n)%Z).
  { change 1 with (inject_Z 1) in N1. rewrite <- Zle_Qle in N1. exact N1. }
  destruct (dec_ordinary n ltac:(lia)) as [On Un].
  assert (T : inject_Z n / 100 == inject_Z n * (1 # 100)) by reflexivity.
  rewrite T in Un. unfold eps in Un.
  destruct (div_between _ rate _ _ _ _
                        (c * (1 - (1 # 4503599627370496)))
                        (c * (1 + (2 # 4503599627370496)))
                        On Or Un Vr) as [O2 V2]; unfold eps in *; try nra.
  apply toFixed2_hits; [exact O2|].
  split; nra.
Qed.

End Values.


(** * Properties *)

Import Payment.
Import Spec.
Import Notes.
Import Money.

(** ** Running the monad *)

Ltac unfold_async :=
  unfold createZohoInvoiceAttempt, checkZohoHealth, next_attempt,
    logPaymentFailure, insert_order, update_order_zoho,
    resolveServiceWithFallback, resolve_try, query, delay, emit,
    modify, lift, bind, ret, throw, try_catch in *.

Ltac split_match :=
  match goal with
  | |- context [match ?x with _ => _ end] =>
    lazymatch x with
    | context [match _ with _ => _ end] => fail
    | _ => destruct x eqn:?
    end
  end.

(** ** Small checks of the primitives *)

(** The number written 1.005 lies below 1.005, so it rounds to 1; the one
    written 0.125 is 1/8 and lies on the tie: it rounds upwards in
    magnitude. *)
Example toFixed2_rounds_the_exact_value :
  toFixed2 (Number.dec 1005 3) = Number.of_Z 1
  /\ toFixed2 (Number.dec 125 3) = Number.dec 13 2
  /\ toFixed2 (Number.dec (-125) 3) = Number.dec (-13) 2.
Proof. vm_compute. repeat split; reflexivity. Qed.

Example product_of_two_numbers_is_rounded :
  (Number.dec 2001 2 * Number.dec 8325 2)%num = Number.dec 16658325000000002 13
  /\ Number.dec 16658325000000002 13 <> Number.dec 16658325 4.
Proof. vm_compute. split; [reflexivity | discriminate]. Qed.

(** A quotient by zero is infinite, as in JavaScript. *)
Example quotient_by_zero_is_infinite :
  (Number.of_Z 200 / Number.of_Z 0)%num = S754_infinity false.
Proof. reflexivity. Qed.

Example includes_finds_infix :
  includes "Zoho integration unavailable: network timeout" "timeout" = true.
Proof. reflexivity. Qed.

Example uuid_shape_accepted :
  uuidRegex_test "1B4E28BA-2FA1-41D2-883F-0016D3CCA427" = true.
Proof. reflexivity. Qed.

Example uuid_shape_needs_version_1_to_5 :
  uuidRegex_test "00000000-0000-0000-0000-000000000000" = false.
Proof. reflexivity. Qed.

Example timeout_message_is_retryable :
  isRetryableError (plainError "network timeout") = true.
Proof. reflexivity. Qed.

Example rate_limit_code_is_retryable :
  isRetryableError (PaymentError "RATE_LIMIT" "Too many requests") = true.
Proof. reflexivity. Qed.

Example gateway_refusal_is_not_retryable :
  isRetryableError
    (PaymentError "ZOHO_AUTH_FAILED"
       "Payment gateway authentication failed. Please try again.") = false.
Proof. reflexivity. Qed.

Example inr_of_200_usd_on_fallback_path :
  Payment.inr (calculateCurrencyAmounts Sample.base (Number.of_Z 200) "USD")
  = Number.of_Z 16650.
Proof. vm_compute. reflexivity. Qed.

Example name_fragment_resolves :
  fst (resolveServiceWithFallback Sample.base "ssl" empty_world)
  = Ok (Some "22222222-2222-4222-9222-222222222222").
Proof. reflexivity. Qed.

Example encodeURIComponent_escapes_space :
  Alternative.encodeURIComponent "Order 1 - A&B" = "Order%201%20-%20A%26B".
Proof. reflexivity. Qed.

(** ** Service resolution *)

Section Resolver.

Variable env : Env.
Variable serviceIdentifier : string.

(** The resolver only reads the store: the answer is the same in every
    world, and the world changes by query events only. *)
Lemma resolve_try_reads (w : World) :
  exists r evs,
    resolve_try env serviceIdentifier w = (r, after_events w evs)
    /\ forall w0, resolve_try env serviceIdentifier w0 = (r, after_events w0 evs).
Proof.
  unfold_async; cbn beta iota.
  repeat (split_match; cbn beta iota);
    eexists; eexists; split;
      try (intro w0); unfold after_events; cbn;
      rewrite <- ?app_assoc; cbn; reflexivity.
Qed.

End Resolver.

Lemma find_existsb {A} (f : A -> bool) (l : list A) :
  existsb f l = match find f l with Some _ => true | None => false end.
Proof.
  induction l as [|a l IH]; cbn; [reflexivity|].
  destruct (f a); cbn; [reflexivity | exact IH].
Qed.

(** *** The tests of the resolver and the words of the specification *)

Lemma prefix_spec (needle hay : string) :
  String.prefix needle hay = true <-> exists rest, hay = needle ++ rest.
Proof.
  revert hay. induction needle as [|c n IH]; intro hay.
  - split; [intros _; exists hay; reflexivity | intros _; destruct hay; reflexivity].
  - destruct hay as [|d h]; cbn.
    + split; [discriminate | intros [rest H]; discriminate H].
    + destruct (ascii_dec c d) as [->|Hne].
      * rewrite IH. split; intros [rest H]; exists rest; [rewrite H; reflexivity|].
        injection H as H. exact H.
      * split; [discriminate | intros [rest H]; injection H as H _; congruence].
Qed.

Lemma includes_spec (hay needle : string) :
  includes hay needle = true <-> substring needle hay.
Proof.
  unfold substring. induction hay as [|d h IH]; cbn [includes].
  - rewrite orb_false_r, prefix_spec. split.
    + intros [rest H]. exists "", rest. exact H.
    + intros [[|b before] [rest H]]; [exists rest; exact H | discriminate H].
  - rewrite orb_true_iff, prefix_spec, IH. split.
    + intros [[rest H]|[before [rest H]]].
      * exists "", rest. exact H.
      * exists (String d before), rest. rewrite H. reflexivity.
    + intros [[|b before] [rest H]].
      * left. exists rest. exact H.
      * right. exists before, rest. injection H as _ H. exact H.
Qed.

Lemma includes_false_spec (hay needle : string) :
  includes hay needle = false -> ~ substring needle hay.
Proof.
  intros H Hs. apply includes_spec in Hs. congruence.
Qed.

Lemma one_of_spec (set : string) (c : ascii) :
  existsb (Ascii.eqb c) (list_ascii_of_string set) = true <-> one_of set c.
Proof.
  unfold one_of. rewrite existsb_exists. split.
  - intros [d [Hin Heq]]. apply Ascii.eqb_eq in Heq. subst d. exact Hin.
  - intros Hin. exists c. split; [exact Hin | apply Ascii.eqb_refl].
Qed.

Ltac every_character c :=
  destruct c as [[] [] [] [] [] [] [] []]; vm_compute; reflexivity.

Lemma is_hex_spec (c : ascii) :
  is_hex c = true <-> one_of "0123456789abcdefABCDEF" c.
Proof.
  rewrite <- one_of_spec.
  replace (existsb (Ascii.eqb c) (list_ascii_of_string "0123456789abcdefABCDEF"))
    with (is_hex c) by every_character c.
  tauto.
Qed.

Lemma is_version_spec (c : ascii) : is_version c = true <-> one_of "12345" c.
Proof.
  rewrite <- one_of_spec.
  replace (existsb (Ascii.eqb c) (list_ascii_of_string "12345"))
    with (is_version c) by every_character c.
  tauto.
Qed.

Lemma is_variant_spec (c : ascii) : is_variant c = true <-> one_of "89abAB" c.
Proof.
  rewrite <- one_of_spec.
  replace (existsb (Ascii.eqb c) (list_ascii_of_string "89abAB"))
    with (is_variant c) by every_character c.
  tauto.
Qed.

Lemma is_dash_spec (c : ascii) : is_dash c = true <-> c = "-"%char.
Proof. unfold is_dash. apply Ascii.eqb_eq. Qed.

Lemma match_classes_spec (cs : list (ascii -> bool)) (s : string) :
  match_classes cs s = true
  <-> String.length s = length cs
      /\ forall i c f, String.get i s = Some c -> nth_error cs i = Some f ->
                       f c = true.
Proof.
  revert s. induction cs as [|f0 cs IH]; intros [|a s]; cbn [match_classes].
  - split; [intros _; split; [reflexivity | intros i c f H; discriminate H] | reflexivity].
  - split; [discriminate | intros [H _]; discriminate H].
  - split; [discriminate | intros [H _]; discriminate H].
  - rewrite andb_true_iff, IH. cbn [String.length length]. split.
    + intros [Ha [Hl Hall]]. split; [congruence|].
      intros [|i] c f Hg Hn; cbn in Hg, Hn.
      * injection Hg as <-. injection Hn as <-. exact Ha.
      * exact (Hall i c f Hg Hn).
    + intros [Hl Hall]. split; [exact (Hall 0%nat a f0 eq_refl eq_refl)|].
      split; [congruence|]. intros i c f Hg Hn. exact (Hall (S i) c f Hg Hn).
Qed.

Lemma uuid_class_spec (i : nat) (c : ascii) (f : ascii -> bool) :
  nth_error uuidRegex i = Some f -> (f c = true <-> uuid_position i c).
Proof.
  unfold uuid_position.
  do 36 (destruct i as [|i];
         [cbn; intro H; injection H as <-;
          first [apply is_hex_spec | apply is_dash_spec
                | apply is_version_spec | apply is_variant_spec]|]).
  cbn. destruct i; discriminate.
Qed.

Lemma get_in_range (i : nat) (s : string) (c : ascii) :
  String.get i s = Some c -> (i < String.length s)%nat.
Proof.
  revert i. induction s as [|a s IH]; intros i H; [destruct i; discriminate H|].
  destruct i as [|i]; cbn; [lia|]. cbn in H. apply IH in H. lia.
Qed.

Lemma uuid_shape_spec (s : string) : uuidRegex_test s = true <-> uuid_shaped s.
Proof.
  unfold uuidRegex_test, uuid_shaped. rewrite match_classes_spec.
  change (length uuidRegex) with 36%nat. split; intros [Hl Hall]; (split; [exact Hl|]).
  - intros i c Hg.
    assert (Hi : (i < length uuidRegex)%nat)
      by (apply get_in_range in Hg; change (length uuidRegex) with 36%nat; lia).
    destruct (nth_error uuidRegex i) as [f|] eqn:Hn;
      [|apply nth_error_None in Hn; lia].
    apply (uuid_class_spec i c f Hn). exact (Hall i c f Hg Hn).
  - intros i c f Hg Hn. apply (uuid_class_spec i c f Hn). exact (Hall i c Hg).
Qed.

Lemma lower_ascii_spec (c d : ascii) :
  lower_ascii c = lower_ascii d <-> c = d \/ same_letter c d.
Proof.
  assert (Hup : forall a n, nat_of_ascii a = n -> (65 <= n <= 90)%nat ->
                            lower_ascii a = ascii_of_nat (n + 32)).
  { intros a n <- Hn. unfold lower_ascii.
    destruct (Nat.leb_spec 65 (nat_of_ascii a)); [|lia].
    destruct (Nat.leb_spec (nat_of_ascii a) 90); [reflexivity | lia]. }
  assert (Hlow : forall a, ~ (65 <= nat_of_ascii a <= 90)%nat -> lower_ascii a = a).
  { intros a Hn. unfold lower_ascii.
    destruct (Nat.leb_spec 65 (nat_of_ascii a));
      destruct (Nat.leb_spec (nat_of_ascii a) 90); cbn; try reflexivity. lia. }
  assert (Hinj : forall n m, (n < 256)%nat -> (m < 256)%nat ->
                             ascii_of_nat n = ascii_of_nat m -> n = m).
  { intros n m Hn Hm H. rewrite <- (nat_ascii_embedding n Hn),
      <- (nat_ascii_embedding m Hm), H. reflexivity. }
  pose proof (nat_ascii_bounded c) as Bc. pose proof (nat_ascii_bounded d) as Bd.
  split.
  - intro H.
    destruct (Nat.le_gt_cases 65 (nat_of_ascii c)) as [c1|c1];
      [destruct (Nat.le_gt_cases (nat_of_ascii c) 90) as [c2|c2]|].
    + rewrite (Hup c _ eq_refl (conj c1 c2)) in H.
      destruct (Nat.le_gt_cases 65 (nat_of_ascii d)) as [d1|d1];
        [destruct (Nat.le_gt_cases (nat_of_ascii d) 90) as [d2|d2]|].
      * rewrite (Hup d _ eq_refl (conj d1 d2)) in H.
        apply Hinj in H; [|lia|lia]. left.
        rewrite <- (ascii_nat_embedding c), <- (ascii_nat_embedding d).
        f_equal. lia.
      * rewrite (Hlow d) in H by lia. right. exists (nat_of_ascii c).
        split; [lia|]. left. split; [reflexivity|].
        rewrite <- H. apply nat_ascii_embedding. lia.
      * rewrite (Hlow d) in H by lia. exfalso.
        assert (nat_of_ascii d = (nat_of_ascii c + 32)%nat)
          by (rewrite <- H; apply nat_ascii_embedding; lia).
        lia.
    + rewrite (Hlow c) in H by lia.
      destruct (Nat.le_gt_cases 65 (nat_of_ascii d)) as [d1|d1];
        [destruct (Nat.le_gt_cases (nat_of_ascii d) 90) as [d2|d2]|].
      * rewrite (Hup d _ eq_refl (conj d1 d2)) in H. right. exists (nat_of_ascii d).
        split; [lia|]. right. split; [reflexivity|].
        rewrite H. apply nat_ascii_embedding. lia.
      * rewrite (Hlow d) in H by lia. left. exact H.
      * rewrite (Hlow d) in H by lia. left. exact H.
    + rewrite (Hlow c) in H by lia.
      destruct (Nat.le_gt_cases 65 (nat_of_ascii d)) as [d1|d1];
        [destruct (Nat.le_gt_cases (nat_of_ascii d) 90) as [d2|d2]|].
      * rewrite (Hup d _ eq_refl (conj d1 d2)) in H. exfalso.
        assert (nat_of_ascii c = (nat_of_ascii d + 32)%nat)
          by (rewrite H; apply nat_ascii_embedding; lia).
        lia.
      * rewrite (Hlow d) in H by lia. left. exact H.
      * rewrite (Hlow d) in H by lia. left. exact H.
  - intros [->|[n [Hn [[Hc Hd]|[Hd Hc]]]]]; [reflexivity| |].
    + rewrite (Hup c n Hc Hn), (Hlow d) by lia.
      rewrite <- (ascii_nat_embedding d), Hd. reflexivity.
    + rewrite (Hup d n Hd Hn), (Hlow c) by lia.
      rewrite <- (ascii_nat_embedding c), Hc. reflexivity.
Qed.

Lemma lower_ascii_text_spec (a b : string) :
  lower_ascii_text a = lower_ascii_text b <-> same_up_to_case a b.
Proof.
  revert b. induction a as [|c a IH]; intros [|d b]; cbn [lower_ascii_text].
  - split; [intros _; constructor | reflexivity].
  - split; [discriminate | intro H; inversion H].
  - split; [discriminate | intro H; inversion H].
  - split.
    + intro H. injection H as Hc Ht. constructor;
        [apply lower_ascii_spec; exact Hc | apply IH; exact Ht].
    + intro H. inversion H as [|c' d' a' b' Hc Ht]; subst.
      apply lower_ascii_spec in Hc. apply IH in Ht. congruence.
Qed.

Lemma eq_id_spec (x : string) (row : Service) :
  eq_id x row = true <-> by_id x row.
Proof.
  unfold eq_id, by_id. rewrite String.eqb_eq. apply lower_ascii_text_spec.
Qed.

Lemma fuzzy_match_spec (env : Env) (x : string) (row : Service) :
  fuzzy_match env x row = true <-> fuzzy env x row.
Proof.
  unfold fuzzy_match, fuzzy. rewrite orb_true_iff, !includes_spec. tauto.
Qed.

(** [find] returns the first element that passes the test. *)
Lemma find_first_such {A} (f : A -> bool) (P : A -> Prop) (l : list A) :
  (forall a, In a l -> (f a = true <-> P a)) ->
  first_such P l (find f l).
Proof.
  induction l as [|a l IH]; intro H; cbn; [constructor|].
  destruct (f a) eqn:Hf.
  - constructor. apply (H a (or_introl eq_refl)). exact Hf.
  - apply first_later.
    + intro Hp. apply (H a (or_introl eq_refl)) in Hp. congruence.
    + apply IH. intros b Hb. apply H. right. exact Hb.
Qed.

Lemma finds_first_spec (f : Service -> bool) (P : Service -> Prop)
      (rows : list Service) :
  (forall row, f row = true <-> P row) ->
  finds_first P rows (option_map service_id (find f rows)).
Proof.
  intro H. exists (find f rows). split; [|reflexivity].
  apply find_first_such. intros row _. apply H.
Qed.

Lemma find_none_spec (f : Service -> bool) (P : Service -> Prop)
      (rows : list Service) :
  (forall row, f row = true <-> P row) ->
  find f rows = None -> forall row, In row rows -> ~ P row.
Proof.
  intros H Hf row Hin Hp. apply H in Hp.
  pose proof (find_none _ _ Hf row Hin). congruence.
Qed.

(** *** A store that matches patterns as SQL has it *)

Lemma lower_ascii_text_app (a b : string) :
  lower_ascii_text (a ++ b) = lower_ascii_text a ++ lower_ascii_text b.
Proof. induction a as [|c a IH]; cbn; [reflexivity | rewrite IH; reflexivity]. Qed.

Lemma lower_ascii_keeps_pattern_characters (c : ascii) :
  pattern_character (lower_ascii c) = pattern_character c.
Proof. every_character c. Qed.

Lemma lower_ascii_text_plain (x : string) :
  plain (lower_ascii_text x) = plain x.
Proof.
  induction x as [|c x IH]; cbn [plain lower_ascii_text]; [reflexivity|].
  rewrite lower_ascii_keeps_pattern_characters, IH. reflexivity.
Qed.

Lemma like_percent (p t : string) :
  Sql.like (String "%" p) t
  = Sql.like p t
    || match t with
       | EmptyString => false
       | String _ t' => Sql.like (String "%" p) t'
       end.
Proof. destruct t; reflexivity. Qed.

Lemma like_percent_alone (t : string) : Sql.like "%" t = true.
Proof.
  induction t as [|a t IH]; [reflexivity|].
  rewrite like_percent. rewrite IH. apply orb_true_r.
Qed.

Lemma like_plain_character (c : ascii) (p t : string) :
  pattern_character c = false ->
  Sql.like (String c p) t
  = match t with
    | EmptyString => false
    | String e t' => Ascii.eqb c e && Sql.like p t'
    end.
Proof.
  unfold pattern_character. cbn [existsb]. intro H.
  apply orb_false_elim in H. destruct H as [H1 H].
  apply orb_false_elim in H. destruct H as [H2 H].
  apply orb_false_elim in H. destruct H as [H3 _].
  cbn [Sql.like]. rewrite H1, H2, H3. reflexivity.
Qed.

Lemma like_plain_prefix (y t : string) :
  plain y = true -> Sql.like (y ++ "%") t = String.prefix y t.
Proof.
  revert t. induction y as [|c y IH]; intros t Hp.
  - cbn [append]. rewrite like_percent_alone. destruct t; reflexivity.
  - cbn [plain] in Hp. apply andb_true_iff in Hp. destruct Hp as [Hc Hy].
    apply negb_true_iff in Hc.
    change (String c y ++ "%") with (String c (y ++ "%")).
    rewrite (like_plain_character c _ t Hc).
    destruct t as [|e t]; [reflexivity|]. cbn [String.prefix].
    rewrite (IH t Hy).
    destruct (ascii_dec c e) as [->|Hne];
      [rewrite Ascii.eqb_refl; reflexivity|].
    apply Ascii.eqb_neq in Hne. rewrite Hne. reflexivity.
Qed.

Lemma like_plain_includes (y t : string) :
  plain y = true -> Sql.like ("%" ++ y ++ "%") t = includes t y.
Proof.
  intro Hp. change ("%" ++ y ++ "%") with (String "%" (y ++ "%")).
  induction t as [|a t IH]; rewrite like_percent, (like_plain_prefix y _ Hp);
    cbn [includes]; [reflexivity|].
  rewrite IH. reflexivity.
Qed.

(** A store whose ILIKE is the one of SQL over the ASCII case mapping
    tests containment for the identifiers without pattern characters. *)
Lemma sql_store_tests_substrings (env : Env) :
  ilike env = Sql.ilike lower_ascii_text ->
  substring_store env lower_ascii_text.
Proof.
  intros He value x Hp. rewrite He. unfold Sql.ilike.
  rewrite !lower_ascii_text_app. change (lower_ascii_text "%") with "%".
  rewrite like_plain_includes by (rewrite lower_ascii_text_plain; exact Hp).
  apply includes_spec.
Qed.

(** The fuzzy stage folds the case as the host does: on a host that knows
    the accented letters an identifier in capitals finds the accented
    name. *)
Example accented_name_is_found_by_the_fuzzy_stage :
  resolveServiceWithFallback
    Sample.latin ("buy CAF" ++ Sample.E_acute ++ " SETUP now") empty_world
  = (Ok (Some "33333333-3333-4333-8333-333333333333"),
     after_events empty_world
       [EvQuery StageName; EvQuery StageCategory; EvQuery StageFuzzy]).
Proof. vm_compute. reflexivity. Qed.

(** C6 as stated fails for an identifier that holds a wildcard: nothing
    in the catalog contains em_il, in the name or in the category, and it is
    neither contained in a name nor shaped like a UUID, so all four stages
    of the claim fail; yet the store reads the underscore as any one
    character, matches the name Email Migration & Setup, and the resolver
    answers with that service at the name stage. *)
Lemma wildcard_identifier_resolves_without_containment :
  let fold := toLowerCase Sample.base in
  resolveServiceWithFallback Sample.base "em_il" empty_world
  = (Ok (Some "11111111-1111-4111-8111-111111111111"),
     after_events empty_world [EvQuery StageName])
  /\ ~ uuid_shaped "em_il"
  /\ (forall row, In row (services Sample.base) ->
        ~ substring (fold "em_il") (fold (service_name row))
        /\ ~ substring (fold "em_il") (fold (service_category row))
        /\ ~ substring (fold (service_name row)) (fold "em_il")).
Proof.
  cbv zeta. split; [vm_compute; reflexivity|]. split.
  - intros [Hl _]. discriminate Hl.
  - intros row [<-|[<-|[]]]; repeat split;
      apply includes_false_spec; vm_compute; reflexivity.
Qed.

(** C6, amended. With a store that answers its queries, the resolver runs
    the four stages in order, each one only when the earlier ones found
    nothing: the primary key when the identifier has the shape of a UUID;
    the first row whose name the store matches against the identifier put
    between two percent signs; the first row whose category it matches
    likewise; the first of the first ten rows whose lower-cased name
    contains the lower-cased identifier or is contained in it.  An
    identifier that is the UUID of a catalog row is answered by the first
    stage alone, and not-found comes only after every stage that applies has
    been tried in vain.  Stages two and three test whether the name or the
    category contains the identifier, whatever the case, when the
    identifier holds none of the pattern characters and the store's ILIKE
    is such a test on those. *)
Theorem resolver_runs_four_stages_in_order
        (env : Env) (serviceIdentifier : string) (w : World) :
  (forall st, store_status env st = Answered) ->
  exists answer tried,
    resolveServiceWithFallback env serviceIdentifier w
    = (Ok answer, after_events w (map EvQuery tried))
    /\ staged_resolve env serviceIdentifier answer tried
    /\ (uuid_shaped serviceIdentifier ->
        (exists row, In row (services env) /\ service_id row = serviceIdentifier) ->
        answer = Some serviceIdentifier /\ tried = [StageId])
    /\ (answer = None ->
        (uuid_shaped serviceIdentifier ->
         tried = [StageId; StageName; StageCategory; StageFuzzy])
        /\ (~ uuid_shaped serviceIdentifier ->
            tried = [StageName; StageCategory; StageFuzzy])
        /\ (forall row, In row (services env) ->
              (uuid_shaped serviceIdentifier -> ~ by_id serviceIdentifier row)
              /\ ~ by_name env serviceIdentifier row
              /\ ~ by_category env serviceIdentifier row)
        /\ (forall row, In row (firstn 10 (services env)) ->
              ~ fuzzy env serviceIdentifier row))
    /\ (length (firstn 10 (services env)) <= 10)%nat
    /\ (forall fold row,
          substring_store env fold -> plain serviceIdentifier = true ->
          (by_name env serviceIdentifier row
           <-> substring (fold serviceIdentifier) (fold (service_name row)))
          /\ (by_category env serviceIdentifier row
              <-> substring (fold serviceIdentifier) (fold (service_category row)))).
Proof.
  intros Hstore.
  pose (f1 := eq_id serviceIdentifier).
  pose (f2 := fun s => ilike env (service_name s) (ilike_pattern serviceIdentifier)).
  pose (f3 := fun s => ilike env (service_category s)
                             (ilike_pattern serviceIdentifier)).
  pose (f4 := fuzzy_match env serviceIdentifier).
  assert (H1 : forall row, f1 row = true <-> by_id serviceIdentifier row)
    by (intro; apply eq_id_spec).
  assert (H2 : forall row, f2 row = true <-> by_name env serviceIdentifier row)
    by (intro; reflexivity).
  assert (H3 : forall row, f3 row = true <-> by_category env serviceIdentifier row)
    by (intro; reflexivity).
  assert (H4 : forall row, f4 row = true <-> fuzzy env serviceIdentifier row)
    by (intro; apply fuzzy_match_spec).
  assert (Hrun :
            resolveServiceWithFallback env serviceIdentifier w
            = (Ok (if uuidRegex_test serviceIdentifier
                   then match find f1 (services env) with
                        | Some _ => Some serviceIdentifier
                        | None =>
                          match find f2 (services env) with
                          | Some s => Some (service_id s)
                          | None =>
                            match find f3 (services env) with
                            | Some s => Some (service_id s)
                            | None => option_map service_id
                                        (find f4 (firstn 10 (services env)))
                            end
                          end
                        end
                   else match find f2 (services env) with
                        | Some s => Some (service_id s)
                        | None =>
                          match find f3 (services env) with
                          | Some s => Some (service_id s)
                          | None => option_map service_id
                                      (find f4 (firstn 10 (services env)))
                          end
                        end),
               after_events w
                 (map EvQuery
                    ((if uuidRegex_test serviceIdentifier then [StageId] else [])
                     ++ match (if uuidRegex_test serviceIdentifier
                               then find f1 (services env) else None) with
                        | Some _ => []
                        | None =>
                          StageName
                          :: match find f2 (services env) with
                             | Some _ => []
                             | None =>
                               StageCategory
                               :: match find f3 (services env) with
                                  | Some _ => []
                                  | None => [StageFuzzy]
                                  end
                             end
                        end)))).
  { subst f1 f2 f3 f4. unfold_async; cbn beta iota. rewrite !Hstore.
    destruct (uuidRegex_test serviceIdentifier);
      repeat (split_match; cbn beta iota in * );
      unfold after_events; cbn in *; rewrite <- ?app_assoc; cbn;
        try congruence; try reflexivity. }
  assert (Hlater :
            run_stages
              [ mkRule StageName True
                       (finds_first (by_name env serviceIdentifier) (services env));
                mkRule StageCategory True
                       (finds_first (by_category env serviceIdentifier) (services env));
                mkRule StageFuzzy True
                       (finds_first (fuzzy env serviceIdentifier)
                                    (firstn 10 (services env))) ]
              (match find f2 (services env) with
               | Some s => Some (service_id s)
               | None =>
                 match find f3 (services env) with
                 | Some s => Some (service_id s)
                 | None => option_map service_id (find f4 (firstn 10 (services env)))
                 end
               end)
              (StageName
               :: match find f2 (services env) with
                  | Some _ => []
                  | None =>
                    StageCategory
                    :: match find f3 (services env) with
                       | Some _ => []
                       | None => [StageFuzzy]
                       end
                  end)).
  { pose proof (finds_first_spec f2 _ (services env) H2) as F2.
    pose proof (finds_first_spec f3 _ (services env) H3) as F3.
    pose proof (finds_first_spec f4 _ (firstn 10 (services env)) H4) as F4.
    destruct (find f2 (services env)) as [s2|];
      [apply (run_hit (mkRule StageName True _)); [exact I | exact F2]|].
    apply (run_miss (mkRule StageName True _)); [exact I | exact F2|].
    destruct (find f3 (services env)) as [s3|];
      [apply (run_hit (mkRule StageCategory True _)); [exact I | exact F3]|].
    apply (run_miss (mkRule StageCategory True _)); [exact I | exact F3|].
    destruct (find f4 (firstn 10 (services env))) as [s4|];
      [apply (run_hit (mkRule StageFuzzy True _)); [exact I | exact F4]|].
    apply (run_miss (mkRule StageFuzzy True _)); [exact I | exact F4|].
    constructor. }
  eexists; eexists. split; [exact Hrun|].
  pose proof (uuid_shape_spec serviceIdentifier) as Hshape.
  split; [|split; [|split; [|split]]].
  - unfold staged_resolve.
    destruct (uuidRegex_test serviceIdentifier) eqn:Hre.
    + assert (Hu : uuid_shaped serviceIdentifier) by (apply Hshape; reflexivity).
      destruct (find f1 (services env)) as [s1|] eqn:Hf1.
      * apply (run_hit (mkRule StageId _ _)); [exact Hu|]. left.
        split; [reflexivity|]. exists s1.
        apply find_some in Hf1. destruct Hf1 as [Hin Hm].
        split; [exact Hin | apply H1; exact Hm].
      * apply (run_miss (mkRule StageId _ _)); [exact Hu| |exact Hlater].
        right. split; [reflexivity|]. exact (find_none_spec f1 _ _ H1 Hf1).
    + apply (run_skip (mkRule StageId _ _)); [|exact Hlater].
      cbn. intro Hu. apply Hshape in Hu. congruence.
  - intros Hu [row [Hin Hid]]. apply Hshape in Hu. rewrite Hu.
    destruct (find f1 (services env)) as [s1|] eqn:Hf1; [split; reflexivity|].
    exfalso. apply (find_none_spec f1 _ _ H1 Hf1 row Hin).
    unfold by_id. rewrite Hid. apply lower_ascii_text_spec. reflexivity.
  - intros Hnone.
    destruct (uuidRegex_test serviceIdentifier) eqn:Hre;
      destruct (find f1 (services env)) eqn:Hf1;
      destruct (find f2 (services env)) eqn:Hf2;
      destruct (find f3 (services env)) eqn:Hf3;
      destruct (find f4 (firstn 10 (services env))) eqn:Hf4;
      cbn in Hnone; try discriminate.
    all: split; [intro Hu; first [reflexivity | apply Hshape in Hu; congruence]|].
    all: split; [intro Hn; first [reflexivity
                                 | exfalso; apply Hn; apply Hshape; reflexivity]|].
    all: split; [intros row Hin; split; [|split]
                | exact (find_none_spec f4 _ _ H4 Hf4)].
    all: try exact (find_none_spec f2 _ _ H2 Hf2 row Hin).
    all: try exact (find_none_spec f3 _ _ H3 Hf3 row Hin).
    all: intro Hu; try exact (find_none_spec f1 _ _ H1 Hf1 row Hin).
    all: apply Hshape in Hu; congruence.
  - rewrite length_firstn. apply Nat.le_min_l.
  - intros fold row Hs Hp. split; apply Hs; exact Hp.
Qed.

(** ** The retry loop of [createPaymentIntent] *)

Section ConstantFailure.

Variable env : Env.
Variables serviceIdentifier packageType currency : string.
Variable totalPrice : number.
Variable quantity : Z.

Let attempt :=
  createPaymentIntentAttempt env serviceIdentifier packageType totalPrice
                             currency quantity (new_transaction_id env).

Lemma logPaymentFailure_run (msg : string) (w : World) :
  exists w', logPaymentFailure env (new_transaction_id env) msg w = (Ok tt, w')
             /\ orders w' = orders w
             /\ audit w' = (audit w ++ logged env msg)%list
             /\ zoho_attempts w' = zoho_attempts w
             /\ events w' = events w.
Proof.
  unfold logPaymentFailure, logged, failure_entry, modify, ret.
  destruct (audit_insert_ok env); eexists; split; try reflexivity; cbn;
    rewrite ?app_nil_r; auto.
Qed.

Let loop (attempts : list nat) :=
  createPaymentIntent_loop attempts env serviceIdentifier packageType totalPrice
                           currency quantity (new_transaction_id env).

(** One turn of the loop whose attempt raises. *)
Lemma loop_step_throw (n : nat) (rest : list nat) (w w1 : World) (e : Error) :
  attempt w = (Throw e, w1) ->
  loop (n :: rest) w
  = if (n =? MAX_RETRIES)%nat || negb (isRetryableError e)
    then (logPaymentFailure env (new_transaction_id env) (message e) ;;;
          throw (enhanceError e (new_transaction_id env))) w1
    else loop rest (after_events w1 [EvDelay (RETRY_DELAY * 2 ^ (Z.of_nat n - 1))]).
Proof.
  intros E. unfold loop. cbn [createPaymentIntent_loop]. fold attempt.
  unfold try_catch. rewrite E.
  destruct ((n =? MAX_RETRIES)%nat || negb (isRetryableError e)); [reflexivity|].
  reflexivity.
Qed.

(** One turn of the loop whose attempt returns. *)
Lemma loop_step_ok (n : nat) (rest : list nat) (w w1 : World) (r : PaymentIntent) :
  attempt w = (Ok r, w1) ->
  loop (n :: rest) w = (Ok r, w1).
Proof.
  intros E. unfold loop. cbn [createPaymentIntent_loop]. fold attempt.
  unfold try_catch. rewrite E. reflexivity.
Qed.

Lemma log_then_throw (e : Error) (w : World) :
  exists w',
    (logPaymentFailure env (new_transaction_id env) (message e) ;;;
     throw (A:=PaymentIntent) (enhanceError e (new_transaction_id env))) w
    = (Throw (enhanceError e (new_transaction_id env)), w')
    /\ orders w' = orders w
    /\ audit w' = (audit w ++ logged env (message e))%list
    /\ zoho_attempts w' = zoho_attempts w
    /\ events w' = events w.
Proof.
  destruct (logPaymentFailure_run (message e) w) as [w' [L H]].
  exists w'. unfold bind. rewrite L. unfold throw. split; [reflexivity | exact H].
Qed.

(** When every attempt raises the same error and leaves the orders and
    the audit log alone, the call raises that error, enhanced, after
    logging it once; the orders are untouched. *)
Lemma createPaymentIntent_constant_failure (e : Error) :
  (forall w, exists w1, attempt w = (Throw e, w1)
                        /\ orders w1 = orders w /\ audit w1 = audit w) ->
  forall w, exists w',
    createPaymentIntent env serviceIdentifier packageType totalPrice currency
                        quantity w
    = (Throw (enhanceError e (new_transaction_id env)), w')
    /\ orders w' = orders w
    /\ audit w' = (audit w ++ logged env (message e))%list.
Proof.
  intros Hfail w.
  unfold createPaymentIntent. cbn [seq MAX_RETRIES]. fold (loop [1; 2; 3]%nat).
  destruct (Hfail w) as [w1 [E1 [O1 A1]]].
  rewrite (loop_step_throw _ _ _ _ _ E1).
  destruct (isRetryableError e) eqn:Hr; cbn [Nat.eqb MAX_RETRIES orb negb].
  - destruct (Hfail (after_events w1 [EvDelay (RETRY_DELAY * 2 ^ (Z.of_nat 1 - 1))]))
      as [w2 [E2 [O2 A2]]].
    rewrite (loop_step_throw _ _ _ _ _ E2). rewrite Hr.
    cbn [Nat.eqb MAX_RETRIES orb negb].
    destruct (Hfail (after_events w2 [EvDelay (RETRY_DELAY * 2 ^ (Z.of_nat 2 - 1))]))
      as [w3 [E3 [O3 A3]]].
    rewrite (loop_step_throw _ _ _ _ _ E3).
    cbn [Nat.eqb MAX_RETRIES orb negb].
    destruct (log_then_throw e w3) as [w' [L [LO [LA _]]]].
    exists w'. split; [exact L|]. cbn in *. split; congruence.
  - destruct (log_then_throw e w1) as [w' [L [LO [LA _]]]].
    exists w'. split; [exact L|]. split; congruence.
Qed.

End ConstantFailure.

(** ** Failures before the order is written *)

Section EarlyFailures.

Variable env : Env.
Variables serviceIdentifier packageType currency : string.
Variable totalPrice : number.
Variable quantity : Z.

Let attempt :=
  createPaymentIntentAttempt env serviceIdentifier packageType totalPrice
                             currency quantity (new_transaction_id env).

(** The resolver returns in every world, with one answer for all. *)
Lemma resolve_reads :
  exists r evs, forall w,
    resolveServiceWithFallback env serviceIdentifier w = (Ok r, after_events w evs).
Proof.
  destruct (resolve_try_reads env serviceIdentifier empty_world) as [r [evs [_ H]]].
  destruct r as [v|e].
  - exists v, evs. intro w. unfold resolveServiceWithFallback, try_catch.
    rewrite H. reflexivity.
  - exists None, evs. intro w. unfold resolveServiceWithFallback, try_catch.
    rewrite H. reflexivity.
Qed.

Lemma attempt_unverified (u : User) (w : World) :
  auth_error env = false -> auth_user env = Some u -> is_confirmed u = false ->
  attempt w
  = (Throw (PaymentError "EMAIL_NOT_VERIFIED"
              "Email verification required. Please verify your email before making purchases."),
     w).
Proof.
  intros Ha Hu Hc. unfold attempt, createPaymentIntentAttempt.
  rewrite Ha, Hu, Hc. reflexivity.
Qed.

Lemma attempt_not_found (u : User) (w0 w1 : World) :
  auth_error env = false -> auth_user env = Some u -> is_confirmed u = true ->
  resolveServiceWithFallback env serviceIdentifier w0 = (Ok None, w1) ->
  forall w, exists w2,
    attempt w
    = (Throw (PaymentError "SERVICE_NOT_FOUND"
                ("Service not found: " ++ serviceIdentifier
                 ++ ". Please check the service ID and try again.")), w2)
    /\ orders w2 = orders w /\ audit w2 = audit w.
Proof.
  intros Ha Hu Hc Hr w. unfold attempt, createPaymentIntentAttempt.
  rewrite Ha, Hu, Hc. cbn [negb].
  destruct resolve_reads as [v [evs H]].
  assert (v = None) by (rewrite H in Hr; congruence). subst v.
  unfold bind. rewrite H. unfold throw.
  eexists. split; [reflexivity|]. cbn. auto.
Qed.

Lemma attempt_invalid_package (u : User) (w0 w1 : World)
      (serviceId : string) (service : Service) :
  auth_error env = false -> auth_user env = Some u -> is_confirmed u = true ->
  resolveServiceWithFallback env serviceIdentifier w0 = (Ok (Some serviceId), w1) ->
  serviceId <> "" ->
  getServiceById env serviceId = Ok (Some service) ->
  package_available service packageType = false ->
  forall w, exists w2,
    attempt w
    = (Throw (PaymentError "INVALID_PACKAGE"
                ("Package type " ++ dquote ++ packageType ++ dquote
                 ++ " not available for " ++ service_name service)), w2)
    /\ orders w2 = orders w /\ audit w2 = audit w.
Proof.
  intros Ha Hu Hc Hr Hne Hs Hp w. unfold attempt, createPaymentIntentAttempt.
  rewrite Ha, Hu, Hc. cbn [negb].
  destruct resolve_reads as [v [evs H]].
  assert (v = Some serviceId) by (rewrite H in Hr; congruence). subst v.
  unfold bind at 1. rewrite H.
  destruct serviceId as [|c rest]; [congruence|].
  unfold bind, lift. rewrite Hs, Hp. cbn [negb]. unfold throw.
  eexists. split; [reflexivity|]. cbn. auto.
Qed.

End EarlyFailures.

(** C10. Service resolution never throws to its caller: it returns in every
    world; when one of its queries rejects, the error is caught and the
    answer is null; and [createPaymentIntent], for a verified user, turns a
    null answer, whatever caused it, into the one SERVICE_NOT_FOUND error,
    leaving the orders alone. *)
Theorem resolution_failures_surface_as_not_found
        (env : Env) (serviceIdentifier packageType currency : string)
        (totalPrice : number) (quantity : Z) (w : World) :
  (exists r w', resolveServiceWithFallback env serviceIdentifier w = (Ok r, w'))
  /\ (forall e w1,
        resolve_try env serviceIdentifier w = (Throw e, w1) ->
        resolveServiceWithFallback env serviceIdentifier w = (Ok None, w1))
  /\ (forall u w1,
        resolveServiceWithFallback env serviceIdentifier w = (Ok None, w1) ->
        auth_error env = false -> auth_user env = Some u -> is_confirmed u = true ->
        exists w',
          createPaymentIntent env serviceIdentifier packageType totalPrice
                              currency quantity w
          = (Throw (not_found_error env serviceIdentifier), w')
          /\ code (not_found_error env serviceIdentifier) = Some "SERVICE_NOT_FOUND"
          /\ orders w' = orders w).
Proof.
  split; [|split].
  - destruct (resolve_reads env serviceIdentifier) as [r [evs H]].
    exists r, (after_events w evs). apply H.
  - intros e w1 H. unfold resolveServiceWithFallback, try_catch. rewrite H.
    reflexivity.
  - intros u w1 Hr Ha Hu Hc.
    destruct (createPaymentIntent_constant_failure env serviceIdentifier packageType
                currency totalPrice quantity _
                (attempt_not_found env serviceIdentifier packageType currency
                   totalPrice quantity u w w1 Ha Hu Hc Hr) w)
      as [w' [E [O _]]].
    exists w'. split; [exact E|]. split; [reflexivity | exact O].
Qed.

Lemma resolver_runs_four_stages_in_order_witness :
  (exists answer tried,
      resolveServiceWithFallback Sample.base "11111111-1111-4111-8111-111111111111"
                                 empty_world
      = (Ok answer, after_events empty_world (map EvQuery tried))
      /\ answer = Some "11111111-1111-4111-8111-111111111111"
      /\ tried = [StageId])
  /\ (exists answer tried,
         resolveServiceWithFallback Sample.base "ssl" empty_world
         = (Ok answer, after_events empty_world (map EvQuery tried))
         /\ forall row,
             by_name Sample.base "ssl" row
             <-> substring "ssl" (lower_ascii_text (service_name row))).
Proof.
  split.
  - destruct (resolver_runs_four_stages_in_order
                Sample.base "11111111-1111-4111-8111-111111111111" empty_world
                (fun _ => eq_refl))
      as (answer & tried & Hrun & _ & Hid & _).
    exists answer, tried. split; [exact Hrun|]. apply Hid.
    + apply uuid_shape_spec. reflexivity.
    + exists Sample.email_migration. split; [left; reflexivity | reflexivity].
  - destruct (resolver_runs_four_stages_in_order
                Sample.base "ssl" empty_world (fun _ => eq_refl))
      as (answer & tried & Hrun & _ & _ & _ & _ & Hsub).
    exists answer, tried. split; [exact Hrun|]. intro row.
    exact (proj1 (Hsub lower_ascii_text row
                       (sql_store_tests_substrings Sample.base eq_refl) eq_refl)).
Defined.

Lemma resolution_failures_surface_as_not_found_witness :
  exists w',
    createPaymentIntent Sample.store_down "email" "basic" (Number.of_Z 200) "USD" 50
                        empty_world
    = (Throw (not_found_error Sample.store_down "email"), w')
    /\ code (not_found_error Sample.store_down "email") = Some "SERVICE_NOT_FOUND"
    /\ orders w' = orders empty_world.
Proof.
  refine (proj2 (proj2 (resolution_failures_surface_as_not_found
                          Sample.store_down "email" "basic" "USD" (Number.of_Z 200) 50
                          empty_world))
                Sample.alice (after_events empty_world [EvQuery StageName])
                _ _ _ _); reflexivity.
Defined.

Lemma tier_is_not_inherited (packageType : string) :
  In packageType package_tiers ->
  existsb (String.eqb packageType) inherited_members = false.
Proof.
  intros [<-|[<-|[<-|[]]]]; reflexivity.
Qed.

(** C7. [createPaymentIntent] fails with EMAIL_NOT_VERIFIED for a user whose
    address is not confirmed, and with INVALID_PACKAGE for a package tier
    (basic, standard or enterprise) that is absent from the resolved
    service's price mapping; in both cases the orders relation is left as it
    was. *)
Theorem early_failures_create_no_order
        (env : Env) (serviceIdentifier packageType currency : string)
        (totalPrice : number) (quantity : Z) (w : World) :
  (forall u,
      auth_error env = false -> auth_user env = Some u -> is_confirmed u = false ->
      exists err w',
        createPaymentIntent env serviceIdentifier packageType totalPrice
                            currency quantity w = (Throw err, w')
        /\ code err = Some "EMAIL_NOT_VERIFIED"
        /\ orders w' = orders w)
  /\ (forall u w1 serviceId service prices,
      auth_error env = false -> auth_user env = Some u -> is_confirmed u = true ->
      resolveServiceWithFallback env serviceIdentifier w = (Ok (Some serviceId), w1) ->
      serviceId <> "" ->
      getServiceById env serviceId = Ok (Some service) ->
      In packageType package_tiers ->
      pricing service = Some prices ->
      price_of prices packageType = None ->
      exists err w',
        createPaymentIntent env serviceIdentifier packageType totalPrice
                            currency quantity w = (Throw err, w')
        /\ code err = Some "INVALID_PACKAGE"
        /\ orders w' = orders w).
Proof.
  split.
  - intros u Ha Hu Hc.
    destruct (createPaymentIntent_constant_failure env serviceIdentifier packageType
                currency totalPrice quantity
                (PaymentError "EMAIL_NOT_VERIFIED"
                   "Email verification required. Please verify your email before making purchases.")
                (fun w0 => ex_intro _ w0
                   (conj (attempt_unverified env serviceIdentifier packageType
                            currency totalPrice quantity u w0 Ha Hu Hc)
                         (conj eq_refl eq_refl))) w)
      as [w' [E [O _]]].
    eexists; exists w'. split; [exact E|]. split; [reflexivity | exact O].
  - intros u w1 serviceId service prices Ha Hu Hc Hr Hne Hs Ht Hp Hk.
    assert (Hav : package_available service packageType = false)
      by (unfold package_available; rewrite Hp, Hk;
          apply tier_is_not_inherited; exact Ht).
    destruct (createPaymentIntent_constant_failure env serviceIdentifier packageType
                currency totalPrice quantity _
                (attempt_invalid_package env serviceIdentifier packageType currency
                   totalPrice quantity u w w1 serviceId service
                   Ha Hu Hc Hr Hne Hs Hav) w)
      as [w' [E [O _]]].
    eexists; exists w'. split; [exact E|]. split; [reflexivity | exact O].
Qed.

Lemma early_failures_create_no_order_witness :
  (exists err w',
      createPaymentIntent Sample.unverified "email" "basic" (Number.of_Z 200) "USD" 50
                          empty_world = (Throw err, w')
      /\ code err = Some "EMAIL_NOT_VERIFIED" /\ orders w' = orders empty_world)
  /\ (exists err w',
      createPaymentIntent Sample.base "email" "enterprise" (Number.of_Z 200) "USD" 50
                          empty_world = (Throw err, w')
      /\ code err = Some "INVALID_PACKAGE" /\ orders w' = orders empty_world).
Proof.
  split.
  - refine (proj1 (early_failures_create_no_order
                     Sample.unverified "email" "basic" "USD" (Number.of_Z 200) 50 empty_world)
                  Sample.alice_unverified _ _ _); reflexivity.
  - refine (proj2 (early_failures_create_no_order
                     Sample.base "email" "enterprise" "USD" (Number.of_Z 200) 50 empty_world)
                  Sample.alice (after_events empty_world [EvQuery StageName])
                  "11111111-1111-4111-8111-111111111111" Sample.email_migration
                  [("basic", Number.of_Z 4)] _ _ _ _ _ _ _ _ _);
      try reflexivity; [discriminate | cbn; tauto].
Defined.

(** ** Currency amounts *)

Lemma fallback_path (env : Env) (x : number) (c : string) :
  on_fallback_path env x c ->
  calculateCurrencyAmounts env x c = fallback_amounts x c.
Proof.
  unfold on_fallback_path, calculateCurrencyAmounts.
  destruct (currency_module env) as [conv|]; [|reflexivity].
  intros [e He]. rewrite He. reflexivity.
Qed.

Lemma own_component (env : Env) (x : number) (c : string) :
  supported c -> component (calculateCurrencyAmounts env x c) c = toFixed2 x.
Proof.
  intros Hc. unfold calculateCurrencyAmounts.
  assert (Hf : component (fallback_amounts x c) c = toFixed2 x)
    by (destruct Hc as [ -> | [ -> | -> ] ]; reflexivity).
  destruct (currency_module env) as [conv|]; [|exact Hf].
  destruct (live_amounts conv x c) as [r|e] eqn:Hl; [|exact Hf].
  unfold live_amounts in Hl.
  destruct Hc as [ -> | [ -> | -> ] ]; cbn in Hl;
    repeat match type of Hl with
           | match ?t with _ => _ end = _ => destruct t; try discriminate
           end;
    injection Hl as <-; reflexivity.
Qed.

Lemma fallback_exactly_one (k : Z) (c : string) :
  (2 <= k <= 10000000000000)%Z -> supported c ->
  exactly_one_equals (fallback_amounts (Number.dec k 2) c) (Number.dec k 2).
Proof.
  intros Hk Hc.
  assert (Own : equal (toFixed2 (Number.dec k 2)) (Number.dec k 2)).
  { unfold equal, toFixed2. rewrite toFixed2_dec by lia.
    apply ordinary_eqb_refl. apply dec_ordinary. lia. }
  unfold exactly_one_equals.
  destruct Hc as [ -> | [ -> | -> ] ]; unfold fallback_amounts;
    cbn [String.eqb Ascii.eqb Bool.eqb]; unfold round_amounts; cbn [usd inr aud];
    unfold equal.
  - left. split; [exact Own|].
    rewrite (usd_to_inr_differs k Hk), (usd_to_aud_differs k Hk).
    split; discriminate.
  - right; left.
    rewrite (inr_to_usd_differs k Hk), (inr_to_aud_differs k Hk).
    split; [discriminate|]. split; [exact Own | discriminate].
  - right; right.
    rewrite (aud_to_usd_differs k Hk), (aud_to_inr_differs k Hk).
    split; [discriminate|]. split; [discriminate | exact Own].
Qed.

(** The fallback path rounds the numbers computed, not the exact products
    and quotients: 0.26 * 83.25 is a number just below 21.645, so that 21.64
    INR is stored for 0.26 USD; likewise 14.98 INR for 0.18 USD, and 0.37
    USD for 0.57 AUD. *)
Example fallback_amounts_round_the_numbers_computed :
  inr (fallback_amounts (Number.dec 26 2) "USD") = Number.dec 2164 2
  /\ inr (fallback_amounts (Number.dec 18 2) "USD") = Number.dec 1498 2
  /\ usd (fallback_amounts (Number.dec 57 2) "AUD") = Number.dec 37 2.
Proof. vm_compute. repeat split; reflexivity. Qed.

(** Of an amount of nothing all three stored amounts are nothing. *)
Example zero_amount_has_three_equal_amounts :
  let a := fallback_amounts (Number.of_Z 0) "USD" in
  equal (usd a) (Number.of_Z 0) /\ equal (inr a) (Number.of_Z 0)
  /\ equal (aud a) (Number.of_Z 0).
Proof. vm_compute. repeat split; reflexivity. Qed.

(** C9 as stated fails at one cent of AUD: on the fallback path the USD
    amount of 0.01 AUD rounds to 0.01 as well, so two stored amounts equal
    the transaction amount. *)
Lemma one_cent_aud_has_two_equal_amounts :
  let a := calculateCurrencyAmounts Sample.base (Number.dec 1 2) "AUD" in
  equal (usd a) (Number.dec 1 2) /\ equal (aud a) (Number.dec 1 2)
  /\ ~ exactly_one_equals a (Number.dec 1 2).
Proof.
  cbv zeta. split; [vm_compute; reflexivity|]. split; [vm_compute; reflexivity|].
  assert (U : equal (usd (calculateCurrencyAmounts Sample.base (Number.dec 1 2) "AUD"))
                    (Number.dec 1 2)) by (vm_compute; reflexivity).
  assert (A : equal (aud (calculateCurrencyAmounts Sample.base (Number.dec 1 2) "AUD"))
                    (Number.dec 1 2)) by (vm_compute; reflexivity).
  intros [(_ & _ & C)|[(C & _ & _)|(C & _ & _)]].
  - exact (C A).
  - exact (C U).
  - exact (C U).
Qed.

(** C9, amended. For a supported transaction currency the stored amount of
    that currency is the given amount rounded to two decimals, on either
    path; on the fallback path the two others are the products and
    quotients of numbers with the fixed rates 83.25 (INR per USD) and 1.52
    (AUD per USD), rounded to two decimals; and for an amount of [k]
    hundredths, 2 <= k <= 10^13, exactly one of the three stored amounts
    equals it on the fallback path. *)
Theorem three_currency_amounts (env : Env) (x : number) (c : string) :
  supported c ->
  component (calculateCurrencyAmounts env x c) c = toFixed2 x
  /\ (on_fallback_path env x c ->
      let a := calculateCurrencyAmounts env x c in
      (c = "USD" ->
       inr a = toFixed2 (x * Number.dec 8325 2)%num
       /\ aud a = toFixed2 (x * Number.dec 152 2)%num)
      /\ (c = "INR" ->
          usd a = toFixed2 (x / Number.dec 8325 2)%num
          /\ aud a = toFixed2 ((x / Number.dec 8325 2) * Number.dec 152 2)%num)
      /\ (c = "AUD" ->
          usd a = toFixed2 (x / Number.dec 152 2)%num
          /\ inr a = toFixed2 ((x / Number.dec 152 2) * Number.dec 8325 2)%num))
  /\ (forall k, (2 <= k <= 10000000000000)%Z -> x = Number.dec k 2 ->
      on_fallback_path env x c ->
      exactly_one_equals (calculateCurrencyAmounts env x c) x).
Proof.
  intros Hc. split; [apply own_component; exact Hc|]. split.
  - intros Hf. cbv zeta. rewrite (fallback_path _ _ _ Hf).
    split; [|split]; intros ->; split; reflexivity.
  - intros k Hk -> Hf. rewrite (fallback_path _ _ _ Hf).
    apply fallback_exactly_one; assumption.
Qed.

Lemma three_currency_amounts_witness :
  exactly_one_equals (calculateCurrencyAmounts Sample.base (Number.dec 20000 2) "USD")
                     (Number.dec 20000 2).
Proof.
  refine (proj2 (proj2 (three_currency_amounts Sample.base (Number.dec 20000 2) "USD"
                          (or_introl eq_refl)))
                20000%Z _ eq_refl I).
  lia.
Defined.

(** ** The invoicing retries *)

Lemma delays_of_app (a b : list Event) :
  delays_of (a ++ b) = (delays_of a ++ delays_of b)%list.
Proof.
  induction a as [|e a IH]; cbn; [reflexivity|].
  destruct e; cbn; rewrite IH; reflexivity.
Qed.

Section Invoicing.

Variable env : Env.
Variable order : Order.
Variable service : Service.
Variable client : Client.
Variable quantity : Z.
Variable transactionId : string.

Let call := createZohoInvoiceAttempt env order service client quantity transactionId.
Let retry (attempts : list nat) :=
  createZohoInvoiceWithRetry_loop attempts env order service client quantity
                                  transactionId.

(** One call counts as one attempt, touches neither relation and does
    not wait. *)
Lemma call_effect (w : World) :
  exists r evs,
    call w = (r, mkWorld (orders w) (audit w) (S (zoho_attempts w))
                         (events w ++ evs))
    /\ delays_of evs = [].
Proof.
  unfold call. unfold_async. cbn beta iota.
  repeat (split_match; cbn beta iota);
    eexists; eexists; (split; [cbn; rewrite <- ?app_assoc; reflexivity|]);
    reflexivity.
Qed.

Lemma retry_step_throw (n : nat) (rest : list nat) (w w1 : World) (e : Error) :
  call w = (Throw e, w1) ->
  retry (n :: rest) w
  = if (n =? MAX_RETRIES)%nat then (Throw e, w1)
    else retry rest (after_events w1 [EvDelay (RETRY_DELAY * Z.of_nat n)]).
Proof.
  intros E. unfold retry. cbn [createZohoInvoiceWithRetry_loop]. fold call.
  unfold try_catch. rewrite E.
  destruct (n =? MAX_RETRIES)%nat; reflexivity.
Qed.

Lemma retry_step_ok (n : nat) (rest : list nat) (w w1 : World) (r : PaymentIntent) :
  call w = (Ok r, w1) -> retry (n :: rest) w = (Ok r, w1).
Proof.
  intros E. unfold retry. cbn [createZohoInvoiceWithRetry_loop]. fold call.
  unfold try_catch. rewrite E. reflexivity.
Qed.

(** Splitting a call into its answer and its world. *)
Lemma call_split (w : World) :
  exists evs,
    call w = (fst (call w),
              mkWorld (orders w) (audit w) (S (zoho_attempts w)) (events w ++ evs))
    /\ delays_of evs = [].
Proof.
  destruct (call_effect w) as [r [evs [E D]]].
  exists evs. rewrite E. split; [reflexivity | exact D].
Qed.

(** The retries reuse the order: whatever happens, the relations are
    untouched, and between one and three calls are made. *)
Lemma retry_effect (w : World) :
  exists r w',
    retry (seq 1 MAX_RETRIES) w = (r, w')
    /\ orders w' = orders w /\ audit w' = audit w
    /\ (zoho_attempts w < zoho_attempts w' <= zoho_attempts w + 3)%nat.
Proof.
  cbn [seq MAX_RETRIES].
  destruct (call_effect w) as [r1 [ev1 [E1 _]]].
  destruct r1 as [v|e1].
  { rewrite (retry_step_ok _ _ _ _ _ E1). eexists; eexists.
    split; [reflexivity|]. cbn. repeat split; lia. }
  rewrite (retry_step_throw _ _ _ _ _ E1). cbn [Nat.eqb MAX_RETRIES].
  match goal with |- context [retry _ ?x] =>
    destruct (call_effect x) as [r2 [ev2 [E2 _]]] end.
  destruct r2 as [v|e2].
  { rewrite (retry_step_ok _ _ _ _ _ E2). eexists; eexists.
    split; [reflexivity|]. cbn. repeat split; lia. }
  rewrite (retry_step_throw _ _ _ _ _ E2). cbn [Nat.eqb MAX_RETRIES].
  match goal with |- context [retry _ ?x] =>
    destruct (call_effect x) as [r3 [ev3 [E3 _]]] end.
  destruct r3 as [v|e3].
  { rewrite (retry_step_ok _ _ _ _ _ E3). eexists; eexists.
    split; [reflexivity|]. cbn. repeat split; lia. }
  rewrite (retry_step_throw _ _ _ _ _ E3). cbn [Nat.eqb MAX_RETRIES].
  eexists; eexists. split; [reflexivity|]. cbn. repeat split; lia.
Qed.

(** Three calls that all raise: the last error comes out, after waits of
    1000 and 2000 ms, whatever the classification of the errors. *)
Lemma retry_three_failures (w : World) (e1 e2 e3 : Error) :
  invoicing_raises env (zoho_attempts w) e1 ->
  invoicing_raises env (zoho_attempts w + 1) e2 ->
  invoicing_raises env (zoho_attempts w + 2) e3 ->
  exists w',
    retry (seq 1 MAX_RETRIES) w = (Throw e3, w')
    /\ orders w' = orders w /\ audit w' = audit w
    /\ zoho_attempts w' = (zoho_attempts w + 3)%nat
    /\ delays_of (events w') = (delays_of (events w) ++ [1000; 2000]%Z)%list.
Proof.
  intros H1 H2 H3. cbn [seq MAX_RETRIES].
  destruct (call_split w) as [ev1 [E1 D1]].
  unfold call in E1 at 2. rewrite (H1 _ _ _ _ _ w eq_refl) in E1.
  rewrite (retry_step_throw _ _ _ _ _ E1). cbn [Nat.eqb MAX_RETRIES].
  match goal with |- context [retry _ ?x] =>
    destruct (call_split x) as [ev2 [E2 D2]] end.
  unfold call in E2 at 2. rewrite H2 in E2 by (cbn; lia).
  rewrite (retry_step_throw _ _ _ _ _ E2). cbn [Nat.eqb MAX_RETRIES].
  match goal with |- context [retry _ ?x] =>
    destruct (call_split x) as [ev3 [E3 D3]] end.
  unfold call in E3 at 2. rewrite H3 in E3 by (cbn; lia).
  rewrite (retry_step_throw _ _ _ _ _ E3). cbn [Nat.eqb MAX_RETRIES].
  eexists. split; [reflexivity|]. cbn.
  repeat split; try lia.
  rewrite !delays_of_app, D1, D2, D3. cbn. rewrite ?app_nil_r, <- ?app_assoc.
  reflexivity.
Qed.

(** Two calls that raise and a third that returns: the invoice comes out
    for the same order. *)
Lemma retry_twice_then_ok (w : World) (e1 e2 : Error) (inv : PaymentIntent) :
  invoicing_raises env (zoho_attempts w) e1 ->
  invoicing_raises env (zoho_attempts w + 1) e2 ->
  invoicing_returns env (zoho_attempts w + 2) inv ->
  exists w',
    retry (seq 1 MAX_RETRIES) w = (Ok (with_transaction inv transactionId), w')
    /\ orders w' = orders w /\ audit w' = audit w
    /\ zoho_attempts w' = (zoho_attempts w + 3)%nat
    /\ delays_of (events w') = (delays_of (events w) ++ [1000; 2000]%Z)%list.
Proof.
  intros H1 H2 H3. cbn [seq MAX_RETRIES].
  destruct (call_split w) as [ev1 [E1 D1]].
  unfold call in E1 at 2. rewrite (H1 _ _ _ _ _ w eq_refl) in E1.
  rewrite (retry_step_throw _ _ _ _ _ E1). cbn [Nat.eqb MAX_RETRIES].
  match goal with |- context [retry _ ?x] =>
    destruct (call_split x) as [ev2 [E2 D2]] end.
  unfold call in E2 at 2. rewrite H2 in E2 by (cbn; lia).
  rewrite (retry_step_throw _ _ _ _ _ E2). cbn [Nat.eqb MAX_RETRIES].
  match goal with |- context [retry _ ?x] =>
    destruct (call_split x) as [ev3 [E3 D3]] end.
  unfold call in E3 at 2. rewrite H3 in E3 by (cbn; lia).
  rewrite (retry_step_ok _ _ _ _ _ E3).
  eexists. split; [reflexivity|]. cbn.
  repeat split; try lia.
  rewrite !delays_of_app, D1, D2, D3. cbn. rewrite ?app_nil_r, <- ?app_assoc.
  reflexivity.
Qed.

End Invoicing.

(** ** One attempt of [createPaymentIntent] *)

Section Attempt.

Variable env : Env.
Variables serviceIdentifier packageType currency : string.
Variable totalPrice : number.
Variable quantity : Z.
Variable transactionId : string.

Let attempt :=
  createPaymentIntentAttempt env serviceIdentifier packageType totalPrice
                             currency quantity transactionId.

(** An attempt never writes the audit log, adds at most one order and
    makes at most three invoicing calls. *)
Lemma attempt_effect (w : World) :
  exists r w',
    attempt w = (r, w')
    /\ audit w' = audit w
    /\ (length (orders w) <= length (orders w') <= length (orders w) + 1)%nat
    /\ (zoho_attempts w <= zoho_attempts w' <= zoho_attempts w + 3)%nat.
Proof.
  unfold attempt, createPaymentIntentAttempt.
  destruct (if auth_error env then None else auth_user env) as [user|];
    [|eexists; eexists; split; [reflexivity|]; repeat split; lia].
  destruct (negb (is_confirmed user));
    [eexists; eexists; split; [reflexivity|]; repeat split; lia|].
  destruct (resolve_reads env serviceIdentifier) as [v [evs H]].
  unfold bind at 1. rewrite H.
  destruct v as [[|c0 sid]|];
    try (eexists; eexists; split; [reflexivity|]; cbn; repeat split; lia).
  unfold bind at 1. unfold lift at 1.
  destruct (getServiceById env (String c0 sid)) as [[service|]|e];
    try (eexists; eexists; split; [reflexivity|]; cbn; repeat split; lia).
  destruct (negb (package_available service packageType));
    [eexists; eexists; split; [reflexivity|]; cbn; repeat split; lia|].
  destruct (clients_error env);
    [eexists; eexists; split; [reflexivity|]; cbn; repeat split; lia|].
  destruct (find (fun c => client_id c =? user_id user) (clients env)) as [cl|];
    [|eexists; eexists; split; [reflexivity|]; cbn; repeat split; lia].
  unfold bind at 1. unfold insert_order at 1.
  destruct (order_insert_error env) as [msg|];
    [eexists; eexists; split; [reflexivity|]; cbn; repeat split; lia|].
  unfold bind at 1. unfold createZohoInvoiceWithRetry.
  match goal with |- context [createZohoInvoiceWithRetry_loop _ env ?o ?s ?c ?q ?t ?x] =>
    destruct (retry_effect env o s c q t x) as [r [w2 [E [O [A Z]]]]] end.
  rewrite E. cbn in O, A, Z.
  destruct r as [zohoResult|e].
  - unfold bind, update_order_zoho.
    destruct (order_update_ok env); unfold modify, ret; cbn beta iota;
      (eexists; eexists; split; [reflexivity|]; cbn;
       rewrite ?length_map, O, length_app; cbn; repeat split; try lia; exact A).
  - eexists; eexists. split; [reflexivity|].
    rewrite O, length_app. cbn. repeat split; try lia. exact A.
Qed.

(** When steps 1 to 6 go through, the attempt writes the order of step 6
    and hands it to the invoicing retries. *)
Lemma attempt_reaches (user : User) (serviceId : string) (service : Service)
      (client : Client) (w : World) :
  reaches_invoicing env serviceIdentifier packageType user serviceId service client ->
  exists evs,
    let order := step6_order env user serviceId packageType totalPrice currency
                             (fresh_order_id env (length (orders w))) in
    attempt w
    = (zohoResult <- createZohoInvoiceWithRetry env order service client
                                                quantity transactionId ;;
       update_order_zoho env (order_id order) (invoice_id zohoResult)
                         (customer_id zohoResult) ;;;
       ret (with_transaction zohoResult transactionId))
        (mkWorld (orders w ++ [order]) (audit w) (zoho_attempts w)
                 (events w ++ evs))
    /\ delays_of evs = [].
Proof.
  intros (Ha & Hu & Hc & Hr & Hne & Hs & Hp & Hce & Hcl & Hins).
  destruct (resolve_try_reads env serviceIdentifier empty_world) as [rt [evs [_ Ht]]].
  assert (Hq : delays_of evs = []).
  { clear - Ht. revert Ht. unfold_async. cbn beta iota.
    repeat (split_match; cbn beta iota); intros Ht;
      specialize (Ht empty_world); cbn in Ht;
      injection Ht as _ Ht; subst evs; reflexivity. }
  assert (Hres : forall w0, resolveServiceWithFallback env serviceIdentifier w0
                            = (Ok (Some serviceId), after_events w0 evs)).
  { intro w0. unfold resolveServiceWithFallback, try_catch in *.
    rewrite Ht in Hr. rewrite Ht. destruct rt; cbn in Hr; congruence. }
  exists evs. cbv zeta. split; [|exact Hq].
  unfold attempt, createPaymentIntentAttempt.
  rewrite Ha, Hu, Hc. cbn [negb].
  unfold bind at 1. rewrite Hres.
  destruct serviceId as [|c0 sid]; [congruence|].
  unfold bind at 1. unfold lift at 1. rewrite Hs, Hp. cbn [negb].
  rewrite Hce, Hcl.
  unfold bind at 1. unfold insert_order at 1. rewrite Hins.
  reflexivity.
Qed.

End Attempt.

(** ** The whole call *)

Section WholeCall.

Variable env : Env.
Variables serviceIdentifier packageType currency : string.
Variable totalPrice : number.
Variable quantity : Z.

Let txn := new_transaction_id env.
Let attempt :=
  createPaymentIntentAttempt env serviceIdentifier packageType totalPrice
                             currency quantity txn.
Let loop (attempts : list nat) :=
  createPaymentIntent_loop attempts env serviceIdentifier packageType totalPrice
                           currency quantity txn.
Let step_throw := loop_step_throw env serviceIdentifier packageType currency
                                  totalPrice quantity.
Let step_ok := loop_step_ok env serviceIdentifier packageType currency
                            totalPrice quantity.

(** One call: at most one order per attempt, so at most three; at most
    nine invoicing calls; at most one audit row. *)
Lemma call_bounds (w : World) :
  exists r w',
    createPaymentIntent env serviceIdentifier packageType totalPrice currency
                        quantity w = (r, w')
    /\ (length (orders w) <= length (orders w') <= length (orders w) + 3)%nat
    /\ (zoho_attempts w' <= zoho_attempts w + 9)%nat
    /\ (length (audit w') <= length (audit w) + 1)%nat.
Proof.
  unfold createPaymentIntent. cbn [seq MAX_RETRIES].
  destruct (attempt_effect env serviceIdentifier packageType currency totalPrice
              quantity txn w) as [r1 [w1 [E1 [A1 [O1 Z1]]]]].
  destruct r1 as [v|e1].
  { rewrite (step_ok _ _ _ _ _ E1). eexists; eexists. split; [reflexivity|].
    rewrite A1. repeat split; lia. }
  rewrite (step_throw _ _ _ _ _ E1).
  destruct ((1 =? MAX_RETRIES)%nat || negb (isRetryableError e1)).
  { destruct (log_then_throw env e1 w1) as [w' [L [LO [LA [LZ _]]]]].
    eexists; eexists. split; [exact L|].
    rewrite LO, LZ, LA, length_app, A1. unfold logged.
    destruct (audit_insert_ok env); cbn; repeat split; lia. }
  match goal with |- context [createPaymentIntent_loop _ _ _ _ _ _ _ _ ?x] =>
    destruct (attempt_effect env serviceIdentifier packageType currency totalPrice
                quantity txn x) as [r2 [w2 [E2 [A2 [O2 Z2]]]]] end.
  cbn in A2, O2, Z2.
  destruct r2 as [v|e2].
  { rewrite (step_ok _ _ _ _ _ E2). eexists; eexists. split; [reflexivity|].
    rewrite A2, A1. repeat split; lia. }
  rewrite (step_throw _ _ _ _ _ E2).
  destruct ((2 =? MAX_RETRIES)%nat || negb (isRetryableError e2)).
  { destruct (log_then_throw env e2 w2) as [w' [L [LO [LA [LZ _]]]]].
    eexists; eexists. split; [exact L|].
    rewrite LO, LZ, LA, length_app, A2, A1. unfold logged.
    destruct (audit_insert_ok env); cbn; repeat split; lia. }
  match goal with |- context [createPaymentIntent_loop _ _ _ _ _ _ _ _ ?x] =>
    destruct (attempt_effect env serviceIdentifier packageType currency totalPrice
                quantity txn x) as [r3 [w3 [E3 [A3 [O3 Z3]]]]] end.
  cbn in A3, O3, Z3.
  destruct r3 as [v|e3].
  { rewrite (step_ok _ _ _ _ _ E3). eexists; eexists. split; [reflexivity|].
    rewrite A3, A2, A1. repeat split; lia. }
  rewrite (step_throw _ _ _ _ _ E3). cbn [Nat.eqb MAX_RETRIES orb].
  destruct (log_then_throw env e3 w3) as [w' [L [LO [LA [LZ _]]]]].
  eexists; eexists. split; [exact L|].
  rewrite LO, LZ, LA, length_app, A3, A2, A1. unfold logged.
  destruct (audit_insert_ok env); cbn; repeat split; lia.
Qed.

(** An attempt that ends in a non-retryable error is the last one: the
    failure is logged once and the error re-raised, enhanced. *)
Lemma non_retryable_stops (w w1 : World) (e : Error) :
  attempt w = (Throw e, w1) ->
  isRetryableError e = false ->
  exists w',
    createPaymentIntent env serviceIdentifier packageType totalPrice currency
                        quantity w
    = (Throw (enhanceError e txn), w')
    /\ orders w' = orders w1
    /\ audit w' = (audit w ++ logged env (message e))%list
    /\ zoho_attempts w' = zoho_attempts w1
    /\ events w' = events w1.
Proof.
  intros E Hr. unfold createPaymentIntent. cbn [seq MAX_RETRIES].
  rewrite (step_throw _ _ _ _ _ E). rewrite Hr. cbn [negb orb].
  rewrite Bool.orb_true_r.
  destruct (attempt_effect env serviceIdentifier packageType currency totalPrice
              quantity txn w) as [r1 [w1' [E1 [A1 _]]]].
  unfold attempt in E. rewrite E in E1. injection E1 as <- <-.
  destruct (log_then_throw env e w1) as [w' [L [LO [LA [LZ LE]]]]].
  exists w'. split; [exact L|]. rewrite LA, A1. auto.
Qed.

(** An attempt that ends in a retryable error is followed, after a wait
    of [RETRY_DELAY * 2 ^ (attempt - 1)], by the next one, up to the
    third. *)
Lemma retryable_continues (w w1 : World) (e : Error) :
  attempt w = (Throw e, w1) ->
  isRetryableError e = true ->
  createPaymentIntent env serviceIdentifier packageType totalPrice currency
                      quantity w
  = loop [2; 3]%nat (after_events w1 [EvDelay 1000])
  /\ (forall w2 w3 e2,
        attempt w2 = (Throw e2, w3) -> isRetryableError e2 = true ->
        loop [2; 3]%nat w2 = loop [3]%nat (after_events w3 [EvDelay 2000]))
  /\ (forall w2 w3 e3,
        attempt w2 = (Throw e3, w3) ->
        loop [3]%nat w2
        = (logPaymentFailure env txn (message e3) ;;;
           throw (enhanceError e3 txn)) w3).
Proof.
  intros E Hr. split; [|split].
  - unfold createPaymentIntent. cbn [seq MAX_RETRIES].
    rewrite (step_throw _ _ _ _ _ E). rewrite Hr. reflexivity.
  - intros w2 w3 e2 E2 Hr2. unfold loop.
    rewrite (step_throw _ _ _ _ _ E2). rewrite Hr2. reflexivity.
  - intros w2 w3 e3 E3. unfold loop.
    rewrite (step_throw _ _ _ _ _ E3). reflexivity.
Qed.

(** A turn of the loop whose attempt raises, the third turn or with an
    error that is not retryable: nothing further is run. *)
Lemma turn_stops (n : nat) (rest : list nat) (w0 w1 : World) (e : Error) :
  attempt w0 = (Throw e, w1) ->
  n = MAX_RETRIES \/ isRetryableError e = false ->
  exists w',
    loop (n :: rest) w0 = (Throw (enhanceError e txn), w')
    /\ orders w' = orders w1
    /\ audit w' = (audit w0 ++ logged env (message e))%list
    /\ zoho_attempts w' = zoho_attempts w1
    /\ events w' = events w1.
Proof.
  intros E Hstop. unfold loop. rewrite (step_throw _ _ _ _ _ E).
  assert (C : ((n =? MAX_RETRIES)%nat || negb (isRetryableError e)) = true).
  { destruct Hstop as [-> | ->]; [reflexivity | apply Bool.orb_true_r]. }
  rewrite C.
  destruct (attempt_effect env serviceIdentifier packageType currency totalPrice
              quantity txn w0) as [r1 [w1' [E1 [A1 _]]]].
  unfold attempt in E. rewrite E in E1. injection E1 as <- <-.
  destruct (log_then_throw env e w1) as [w' [L [LO [LA [LZ LE]]]]].
  exists w'. split; [exact L|]. rewrite LA, A1. auto.
Qed.

(** A turn before the third whose attempt raises a retryable error: the
    rest of the loop runs after a wait of [RETRY_DELAY * 2 ^ (n - 1)]. *)
Lemma turn_continues (n : nat) (rest : list nat) (w0 w1 : World) (e : Error) :
  attempt w0 = (Throw e, w1) ->
  n <> MAX_RETRIES -> isRetryableError e = true ->
  loop (n :: rest) w0
  = loop rest (after_events w1 [EvDelay (RETRY_DELAY * 2 ^ (Z.of_nat n - 1))]).
Proof.
  intros E Hn Hr. unfold loop. rewrite (step_throw _ _ _ _ _ E).
  rewrite Hr. apply Nat.eqb_neq in Hn. rewrite Hn. reflexivity.
Qed.

Lemma attempt_keeps_audit (w0 w1 : World) (r : Result PaymentIntent) :
  attempt w0 = (r, w1) -> audit w1 = audit w0.
Proof.
  intros E.
  destruct (attempt_effect env serviceIdentifier packageType currency totalPrice
              quantity txn w0) as [r1 [w1' [E1 [A1 _]]]].
  unfold attempt in E. rewrite E in E1. injection E1 as <- <-. exact A1.
Qed.

(** A call whose second attempt ends in an error that is not retryable. *)
Lemma second_attempt_stops (w w1 w2 : World) (e1 e2 : Error) :
  attempt w = (Throw e1, w1) -> isRetryableError e1 = true ->
  attempt (after_events w1 [EvDelay 1000]) = (Throw e2, w2) ->
  isRetryableError e2 = false ->
  exists w',
    createPaymentIntent env serviceIdentifier packageType totalPrice currency
                        quantity w
    = (Throw (enhanceError e2 txn), w')
    /\ orders w' = orders w2
    /\ audit w' = (audit w ++ logged env (message e2))%list
    /\ zoho_attempts w' = zoho_attempts w2
    /\ events w' = events w2.
Proof.
  intros E1 R1 E2 R2.
  destruct (retryable_continues w w1 e1 E1 R1) as [C _]. rewrite C.
  destruct (turn_stops 2 [3]%nat _ w2 e2 E2 (or_intror R2))
    as [w' [L [O [A [Z V]]]]].
  exists w'. split; [exact L|]. split; [exact O|]. split; [|auto].
  rewrite A. cbn [audit after_events]. rewrite (attempt_keeps_audit _ _ _ E1).
  reflexivity.
Qed.

(** A call whose third attempt raises: whatever the error, it is the
    last. *)
Lemma third_attempt_stops (w w1 w2 w3 : World) (e1 e2 e3 : Error) :
  attempt w = (Throw e1, w1) -> isRetryableError e1 = true ->
  attempt (after_events w1 [EvDelay 1000]) = (Throw e2, w2) ->
  isRetryableError e2 = true ->
  attempt (after_events w2 [EvDelay 2000]) = (Throw e3, w3) ->
  exists w',
    createPaymentIntent env serviceIdentifier packageType totalPrice currency
                        quantity w
    = (Throw (enhanceError e3 txn), w')
    /\ orders w' = orders w3
    /\ audit w' = (audit w ++ logged env (message e3))%list
    /\ zoho_attempts w' = zoho_attempts w3
    /\ events w' = events w3.
Proof.
  intros E1 R1 E2 R2 E3.
  destruct (retryable_continues w w1 e1 E1 R1) as [C [C2 _]]. rewrite C.
  rewrite (C2 _ _ _ E2 R2).
  destruct (turn_stops 3 []%nat _ w3 e3 E3 (or_introl eq_refl))
    as [w' [L [O [A [Z V]]]]].
  exists w'. split; [exact L|]. split; [exact O|]. split; [|auto].
  rewrite A. cbn [audit after_events]. rewrite (attempt_keeps_audit _ _ _ E2).
  cbn [audit after_events]. rewrite (attempt_keeps_audit _ _ _ E1).
  reflexivity.
Qed.

End WholeCall.

(** What a healthy probe followed by a successful invoice request means
    for the invoicing call. *)
Lemma successful_post_returns (env : Env) (k : nat) (err : option string)
      (inv : PaymentIntent) :
  zoho_health env k = HealthJson true err ->
  zoho_post env k = PostSuccess inv ->
  invoicing_returns env k inv.
Proof.
  intros Hh Hp order service client quantity transactionId w Hk.
  unfold_async. cbn beta iota. rewrite Hk, Hh. cbn. rewrite Hp. reflexivity.
Qed.

(** C1 as stated fails when every invoice request times out, a retryable
    error: the call runs three attempts and each one writes its own
    order. *)
Lemma invoicing_timeouts_leave_three_orders :
  let w' := snd (createPaymentIntent Sample.always_timeout "email" "basic"
                                     (Number.of_Z 200) "USD" 50 empty_world) in
  isRetryableError Sample.timeout_error = true
  /\ length (orders w') = 3%nat
  /\ posts_of (events w') = [0; 1; 2; 3; 4; 5; 6; 7; 8]%nat
  /\ ~ (length (orders w') <= length (orders empty_world) + 1)%nat.
Proof.
  vm_compute. split; [reflexivity|]. split; [reflexivity|].
  split; [reflexivity|]. intro H. lia.
Qed.

(** C1, amended. The retries of the invoicing step, inside
    [createZohoInvoiceWithRetry], create no order: the same order is
    reused.  Each attempt of [createPaymentIntent] writes at most one order,
    so one call creates at most three.  When the invoicing client raises
    twice and succeeds on its third call, exactly one order is created and
    the call returns that one payment intent. *)
Theorem invoicing_retries_reuse_the_order
        (env : Env) (serviceIdentifier packageType currency : string)
        (totalPrice : number) (quantity : Z) (w : World) :
  (forall order service client transactionId,
      exists r w',
        createZohoInvoiceWithRetry env order service client quantity
                                   transactionId w = (r, w')
        /\ orders w' = orders w)
  /\ (exists r w',
        createPaymentIntent env serviceIdentifier packageType totalPrice
                            currency quantity w = (r, w')
        /\ (length (orders w) <= length (orders w') <= length (orders w) + 3)%nat)
  /\ (forall user serviceId service client e1 e2 inv,
        reaches_invoicing env serviceIdentifier packageType user serviceId
                          service client ->
        invoicing_raises env (zoho_attempts w) e1 ->
        invoicing_raises env (zoho_attempts w + 1) e2 ->
        invoicing_returns env (zoho_attempts w + 2) inv ->
        exists w',
          createPaymentIntent env serviceIdentifier packageType totalPrice
                              currency quantity w
          = (Ok (with_transaction inv (new_transaction_id env)), w')
          /\ length (orders w') = (length (orders w) + 1)%nat
          /\ audit w' = audit w
          /\ zoho_attempts w' = (zoho_attempts w + 3)%nat).
Proof.
  split; [|split].
  - intros order service client transactionId.
    destruct (retry_effect env order service client quantity transactionId w)
      as [r [w' [E [O _]]]].
    exists r, w'. split; [exact E | exact O].
  - destruct (call_bounds env serviceIdentifier packageType currency totalPrice
                quantity w) as [r [w' [E [O _]]]].
    exists r, w'. split; [exact E | exact O].
  - intros user serviceId service client e1 e2 inv Hreach H1 H2 H3.
    destruct (attempt_reaches env serviceIdentifier packageType currency totalPrice
                quantity (new_transaction_id env) user serviceId service client w
                Hreach) as [evs [E _]].
    cbv zeta in E. unfold bind at 1 in E. unfold createZohoInvoiceWithRetry in E.
    match type of E with
    | context [createZohoInvoiceWithRetry_loop _ env ?o ?s ?c ?q ?t ?x] =>
      destruct (retry_twice_then_ok env o s c q t x e1 e2 inv H1 H2 H3)
        as [w2 [R [O2 [A2 [Z2 _]]]]]
    end.
    rewrite R in E. unfold bind, update_order_zoho in E.
    unfold createPaymentIntent. cbn [seq MAX_RETRIES].
    cbn in O2, A2, Z2.
    destruct (order_update_ok env); unfold modify, ret in E; cbn beta iota in E;
      rewrite (loop_step_ok env serviceIdentifier packageType currency totalPrice
                 quantity _ _ _ _ _ E);
      (eexists; split; [reflexivity|]; cbn [orders audit zoho_attempts];
       rewrite ?length_map, O2, length_app; cbn [length]; repeat split; try lia;
       exact A2).
Qed.

Lemma sample_timeout_raises (k : nat) :
  (k <? 2)%nat = true ->
  invoicing_raises Sample.twice_then_ok k Sample.timeout_error.
Proof.
  intros Hlt order service client quantity transactionId w Hk.
  destruct k as [|[|k]]; [| |discriminate];
    unfold_async; cbn beta iota; rewrite Hk; reflexivity.
Defined.

Lemma sample_reaches_invoicing (health : nat -> HealthReply) (post : nat -> InvoiceReply) :
  reaches_invoicing (Sample.scenario Sample.alice Sample.answered health post)
                    "email" "basic" Sample.alice
                    "11111111-1111-4111-8111-111111111111"
                    Sample.email_migration Sample.alice_profile.
Proof.
  unfold reaches_invoicing. repeat split; try reflexivity. discriminate.
Defined.

Lemma invoicing_retries_reuse_the_order_witness :
  exists w',
    createPaymentIntent Sample.twice_then_ok "email" "basic" (Number.of_Z 200) "USD" 50
                        empty_world
    = (Ok (with_transaction Sample.invoice "txn_1_abc"), w')
    /\ length (orders w') = 1%nat
    /\ audit w' = []
    /\ zoho_attempts w' = 3%nat.
Proof.
  exact (proj2 (proj2 (invoicing_retries_reuse_the_order
                         Sample.twice_then_ok "email" "basic" "USD" (Number.of_Z 200) 50
                         empty_world))
               Sample.alice "11111111-1111-4111-8111-111111111111"
               Sample.email_migration Sample.alice_profile
               Sample.timeout_error Sample.timeout_error
               Sample.invoice
               (sample_reaches_invoicing _ _)
               (sample_timeout_raises 0 eq_refl)
               (sample_timeout_raises 1 eq_refl)
               (successful_post_returns Sample.twice_then_ok 2 None _ eq_refl eq_refl)).
Defined.

(** C2 as stated fails when the gateway answers 401: the error is not
    retryable, yet the invoice request is sent three times before the one
    audit row is written. *)
Lemma non_retryable_invoicing_error_is_retried :
  let run := createPaymentIntent Sample.unauthorized "email" "basic" (Number.of_Z 200)
                                 "USD" 50 empty_world in
  exists e,
    fst run = Throw e
    /\ code e = Some "ZOHO_AUTH_FAILED"
    /\ retryable e = false
    /\ posts_of (events (snd run)) = [0; 1; 2]%nat
    /\ delays_of (events (snd run)) = [1000; 2000]%Z
    /\ length (audit (snd run)) = 1%nat.
Proof.
  eexists. vm_compute. repeat split; reflexivity.
Qed.

(** C2, amended. Inside one attempt the invoicing call is tried three times
    whatever the classification of its errors, with waits of 1000 ms and
    2000 ms.  [createPaymentIntent] runs a further attempt only after an
    error classified as retryable, after a wait of 1000 ms, then 2000 ms
    (the base delay doubled), and never a fourth.  After a non-retryable
    error, of whichever attempt, no further attempt is run: the error is
    re-raised, enhanced, and the audit log gains exactly one row, with
    success = false, when the store accepts it.  One call makes at most
    nine invoicing calls. *)
Theorem retry_policy
        (env : Env) (serviceIdentifier packageType currency : string)
        (totalPrice : number) (quantity : Z) (w : World) :
  let txn := new_transaction_id env in
  let attempt := createPaymentIntentAttempt env serviceIdentifier packageType
                                            totalPrice currency quantity txn in
  let loop attempts := createPaymentIntent_loop attempts env serviceIdentifier
                         packageType totalPrice currency quantity txn in
  let call := createPaymentIntent env serviceIdentifier packageType totalPrice
                                  currency quantity in
  let stops_with (e : Error) (before last : World) (run : Result PaymentIntent * World) :=
    fst run = Throw (enhanceError e txn)
    /\ orders (snd run) = orders last
    /\ zoho_attempts (snd run) = zoho_attempts last
    /\ events (snd run) = events last
    /\ audit (snd run) = (audit before ++ logged env (message e))%list
    /\ (audit_insert_ok env = true ->
        audit (snd run) = (audit before ++ [failure_entry env (message e)])%list
        /\ audit_success (failure_entry env (message e)) = false) in
  (forall order service client e1 e2 e3,
      invoicing_raises env (zoho_attempts w) e1 ->
      invoicing_raises env (zoho_attempts w + 1) e2 ->
      invoicing_raises env (zoho_attempts w + 2) e3 ->
      exists w',
        createZohoInvoiceWithRetry env order service client quantity txn w
        = (Throw e3, w')
        /\ orders w' = orders w
        /\ zoho_attempts w' = (zoho_attempts w + 3)%nat
        /\ delays_of (events w') = (delays_of (events w) ++ [1000; 2000]%Z)%list)
  /\ (forall e w1,
        attempt w = (Throw e, w1) -> isRetryableError e = false ->
        exists w',
          call w = (Throw (enhanceError e txn), w')
          /\ orders w' = orders w1
          /\ zoho_attempts w' = zoho_attempts w1
          /\ events w' = events w1
          /\ audit w' = (audit w ++ logged env (message e))%list
          /\ (audit_insert_ok env = true ->
              audit w' = (audit w ++ [failure_entry env (message e)])%list
              /\ audit_success (failure_entry env (message e)) = false))
  /\ (forall e w1,
        attempt w = (Throw e, w1) -> isRetryableError e = true ->
        call w = loop [2; 3]%nat (after_events w1 [EvDelay 1000])
        /\ (forall w2 w3 e2,
              attempt w2 = (Throw e2, w3) -> isRetryableError e2 = true ->
              loop [2; 3]%nat w2 = loop [3]%nat (after_events w3 [EvDelay 2000]))
        /\ (forall w2 w3 e3,
              attempt w2 = (Throw e3, w3) ->
              loop [3]%nat w2
              = (logPaymentFailure env txn (message e3) ;;;
                 throw (enhanceError e3 txn)) w3))
  /\ (forall n rest w0 w1 e,
        attempt w0 = (Throw e, w1) ->
        (n = 3%nat \/ isRetryableError e = false ->
         stops_with e w0 w1 (loop (n :: rest) w0))
        /\ (n <> 3%nat -> isRetryableError e = true ->
            loop (n :: rest) w0
            = loop rest (after_events w1 [EvDelay (1000 * 2 ^ (Z.of_nat n - 1))])))
  /\ call w = loop [1; 2; 3]%nat w
  /\ (forall e1 w1 e2 w2,
        attempt w = (Throw e1, w1) -> isRetryableError e1 = true ->
        attempt (after_events w1 [EvDelay 1000]) = (Throw e2, w2) ->
        isRetryableError e2 = false ->
        stops_with e2 w w2 (call w))
  /\ (forall e1 w1 e2 w2 e3 w3,
        attempt w = (Throw e1, w1) -> isRetryableError e1 = true ->
        attempt (after_events w1 [EvDelay 1000]) = (Throw e2, w2) ->
        isRetryableError e2 = true ->
        attempt (after_events w2 [EvDelay 2000]) = (Throw e3, w3) ->
        stops_with e3 w w3 (call w))
  /\ (exists r w',
        call w = (r, w')
        /\ (zoho_attempts w' <= zoho_attempts w + 9)%nat
        /\ (length (audit w') <= length (audit w) + 1)%nat).
Proof.
  cbv zeta.
  assert (Stops : forall e before last (run : Result PaymentIntent * World),
             (exists w',
                 run = (Throw (enhanceError e (new_transaction_id env)), w')
                 /\ orders w' = orders last
                 /\ audit w' = (audit before ++ logged env (message e))%list
                 /\ zoho_attempts w' = zoho_attempts last
                 /\ events w' = events last) ->
             fst run = Throw (enhanceError e (new_transaction_id env))
             /\ orders (snd run) = orders last
             /\ zoho_attempts (snd run) = zoho_attempts last
             /\ events (snd run) = events last
             /\ audit (snd run) = (audit before ++ logged env (message e))%list
             /\ (audit_insert_ok env = true ->
                 audit (snd run)
                 = (audit before ++ [failure_entry env (message e)])%list
                 /\ audit_success (failure_entry env (message e)) = false)).
  { intros e before last run [w' [-> [O [A [Z V]]]]]. cbn [fst snd].
    split; [reflexivity|]. split; [exact O|]. split; [exact Z|].
    split; [exact V|]. split; [exact A|].
    intros Hok. split; [|reflexivity].
    unfold logged in A. rewrite Hok in A. exact A. }
  split; [|split; [|split; [|split; [|split; [|split; [|split]]]]]].
  - intros order service client e1 e2 e3 H1 H2 H3.
    destruct (retry_three_failures env order service client quantity
                (new_transaction_id env) w e1 e2 e3 H1 H2 H3)
      as [w' [E [O [_ [Z D]]]]].
    exists w'. auto.
  - intros e w1 E Hr.
    destruct (non_retryable_stops env serviceIdentifier packageType currency
                totalPrice quantity w w1 e E Hr) as [w' [C [O [A [Z V]]]]].
    exists w'. split; [exact C|]. split; [exact O|]. split; [exact Z|].
    split; [exact V|]. split; [exact A|].
    intros Hok. split; [|reflexivity].
    unfold logged in A. rewrite Hok in A. exact A.
  - intros e w1 E Hr.
    exact (retryable_continues env serviceIdentifier packageType currency
             totalPrice quantity w w1 e E Hr).
  - intros n rest w0 w1 e E. split.
    + intros Hstop. apply Stops.
      exact (turn_stops env serviceIdentifier packageType currency totalPrice
               quantity n rest w0 w1 e E Hstop).
    + intros Hn Hr.
      exact (turn_continues env serviceIdentifier packageType currency totalPrice
               quantity n rest w0 w1 e E Hn Hr).
  - reflexivity.
  - intros e1 w1 e2 w2 E1 R1 E2 R2. apply Stops.
    exact (second_attempt_stops env serviceIdentifier packageType currency
             totalPrice quantity w w1 w2 e1 e2 E1 R1 E2 R2).
  - intros e1 w1 e2 w2 e3 w3 E1 R1 E2 R2 E3. apply Stops.
    exact (third_attempt_stops env serviceIdentifier packageType currency
             totalPrice quantity w w1 w2 w3 e1 e2 e3 E1 R1 E2 R2 E3).
  - destruct (call_bounds env serviceIdentifier packageType currency totalPrice
                quantity w) as [r [w' [E [_ [Z A]]]]].
    exists r, w'. auto.
Qed.

Lemma retry_policy_witness :
  (let env := Sample.unauthorized in
   let e := PaymentError "ZOHO_AUTH_FAILED"
              "Payment gateway authentication failed. Please try again." in
   let w1 := snd (createPaymentIntentAttempt env "email" "basic" (Number.of_Z 200)
                                             "USD" 50 "txn_1_abc" empty_world) in
   exists w',
     createPaymentIntent env "email" "basic" (Number.of_Z 200) "USD" 50 empty_world
     = (Throw (enhanceError e "txn_1_abc"), w')
     /\ orders w' = orders w1
     /\ zoho_attempts w' = zoho_attempts w1
     /\ events w' = events w1
     /\ audit w' = ([] ++ logged env (message e))%list
     /\ (audit_insert_ok env = true ->
         audit w' = ([] ++ [failure_entry env (message e)])%list
         /\ audit_success (failure_entry env (message e)) = false))
  /\ (let env := Sample.timeout_then_unauthorized in
      let e2 := PaymentError "ZOHO_AUTH_FAILED"
                  "Payment gateway authentication failed. Please try again." in
      let attempt := createPaymentIntentAttempt env "email" "basic" (Number.of_Z 200)
                                                "USD" 50 "txn_1_abc" in
      let w1 := snd (attempt empty_world) in
      let w2 := snd (attempt (after_events w1 [EvDelay 1000])) in
      let run := createPaymentIntent env "email" "basic" (Number.of_Z 200) "USD" 50
                                     empty_world in
      fst run = Throw (enhanceError e2 "txn_1_abc")
      /\ orders (snd run) = orders w2
      /\ zoho_attempts (snd run) = zoho_attempts w2
      /\ events (snd run) = events w2
      /\ audit (snd run) = ([] ++ logged env (message e2))%list
      /\ (audit_insert_ok env = true ->
          audit (snd run) = ([] ++ [failure_entry env (message e2)])%list
          /\ audit_success (failure_entry env (message e2)) = false)).
Proof.
  cbv zeta. split.
  - refine (proj1 (proj2 (retry_policy Sample.unauthorized "email" "basic" "USD"
                            (Number.of_Z 200) 50 empty_world))
                  _ _ _ _); vm_compute; reflexivity.
  - refine (proj1 (proj2 (proj2 (proj2 (proj2 (proj2
              (retry_policy Sample.timeout_then_unauthorized "email" "basic" "USD"
                            (Number.of_Z 200) 50 empty_world))))))
                  Sample.timeout_error _ _ _ _ _ _ _); vm_compute; reflexivity.
Defined.

(** The second attempt of that call ends in an error that is not
    retryable: six invoice requests are sent, the waits are those inside
    the two attempts and the one between them, and one audit row is
    written. *)
Example second_attempt_is_the_last :
  let run := createPaymentIntent Sample.timeout_then_unauthorized "email" "basic"
                                 (Number.of_Z 200) "USD" 50 empty_world in
  posts_of (events (snd run)) = [0; 1; 2; 3; 4; 5]%nat
  /\ delays_of (events (snd run)) = [1000; 2000; 1000; 1000; 2000]%Z
  /\ length (orders (snd run)) = 2%nat
  /\ length (audit (snd run)) = 1%nat.
Proof. vm_compute. repeat split; reflexivity. Qed.

(** ** The alternative channels *)

Import Alternative.

(** C8 as stated fails for 20.01 USD: the email channel stores the INR
    amount as computed, the number 1665.8325000000002, and the orchestrator
    stores it rounded to 1665.83, so the two rows differ in content. *)
Lemma email_channel_row_differs_from_step6 :
  let alt := orders (snd (createEmailPayment Sample.show_2001 Sample.base
                                             Sample.mailbox_order empty_world)) in
  let orch := orders (snd (createPaymentIntentAttempt
                             Sample.base "11111111-1111-4111-8111-111111111111"
                             "basic" (Number.dec 2001 2) "USD" 1 "txn_1_abc"
                             empty_world)) in
  exists a o,
    alt = [a] /\ orch = [o]
    /\ amount_inr a = Number.dec 16658325000000002 13
    /\ amount_inr o = Number.dec 166583 2
    /\ ~ equal (amount_inr a) (amount_inr o)
    /\ ~ same_content a o.
Proof.
  cbv zeta. eexists; eexists.
  split; [vm_compute; reflexivity|]. split; [vm_compute; reflexivity|].
  split; [vm_compute; reflexivity|]. split; [vm_compute; reflexivity|].
  split.
  - intros H. vm_compute in H. discriminate.
  - intros (_ & _ & _ & _ & H & _). vm_compute in H. discriminate.
Qed.

(** Beyond rounding: for an amount in INR the channels multiply it by 1.52
    as if it were in USD, where the fallback path of the orchestrator
    converts it to USD first. *)
Lemma channels_treat_a_rupee_amount_as_dollars :
  let row := channel_order Sample.alice Sample.rupee_order "email" "order-0" in
  let amounts := fallback_amounts (Number.of_Z 8325) "INR" in
  amount_usd row = Number.of_Z 100 /\ usd amounts = Number.of_Z 100
  /\ amount_inr row = Number.of_Z 8325 /\ Payment.inr amounts = Number.of_Z 8325
  /\ amount_aud row = Number.of_Z 12654 /\ aud amounts = Number.of_Z 152.
Proof. cbv zeta. repeat split; vm_compute; reflexivity. Qed.

(** C8, amended. With a signed-in user and a store that accepts the row,
    each alternative channel appends one order for that user, with the
    service, package and currency given, status pending, the gateway tag
    email or bank_transfer, and the amount of the transaction currency equal
    to the amount given, unrounded; it returns the mailto link or the
    bank-transfer page link carrying the new order id.  The row agrees with
    the row of step 6 on client, service, package, currency and status; the
    orchestrator's amount in the transaction currency is the channel's
    rounded to two decimals, and so are, for a USD transaction on the
    fallback path, the INR and AUD amounts (in the channel the products
    amount * 83.25 and amount * 1.52 of numbers, as computed). *)
Theorem alternative_channels_persist_pending_order
        (showNumber : number -> string) (env : Env) (orderData : OrderData)
        (user : User) (w : World) :
  auth_user env = Some user ->
  order_insert_error env = None ->
  let id := fresh_order_id env (length (orders w)) in
  let row gateway := channel_order user orderData gateway id in
  let stored gateway :=
    mkWorld (orders w ++ [row gateway]) (audit w) (zoho_attempts w) (events w) in
  let step6 := step6_order env user (serviceId orderData) (packageType orderData)
                           (amount orderData) (od_currency orderData) id in
  createEmailPayment showNumber env orderData w
  = (Ok ("mailto:contact@mechinweb.com?subject="
         ++ encodeURIComponent ("Payment for " ++ serviceName orderData
                                ++ " - Order " ++ id)
         ++ "&body=" ++ encodeURIComponent (email_body showNumber id orderData)),
     stored "email")
  /\ createBankTransferPayment env orderData w
     = (Ok ("/payment/bank-transfer?order_id=" ++ id), stored "bank_transfer")
  /\ (forall gateway,
        order_client_id (row gateway) = user_id user
        /\ order_service_id (row gateway) = serviceId orderData
        /\ package_type (row gateway) = packageType orderData
        /\ currency (row gateway) = od_currency orderData
        /\ status (row gateway) = "pending"
        /\ payment_gateway (row gateway) = gateway
        /\ order_client_id step6 = order_client_id (row gateway)
        /\ order_service_id step6 = order_service_id (row gateway)
        /\ package_type step6 = package_type (row gateway)
        /\ currency step6 = currency (row gateway)
        /\ status step6 = status (row gateway)
        /\ payment_gateway step6 = "zoho"
        /\ (supported (od_currency orderData) ->
            order_amount (row gateway) (od_currency orderData) = amount orderData
            /\ order_amount step6 (od_currency orderData)
               = toFixed2 (order_amount (row gateway) (od_currency orderData)))
        /\ (od_currency orderData = "USD" ->
            amount_inr (row gateway) = (amount orderData * Number.dec 8325 2)%num
            /\ amount_aud (row gateway) = (amount orderData * Number.dec 152 2)%num
            /\ (on_fallback_path env (amount orderData) "USD" ->
                amount_inr step6 = toFixed2 (amount_inr (row gateway))
                /\ amount_aud step6 = toFixed2 (amount_aud (row gateway))))).
Proof.
  intros Hu Hi. cbv zeta. split; [|split].
  - unfold createEmailPayment, bind, insert_order, ret. rewrite Hu, Hi. reflexivity.
  - unfold createBankTransferPayment, bind, insert_order, ret. rewrite Hu, Hi.
    reflexivity.
  - intro gateway. repeat (split; [reflexivity|]). split.
    + intros Hc.
      assert (Hrow : order_amount (channel_order user orderData gateway
                                     (fresh_order_id env (length (orders w))))
                                  (od_currency orderData) = amount orderData).
      { unfold order_amount, channel_order. cbn [amount_usd amount_inr amount_aud].
        destruct Hc as [ -> | [ -> | -> ] ]; reflexivity. }
      split; [exact Hrow|]. rewrite Hrow.
      pose proof (own_component env (amount orderData) (od_currency orderData) Hc)
        as Hown.
      unfold component in Hown. unfold order_amount, step6_order.
      cbn [amount_usd amount_inr amount_aud]. exact Hown.
    + intros Hc. unfold channel_order. cbn [amount_inr amount_aud]. rewrite Hc.
      split; [reflexivity|]. split; [reflexivity|].
      intros Hf. unfold step6_order. cbn [amount_inr amount_aud].
      rewrite (fallback_path _ _ _ Hf). split; reflexivity.
Qed.

Lemma alternative_channels_persist_pending_order_witness :
  createBankTransferPayment Sample.base Sample.mailbox_order empty_world
  = (Ok "/payment/bank-transfer?order_id=order-0",
     mkWorld [channel_order Sample.alice Sample.mailbox_order "bank_transfer"
                            "order-0"] [] 0 []).
Proof.
  exact (proj1 (proj2 (alternative_channels_persist_pending_order
                         Sample.show_2001 Sample.base Sample.mailbox_order
                         Sample.alice empty_world eq_refl eq_refl))).
Defined.

(** ** The invoicing edge function *)

Import ZohoApi.

(** C3 fails on the listed [index.ts]: after the invoice is created nothing
    else is asked of the provider; the invoice is neither marked sent nor
    fetched again, and the payment address is built from the invoice id
    alone. *)
Lemma index_ts_invoice_is_neither_sent_nor_refetched :
  ZohoIntegration.createZohoInvoice SampleProvider.knows_alice SampleProvider.config
                                    SampleProvider.now "CUST-1"
                                    SampleProvider.request []
  = (Ok (mkInvoiceResult "INV-1" "INV-000001"
                         "https://invoice.zoho.in/invoices/INV-1/payment"
                         (Number.of_Z 200) "draft" "CUST-1"),
     [CreateInvoice (SampleProvider.invoice_payload (Some "MW-1700000000000"))]).
Proof. vm_compute. reflexivity. Qed.

(** C4 fails on the listed [index.ts]: the create request is sent before
    any lookup, also for a customer the provider already knows; and after a
    rejection only the address is searched, never the name. *)
Lemma index_ts_customer_is_created_before_any_lookup :
  ZohoIntegration.createZohoCustomer SampleProvider.knows_alice SampleProvider.config
                                     SampleProvider.alice []
  = (Ok SampleProvider.alice_contact,
     [CreateContact SampleProvider.alice_payload;
      SearchContactsByEmail "alice@example.com"])
  /\ ZohoIntegration.createZohoCustomer SampleProvider.knows_the_name
                                        SampleProvider.config SampleProvider.alice []
     = (Throw (plainError ("Customer creation failed: 400 "
                           ++ SampleProvider.duplicate_text)),
        [CreateContact SampleProvider.alice_payload;
         SearchContactsByEmail "alice@example.com"]).
Proof. split; vm_compute; reflexivity. Qed.

(** C5 fails on the listed [index.ts] in its last part: the request carries
    an invoice number of its own, MW- followed by the clock, while the line
    items and the due date, thirty days on, are as claimed. *)
Lemma index_ts_invoice_number_is_supplied :
  exists result payload,
    ZohoIntegration.createZohoInvoice SampleProvider.knows_alice SampleProvider.config
                                      SampleProvider.now "CUST-1"
                                      SampleProvider.request []
    = (Ok result, [CreateInvoice payload])
    /\ ip_invoice_number payload = Some "MW-1700000000000"
    /\ ip_line_items payload
       = [mkLineItem "Email Migration & Setup"
                     "Email Migration & Setup - basic Package (Quantity: 50)"
                     (Number.of_Z 4) 50 (Number.of_Z 200)]
    /\ ip_due_date payload = (ip_date payload + 30)%Z
    /\ ip_currency_code payload = "USD".
Proof.
  eexists; eexists. split; [vm_compute; reflexivity|].
  repeat split; reflexivity.
Qed.

Import ZohoSpec.

(** The listed function, for every provider: a successful invoice creation
    is a single request, which carries an invoice number, and the payment
    address is made of the invoice id. *)
Lemma index_ts_invoice_is_one_request
      (p : Provider) (config : ZohoConfig) (now : Z) (customerId : string)
      (invoiceData : InvoiceRequest) (h h' : History) (r : InvoiceResult) :
  ZohoIntegration.createZohoInvoice p config now customerId invoiceData h
  = (Ok r, h') ->
  exists payload,
    h' = (h ++ [CreateInvoice payload])%list
    /\ ip_invoice_number payload = Some ("MW-" ++ showZ now)
    /\ r_payment_url r
       = "https://invoice.zoho.in/invoices/" ++ r_invoice_id r ++ "/payment".
Proof.
  intros Hrun. unfold ZohoIntegration.createZohoInvoice in Hrun.
  destruct (negb (valid_customer_id customerId)); [discriminate|].
  cbv zeta in Hrun.
  match type of Hrun with context [CreateInvoice ?pl] => exists pl end.
  unfold fetch, bind, ret, throw in Hrun. cbn beta iota in Hrun.
  match type of Hrun with
  | context [match create_invoice ?a ?b ?c with _ => _ end] =>
    destruct (create_invoice a b c) as [?|? ? ?|?|[inv|]]; try discriminate
  end.
  injection Hrun as <- <-. repeat split; reflexivity.
Qed.

(** The listed function, for every provider: the create request always
    comes first, followed at most by one search by address. *)
Lemma index_ts_customer_requests
      (p : Provider) (config : ZohoConfig) (customerData : CustomerData)
      (h : History) :
  exists rest,
    snd (ZohoIntegration.createZohoCustomer p config customerData h)
    = (h ++ CreateContact (contact_payload customerData) :: rest)%list
    /\ (rest = [] \/ rest = [SearchContactsByEmail (email customerData)]).
Proof.
  unfold ZohoIntegration.createZohoCustomer, ZohoIntegration.findZohoCustomer,
    contact_payload, fetch, bind, ret, throw, try_catch.
  cbv zeta. cbn beta iota.
  repeat (split_match; cbn beta iota; cbn [fst snd]);
    eexists; (split; [rewrite <- ?app_assoc; cbn [app]; reflexivity|]);
    auto.
Qed.

Ltac unfold_zoho :=
  unfold ZohoIntegrationRevised.createZohoInvoice,
    ZohoIntegrationRevised.sendZohoInvoice,
    ZohoIntegrationRevised.getZohoPaymentUrl,
    ZohoIntegrationRevised.createZohoCustomer,
    ZohoIntegrationRevised.attempt_find,
    ZohoIntegrationRevised.findZohoCustomerByEmail,
    ZohoIntegrationRevised.findZohoCustomerByName,
    fetch, bind, ret, throw, try_catch in *.

Lemma due_date_is_thirty_days_on (now : Z) :
  utc_day (now + 30 * 24 * 60 * 60 * 1000) = (utc_day now + 30)%Z.
Proof.
  unfold utc_day.
  replace (now + 30 * 24 * 60 * 60 * 1000)%Z with (now + 30 * 86400000)%Z by lia.
  apply Z.div_add. lia.
Qed.

(** The revised function does what the listed one misses: a created
    invoice is marked sent through
    its own endpoint, then fetched again, in that order; the payment address
    is the one fetched, and the address made of the organisation id and the
    invoice id only when none was fetched. *)
Theorem revised_invoice_is_sent_then_refetched
        (p : Provider) (config : ZohoConfig) (now : Z) (customerId : string)
        (invoiceData : InvoiceRequest) (h h' : History) (r : InvoiceResult) :
  ZohoIntegrationRevised.createZohoInvoice p config now customerId invoiceData h
  = (Ok r, h') ->
  exists payload,
    let id := r_invoice_id r in
    let sent := (h ++ [CreateInvoice payload; MarkInvoiceSent id])%list in
    h' = (sent ++ [GetInvoice id])%list
    /\ r_payment_url r
       = match fetched_url (get_invoice p sent id) with
         | Some u => u
         | None => ZohoIntegrationRevised.portal_url config id
         end.
Proof.
  intros Hrun. unfold ZohoIntegrationRevised.createZohoInvoice in Hrun.
  destruct (negb (valid_customer_id customerId)); [discriminate|].
  cbv zeta in Hrun.
  match type of Hrun with context [CreateInvoice ?pl] => exists pl end.
  unfold_zoho. cbn beta iota in Hrun.
  match type of Hrun with
  | context [match create_invoice ?a ?b ?c with _ => _ end] =>
    destruct (create_invoice a b c) as [?|? ? ?|?|[inv|]] eqn:Ec; try discriminate
  end.
  match type of Hrun with
  | context [match mark_sent ?a ?b ?c with _ => _ end] =>
    destruct (mark_sent a b c) as [?|? ? ?|?|sentInvoice] eqn:Es; try discriminate
  end.
  cbn beta iota in Hrun.
  match type of Hrun with
  | context [match get_invoice ?a ?b ?c with _ => _ end] =>
    destruct (get_invoice a b c) as [?|? ? ?|?|[fetched|]] eqn:Eg
  end.
  all: cbn beta iota in Hrun.
  all: destruct sentInvoice as [sentInv|]; try discriminate.
  all: injection Hrun as <- <-; cbn [r_invoice_id r_payment_url].
  all: cbv zeta; rewrite <- !app_assoc in *; cbn [app] in *.
  all: split; [reflexivity|].
  all: rewrite Eg; unfold fetched_url, Payment.or_else.
  all: try reflexivity.
  destruct (invoice_url fetched) as [[|c u]|]; reflexivity.
Qed.

Lemma find_or_create_starts_with_lookup (p : Provider) (customerData : CustomerData)
      (h : History) :
  exists rest,
    snd (find_or_create p customerData h)
    = (h ++ SearchContactsByEmail (email customerData) :: rest)%list
    /\ (forall c, found (contacts_by_email p h (email customerData)) = Some c ->
                  rest = [] /\ fst (find_or_create p customerData h) = Some c).
Proof.
  unfold find_or_create. cbv zeta.
  repeat (split_match; cbn [fst snd]);
    eexists; (split; [rewrite <- ?app_assoc; cbn [app]; reflexivity|]);
    intros c0 Hc; try discriminate; injection Hc as <-; split; reflexivity.
Qed.

(** The revised function: the customer is looked up by address
    first, and a create request is sent only when none is found; when the
    creation is rejected because the customer exists (code 3062, or a
    message containing "already exists"), the address is searched again,
    then the name, before the failure is raised. *)
Theorem revised_customer_is_looked_up_first
        (p : Provider) (config : ZohoConfig) (customerData : CustomerData)
        (h : History) :
  let run := ZohoIntegrationRevised.createZohoCustomer p config customerData h in
  returned (fst run) = fst (find_or_create p customerData h)
  /\ snd run = snd (find_or_create p customerData h)
  /\ exists rest,
      snd run = (h ++ SearchContactsByEmail (email customerData) :: rest)%list
      /\ (forall c, found (contacts_by_email p h (email customerData)) = Some c ->
                    rest = [] /\ fst run = Ok c).
Proof.
  cbv zeta.
  assert (Hrun :
    returned (fst (ZohoIntegrationRevised.createZohoCustomer p config customerData h))
    = fst (find_or_create p customerData h)
    /\ snd (ZohoIntegrationRevised.createZohoCustomer p config customerData h)
       = snd (find_or_create p customerData h)).
  { unfold_zoho. unfold find_or_create, found, contact_payload, returned.
    cbv zeta. cbn beta iota.
    repeat (split_match; cbn beta iota; cbn [fst snd]);
      try (split; reflexivity); try discriminate; try congruence. }
  destruct Hrun as [Hr Hh]. split; [exact Hr|]. split; [exact Hh|].
  destruct (find_or_create_starts_with_lookup p customerData h) as [rest [E F]].
  exists rest. rewrite Hh. split; [exact E|].
  intros c Hc. destruct (F c Hc) as [-> Hf]. split; [reflexivity|].
  rewrite <- Hr in Hf. unfold returned in Hf.
  destruct (fst (ZohoIntegrationRevised.createZohoCustomer p config customerData h));
    congruence.
Qed.

(** The revised function: the invoice request carries one line item
    per service item (name, description naming the quantity, unit rate,
    quantity, line total), a due date thirty days on, the currency of the
    request, and no invoice number. *)
Theorem revised_invoice_number_is_left_to_provider
        (p : Provider) (config : ZohoConfig) (now : Z) (customerId : string)
        (invoiceData : InvoiceRequest) (h : History) :
  valid_customer_id customerId = true ->
  exists payload rest,
    snd (ZohoIntegrationRevised.createZohoInvoice p config now customerId
                                                  invoiceData h)
    = (h ++ CreateInvoice payload :: rest)%list
    /\ ip_invoice_number payload = None
    /\ ip_line_items payload
       = map (fun item =>
                mkLineItem (serviceName item)
                           (serviceName item ++ " - " ++ packageType item
                            ++ " Package (Quantity: " ++ showZ (quantity item) ++ ")")
                           (unitPrice item) (quantity item) (totalPrice item))
             (serviceItems invoiceData)
    /\ ip_due_date payload = (ip_date payload + 30)%Z
    /\ ip_currency_code payload = currency invoiceData.
Proof.
  intros Hv. unfold ZohoIntegrationRevised.createZohoInvoice. rewrite Hv.
  cbn [negb]. cbv zeta.
  match goal with |- context [CreateInvoice ?pl] => exists pl end.
  unfold_zoho. cbn beta iota.
  repeat (split_match; cbn beta iota; cbn [fst snd]);
    eexists; (split; [rewrite <- ?app_assoc; cbn [app]; reflexivity|]);
    cbn [ip_invoice_number ip_line_items ip_due_date ip_date ip_currency_code];
    repeat split; try reflexivity; apply due_date_is_thirty_days_on.
Qed.

(** * Further properties of the code around the claims *)

(** ** The rolling log *)

Lemma slice_last_skipn {A} (n : nat) (a : list A) :
  n <> 0%nat -> Logger.slice_last n a = skipn (length a - n) a.
Proof.
  intros Hn. unfold Logger.slice_last.
  destruct (Nat.eqb_spec n 0); [contradiction | reflexivity].
Qed.

Lemma slice_last_length {A} (n : nat) (a : list A) :
  n <> 0%nat -> length (Logger.slice_last n a) = Nat.min n (length a).
Proof.
  intros Hn. rewrite slice_last_skipn by exact Hn. rewrite length_skipn. lia.
Qed.

(** Trimming twice is trimming once: what was evicted stays evicted. *)
Lemma slice_last_app {A} (n : nat) (x y : list A) :
  Logger.slice_last n (Logger.slice_last n x ++ y) = Logger.slice_last n (x ++ y).
Proof.
  destruct (Nat.eqb_spec n 0) as [->|Hn]; [reflexivity|].
  rewrite !slice_last_skipn by exact Hn.
  rewrite !length_app, length_skipn.
  destruct (Nat.le_gt_cases (length x) n) as [Hle|Hgt].
  - replace (length x - n)%nat with 0%nat by lia. cbn [skipn].
    replace (length x - 0)%nat with (length x) by lia. reflexivity.
  - rewrite !skipn_app.
    replace (length x - (length x - n) + length y - n)%nat with (length y) by lia.
    rewrite length_skipn.
    replace (length y - (length x - (length x - n)))%nat with (length y - n)%nat by lia.
    replace (length x + length y - n - length x)%nat with (length y - n)%nat by lia.
    rewrite skipn_skipn.
    replace (length y + (length x - n))%nat
      with (length x + length y - n)%nat by lia.
    reflexivity.
Qed.

(** The buffer after one call. *)
Lemma log_buffer (b : Logger.Browser) (lv : Logger.Level) (msg : string)
      (d comp : option string) (st : Logger.State) :
  Logger.logs (Logger.log b lv msg d comp st)
  = Logger.slice_last Logger.maxLogs
      (Logger.logs st
       ++ [Logger.mkLogEntry (Logger.now b) lv msg d comp (Logger.session st)
                             (Logger.href b) (Logger.agent b)]).
Proof.
  unfold Logger.log. cbv zeta.
  match goal with |- context [Logger.store_error ?a ?e ?s] =>
    destruct (Logger.store_error a e s) end;
    destruct (Logger.level_eqb lv Logger.LevelError); cbn [Logger.logs];
    match goal with |- context [(?n <? ?m)%nat] =>
      destruct (Nat.ltb_spec n m) as [Hlt|Hge] end;
    try reflexivity;
    rewrite slice_last_skipn by discriminate;
    match goal with |- _ = skipn ?k _ => replace k with 0%nat by lia end;
    reflexivity.
Qed.

Lemma log_session (b : Logger.Browser) (lv : Logger.Level) (msg : string)
      (d comp : option string) (st : Logger.State) :
  Logger.session (Logger.log b lv msg d comp st) = Logger.session st.
Proof.
  unfold Logger.log. cbv zeta.
  match goal with |- context [Logger.store_error ?a ?e ?s] =>
    destruct (Logger.store_error a e s) end;
    destruct (Logger.level_eqb lv Logger.LevelError); reflexivity.
Qed.

Lemma log_all_session (calls : list LoggerSpec.Call) (st : Logger.State) :
  Logger.session (LoggerSpec.log_all calls st) = Logger.session st.
Proof.
  revert st. induction calls as [|c calls IH]; intro st; [reflexivity|].
  cbn [LoggerSpec.log_all fold_left]. fold (LoggerSpec.log_all calls).
  rewrite IH. apply log_session.
Qed.

(** X1. Whatever is logged, in whatever order, the buffer is the last 1000
    of everything logged so far, oldest first: it never holds more than
    1000 entries, entries leave only from the old end, and the newest entry
    is always last. *)
Theorem log_buffer_is_the_last_thousand
        (calls : list LoggerSpec.Call) (st : Logger.State) :
  (length (Logger.logs st) <= 1000)%nat ->
  let after := LoggerSpec.log_all calls st in
  let written := map (LoggerSpec.entry_of (Logger.session st)) calls in
  Logger.logs after = Logger.slice_last 1000 (Logger.logs st ++ written)
  /\ (length (Logger.logs after) <= 1000)%nat
  /\ (exists evicted, (Logger.logs st ++ written)%list
                      = (evicted ++ Logger.logs after)%list)
  /\ (forall earlier c, calls = (earlier ++ [c])%list ->
      exists older,
        Logger.logs after
        = (older ++ [LoggerSpec.entry_of (Logger.session st) c])%list).
Proof.
  intros Hinv. cbv zeta.
  assert (Hbuf : Logger.logs (LoggerSpec.log_all calls st)
                 = Logger.slice_last 1000
                     (Logger.logs st
                      ++ map (LoggerSpec.entry_of (Logger.session st)) calls)).
  { revert st Hinv. induction calls as [|c cs IH]; intros st Hinv.
    - cbn [map LoggerSpec.log_all fold_left]. rewrite app_nil_r.
      rewrite slice_last_skipn by discriminate.
      replace (length (Logger.logs st) - 1000)%nat with 0%nat by lia. reflexivity.
    - cbn [LoggerSpec.log_all fold_left]. fold (LoggerSpec.log_all cs).
      rewrite IH.
      + rewrite log_session, log_buffer. change Logger.maxLogs with 1000%nat.
        rewrite slice_last_app. rewrite <- app_assoc. reflexivity.
      + rewrite log_buffer, slice_last_length by discriminate.
        change Logger.maxLogs with 1000%nat. lia. }
  rewrite Hbuf. split; [reflexivity|]. split; [|split].
  - rewrite slice_last_length by discriminate. lia.
  - rewrite slice_last_skipn by discriminate.
    eexists. symmetry. apply firstn_skipn.
  - intros earlier c ->. rewrite map_app, app_assoc. cbn [map].
    rewrite slice_last_skipn by discriminate.
    rewrite length_app. cbn [length].
    match goal with |- context [skipn ?k (?x ++ [?e])] =>
      exists (skipn k x); rewrite skipn_app;
      replace (k - length x)%nat with 0%nat by lia end.
    reflexivity.
Qed.

Lemma log_buffer_is_the_last_thousand_witness :
  Logger.logs
    (LoggerSpec.log_all
       [LoggerSpec.mkCall LoggerSpec.sample_browser Logger.LevelInfo "one" None None;
        LoggerSpec.mkCall LoggerSpec.sample_browser Logger.LevelError "two" None None]
       LoggerSpec.fresh)
  = [LoggerSpec.entry_of "session_1_abc"
       (LoggerSpec.mkCall LoggerSpec.sample_browser Logger.LevelInfo "one" None None);
     LoggerSpec.entry_of "session_1_abc"
       (LoggerSpec.mkCall LoggerSpec.sample_browser Logger.LevelError "two" None None)].
Proof.
  refine (proj1 (log_buffer_is_the_last_thousand _ LoggerSpec.fresh _)).
  cbn. lia.
Defined.

(** X2. Only a call at level error touches the stored error log.  With a
    readable item and a writable store the item becomes the last 50 of the
    old entries and the new one: a suffix of them, of length 50, or of all
    of them when they are fewer; with an unreadable item or a store that
    refuses the write it is left as it was.  In every case the entry still
    reaches the buffer. *)
Theorem error_log_keeps_the_last_fifty
        (b : Logger.Browser) (lv : Logger.Level) (msg : string)
        (d comp : option string) (st : Logger.State) :
  let after := Logger.log b lv msg d comp st in
  let e := Logger.mkLogEntry (Logger.now b) lv msg d comp (Logger.session st)
                             (Logger.href b) (Logger.agent b) in
  (lv <> Logger.LevelError -> Logger.stored after = Logger.stored st)
  /\ (lv = Logger.LevelError ->
      match Logger.stored st with
      | Logger.Unreadable => Logger.stored after = Logger.Unreadable
      | Logger.NoItem =>
        Logger.stored after
        = if Logger.storage_writable b then Logger.Items [e] else Logger.NoItem
      | Logger.Items old =>
        if Logger.storage_writable b then
          exists kept evicted,
            Logger.stored after = Logger.Items kept
            /\ (old ++ [e])%list = (evicted ++ kept)%list
            /\ length kept = Nat.min 50 (length old + 1)
            /\ exists older, kept = (older ++ [e])%list
        else Logger.stored after = Logger.Items old
      end)
  /\ exists older, Logger.logs after = (older ++ [e])%list.
Proof.
  cbv zeta. split; [|split].
  - intros Hlv. unfold Logger.log. cbv zeta.
    destruct lv; try contradiction; cbn; reflexivity.
  - intros ->. unfold Logger.log, Logger.store_error. cbv zeta.
    cbn [Logger.level_eqb].
    destruct (Logger.stored st) as [| |old]; destruct (Logger.storage_writable b);
      cbn [Logger.stored app]; try reflexivity.
    eexists; eexists. split; [reflexivity|].
    rewrite slice_last_length by discriminate.
    rewrite slice_last_skipn by discriminate.
    split; [symmetry; apply firstn_skipn|].
    rewrite length_app. cbn [length]. split; [reflexivity|].
    match goal with |- context [skipn ?k (?x ++ [?y])] =>
      exists (skipn k x); rewrite skipn_app;
      replace (k - length x)%nat with 0%nat by lia end.
    reflexivity.
  - rewrite log_buffer. rewrite slice_last_skipn by discriminate.
    rewrite length_app. cbn [length]. change Logger.maxLogs with 1000%nat.
    match goal with |- context [skipn ?k (?x ++ [?y])] =>
      exists (skipn k x); rewrite skipn_app;
      replace (k - length x)%nat with 0%nat by lia end.
    reflexivity.
Qed.

(** ** The payment service: errors *)

Import Payment.
Import Alternative.

Lemma enhanced_classification (e : Error) (t : string) :
  isRetryableError (enhanceError e t) = isRetryableError e.
Proof.
  unfold enhanceError, isRetryableError, retryableErrors, code_is.
  destruct e as [[[|a c]|] [|b m] d r]; cbn [code message or_else existsb];
    reflexivity.
Qed.

Lemma enhanceError_nesting (e : Error) (t : string) :
  PaymentSpec.nesting (enhanceError e t) = S (PaymentSpec.nesting e).
Proof. reflexivity. Qed.

(** X3. An enhanced error carries the transaction id and the original
    error in its details.  Enhancing it again changes neither its code, its
    message nor its retryable flag, but wraps it once more, so that
    enhancing twice is never the same as enhancing once.  The enhanced
    error always has a non-empty code and message, and its retryable flag
    is the classification of the original error, which is also the
    classification of the enhanced error itself. *)
Theorem enhanceError_wraps_the_original (e : Error) (t t' : string) :
  details (enhanceError e t) = mkDetails t e
  /\ code (enhanceError (enhanceError e t) t') = code (enhanceError e t)
  /\ message (enhanceError (enhanceError e t) t') = message (enhanceError e t)
  /\ retryable (enhanceError (enhanceError e t) t') = retryable (enhanceError e t)
  /\ details (enhanceError (enhanceError e t) t') = mkDetails t' (enhanceError e t)
  /\ enhanceError (enhanceError e t) t' <> enhanceError e t
  /\ retryable (enhanceError e t) = isRetryableError e
  /\ isRetryableError (enhanceError e t) = isRetryableError e
  /\ (exists c, code (enhanceError e t) = Some c /\ c <> "")
  /\ message (enhanceError e t) <> "".
Proof.
  split; [reflexivity|]. split; [|split; [|split; [|split; [reflexivity|]]]].
  - unfold enhanceError.
    destruct e as [[[|a c]|] [|b m] d r]; reflexivity.
  - unfold enhanceError.
    destruct e as [[[|a c]|] [|b m] d r]; reflexivity.
  - unfold enhanceError at 1 3. cbn [retryable].
    apply enhanced_classification.
  - split.
    + intros H. apply (f_equal PaymentSpec.nesting) in H.
      rewrite !enhanceError_nesting in H. lia.
    + split; [reflexivity|]. split; [apply enhanced_classification|].
      unfold enhanceError.
      destruct e as [[[|a c]|] [|b m] d r]; cbn [code message or_else];
        (split; [eexists; split; [reflexivity|discriminate] | discriminate]).
Qed.

(** X4. However a call of [createPaymentIntent] ends, the audit log tells:
    a call that returns writes no audit row; a call that raises raises an
    enhanced error and has asked the store exactly once to record the
    failure, with the message of the error that ended the last attempt and
    success = false. *)
Theorem every_failed_call_is_logged_once
        (env : Env) (serviceIdentifier packageType currency : string)
        (totalPrice : number) (quantity : Z) (w : World) :
  exists r w',
    createPaymentIntent env serviceIdentifier packageType totalPrice currency
                        quantity w = (r, w')
    /\ match r with
       | Ok _ => audit w' = audit w
       | Throw e =>
         exists e0,
           e = enhanceError e0 (new_transaction_id env)
           /\ audit w' = (audit w ++ logged env (message e0))%list
           /\ (audit_insert_ok env = true ->
               audit w' = (audit w ++ [failure_entry env (message e0)])%list
               /\ audit_success (failure_entry env (message e0)) = false)
       end.
Proof.
  pose (txn := new_transaction_id env).
  pose proof (loop_step_throw env serviceIdentifier packageType currency totalPrice
                              quantity) as step_throw.
  pose proof (loop_step_ok env serviceIdentifier packageType currency totalPrice
                           quantity) as step_ok.
  assert (Hlog : forall e0 w1 w0,
             audit w1 = audit w0 ->
             exists w',
               (logPaymentFailure env txn (message e0) ;;;
                throw (A:=PaymentIntent) (enhanceError e0 txn)) w1
               = (Throw (enhanceError e0 txn), w')
               /\ exists e1,
                   enhanceError e0 txn = enhanceError e1 txn
                   /\ audit w' = (audit w0 ++ logged env (message e1))%list
                   /\ (audit_insert_ok env = true ->
                       audit w' = (audit w0 ++ [failure_entry env (message e1)])%list
                       /\ audit_success (failure_entry env (message e1)) = false)).
  { intros e0 w1 w0 Ha.
    destruct (log_then_throw env e0 w1) as [w' [L [_ [LA _]]]].
    exists w'. split; [exact L|]. exists e0. split; [reflexivity|].
    rewrite LA, Ha. split; [reflexivity|].
    intros Hok. unfold logged. rewrite Hok. split; reflexivity. }
  unfold createPaymentIntent. cbn [seq MAX_RETRIES].
  destruct (attempt_effect env serviceIdentifier packageType currency totalPrice
              quantity txn w) as [r1 [w1 [E1 [A1 _]]]].
  destruct r1 as [v|e1].
  { rewrite (step_ok _ _ _ _ _ E1). eexists; eexists. split; [reflexivity|].
    exact A1. }
  rewrite (step_throw _ _ _ _ _ E1).
  destruct ((1 =? MAX_RETRIES)%nat || negb (isRetryableError e1)).
  { destruct (Hlog e1 w1 w A1) as [w' [L H]].
    eexists; eexists. split; [exact L|]. exact H. }
  match goal with |- context [createPaymentIntent_loop _ _ _ _ _ _ _ _ ?x] =>
    destruct (attempt_effect env serviceIdentifier packageType currency totalPrice
                quantity txn x) as [r2 [w2 [E2 [A2 _]]]] end.
  cbn in A2. rewrite A1 in A2.
  destruct r2 as [v|e2].
  { rewrite (step_ok _ _ _ _ _ E2). eexists; eexists. split; [reflexivity|].
    exact A2. }
  rewrite (step_throw _ _ _ _ _ E2).
  destruct ((2 =? MAX_RETRIES)%nat || negb (isRetryableError e2)).
  { destruct (Hlog e2 w2 w A2) as [w' [L H]].
    eexists; eexists. split; [exact L|]. exact H. }
  match goal with |- context [createPaymentIntent_loop _ _ _ _ _ _ _ _ ?x] =>
    destruct (attempt_effect env serviceIdentifier packageType currency totalPrice
                quantity txn x) as [r3 [w3 [E3 [A3 _]]]] end.
  cbn in A3. rewrite A2 in A3.
  destruct r3 as [v|e3].
  { rewrite (step_ok _ _ _ _ _ E3). eexists; eexists. split; [reflexivity|].
    exact A3. }
  rewrite (step_throw _ _ _ _ _ E3). cbn [Nat.eqb MAX_RETRIES orb].
  destruct (Hlog e3 w3 w A3) as [w' [L H]].
  eexists; eexists. split; [exact L|]. exact H.
Qed.

(** ** The payment service: a call that succeeds *)

Import PaymentSpec.

Lemma update_leaves_other_orders (id invoice customer : string) (l : list Order) :
  (forall o, In o l -> order_id o <> id) ->
  map (fun o =>
         if order_id o =? id then
           mkOrder (order_id o) (order_client_id o) (order_service_id o)
                   (package_type o) (amount_usd o) (amount_inr o)
                   (amount_aud o) (Payment.currency o) (Payment.status o)
                   (payment_gateway o) (Some invoice) (Some customer)
         else o) l = l.
Proof.
  intros H. induction l as [|o l IH]; [reflexivity|].
  cbn [map]. rewrite IH by (intros o' Ho'; apply H; right; exact Ho').
  destruct (String.eqb_spec (order_id o) id) as [E|_]; [|reflexivity].
  exfalso. exact (H o (or_introl eq_refl) E).
Qed.

(** X5. When steps 1 to 6 go through and the first invoicing call returns,
    [createPaymentIntent] returns the intent of that invoice, and the
    orders gain exactly one row, still pending: when the store carries out
    the update of step 8 it is the order of step 6 with the invoice id and
    the customer id of the provider, and when it does not, the order of
    step 6 as it was inserted; the call returns the same in both cases.
    One invoicing call is made, nothing is waited for and no audit row is
    written. *)
Theorem successful_call_records_the_invoice
        (env : Env) (serviceIdentifier packageType currency : string)
        (totalPrice : number) (quantity : Z) (w : World)
        (user : User) (serviceId : string) (service : Service) (client : Client)
        (inv : PaymentIntent) :
  reaches_invoicing env serviceIdentifier packageType user serviceId service client ->
  invoicing_returns env (zoho_attempts w) inv ->
  (forall o, In o (orders w) ->
             order_id o <> fresh_order_id env (length (orders w))) ->
  let id := fresh_order_id env (length (orders w)) in
  let inserted := step6_order env user serviceId packageType totalPrice currency id in
  let invoiced := invoiced_order env user serviceId packageType totalPrice currency
                                 id inv in
  exists w',
    createPaymentIntent env serviceIdentifier packageType totalPrice currency
                        quantity w
    = (Ok (with_transaction inv (new_transaction_id env)), w')
    /\ (order_update_ok env = true -> orders w' = (orders w ++ [invoiced])%list)
    /\ (order_update_ok env = false -> orders w' = (orders w ++ [inserted])%list)
    /\ Payment.status invoiced = "pending"
    /\ Payment.status inserted = "pending"
    /\ zoho_invoice_id inserted = None
    /\ zoho_invoice_id invoiced = Some (invoice_id inv)
    /\ zoho_customer_id invoiced = Some (customer_id inv)
    /\ audit w' = audit w
    /\ zoho_attempts w' = S (zoho_attempts w)
    /\ delays_of (events w') = delays_of (events w).
Proof.
  intros Hreach Hret Hfresh. cbv zeta.
  destruct (attempt_reaches env serviceIdentifier packageType currency totalPrice
              quantity (new_transaction_id env) user serviceId service client w
              Hreach) as [evs [E D]].
  cbv zeta in E. unfold bind at 1 in E. unfold createZohoInvoiceWithRetry in E.
  cbn [seq MAX_RETRIES] in E.
  match type of E with
  | context [createZohoInvoiceWithRetry_loop _ env ?o ?s ?c ?q ?t ?x] =>
    destruct (call_effect env o s c q t x) as [r [evs2 [C D2]]];
    pose proof (Hret o s c q t x eq_refl) as Hr
  end.
  rewrite C in Hr. cbn [fst] in Hr. subst r.
  rewrite (retry_step_ok _ _ _ _ _ _ _ _ _ _ _ C) in E.
  unfold bind, update_order_zoho in E.
  unfold createPaymentIntent. cbn [seq MAX_RETRIES].
  destruct (order_update_ok env); unfold modify, ret in E; cbn beta iota in E;
    rewrite (loop_step_ok env serviceIdentifier packageType currency totalPrice
               quantity _ _ _ _ _ E);
    (eexists; split; [reflexivity|]); cbn [orders audit zoho_attempts events].
  - split.
    + intros _. rewrite map_app. cbn [map order_id step6_order].
      rewrite String.eqb_refl.
      rewrite update_leaves_other_orders by exact Hfresh.
      reflexivity.
    + split; [discriminate|]. repeat (split; [reflexivity|]).
      rewrite !delays_of_app, D, D2, !app_nil_r. reflexivity.
  - split; [discriminate|]. split; [reflexivity|].
    repeat (split; [reflexivity|]).
    rewrite !delays_of_app, D, D2, !app_nil_r. reflexivity.
Qed.

Lemma successful_call_records_the_invoice_witness :
  exists w',
    createPaymentIntent Sample.base "email" "basic" (Number.of_Z 200) "USD" 50
                        empty_world
    = (Ok (with_transaction Sample.invoice "txn_1_abc"), w')
    /\ orders w'
       = [invoiced_order Sample.base Sample.alice
                         "11111111-1111-4111-8111-111111111111" "basic"
                         (Number.of_Z 200) "USD" "order-0" Sample.invoice]
    /\ audit w' = []
    /\ zoho_attempts w' = 1%nat
    /\ delays_of (events w') = [].
Proof.
  destruct (successful_call_records_the_invoice
              Sample.base "email" "basic" "USD" (Number.of_Z 200) 50 empty_world
              Sample.alice "11111111-1111-4111-8111-111111111111"
              Sample.email_migration Sample.alice_profile Sample.invoice
              (sample_reaches_invoicing _ _)
              (successful_post_returns Sample.base 0 None _ eq_refl eq_refl)
              (fun o (H : In o []) => match H with end))
    as [w' [E [U [_ [_ [_ [_ [_ [_ [A [Z D]]]]]]]]]]].
  exists w'. split; [exact E|]. split; [exact (U eq_refl)|].
  split; [exact A|]. split; [exact Z | exact D].
Defined.

(** ** The payment service: amounts *)




(** X7. On the fallback path a USD amount survives the round trip through
    either other currency: for an amount of [k] hundredths, 0 <= k <= 10^13,
    the INR amount stored for it converts back to the same USD amount, and
    so does the AUD amount. *)
Theorem fallback_round_trip_from_usd (k : Z) :
  (0 <= k <= 10000000000000)%Z ->
  let x := Number.dec k 2 in
  let stored := fallback_amounts x "USD" in
  usd (fallback_amounts (Payment.inr stored) "INR") = x
  /\ usd (fallback_amounts (aud stored) "AUD") = x
  /\ usd stored = x.
Proof.
  intros Hk. cbv zeta.
  unfold fallback_amounts. cbn [String.eqb Ascii.eqb Bool.eqb].
  unfold round_amounts. cbn [usd Payment.inr aud].
  destruct (Z.eq_dec k 0) as [->|Hz].
  { repeat split; vm_compute; reflexivity. }
  destruct rate_INR_value as [Oi Vi]. destruct rate_AUD_value as [Oa Va].
  split; [|split].
  - apply (round_trip k rate_INR (8325 # 100) ltac:(lia) Oi Vi) with (c := (100 # 8325)%Q);
      [split; discriminate | reflexivity].
  - apply (round_trip k rate_AUD (152 # 100) ltac:(lia) Oa Va) with (c := (100 # 152)%Q);
      [split; discriminate | reflexivity].
  - unfold toFixed2. apply toFixed2_dec. lia.
Qed.

Lemma fallback_round_trip_from_usd_witness :
  usd (fallback_amounts (Payment.inr (fallback_amounts (Number.dec 2001 2) "USD")) "INR")
  = Number.dec 2001 2.
Proof.
  refine (proj1 (fallback_round_trip_from_usd 2001 _)). lia.
Defined.

(** Far beyond that range the round trip can lose a hundredth: of
    5807014447898.55 USD, through AUD, 5807014447898.54 USD come back. *)
Example round_trip_loses_a_hundredth_of_a_huge_amount :
  usd (fallback_amounts
         (aud (fallback_amounts (Number.dec 580701444789855 2) "USD")) "AUD")
  = Number.dec 580701444789854 2.
Proof. vm_compute. reflexivity. Qed.

(** ** The payment service: how long a call waits *)

Lemma total_delay_app (a b : list Event) :
  total_delay (a ++ b) = (total_delay a + total_delay b)%Z.
Proof.
  unfold total_delay. rewrite delays_of_app.
  induction (delays_of a) as [|d l IH]; cbn; [reflexivity | rewrite IH; lia].
Qed.

Lemma total_delay_one (d : Z) : total_delay [EvDelay d] = d.
Proof. unfold total_delay. cbn. lia. Qed.

Lemma total_delay_quiet (evs : list Event) :
  delays_of evs = [] -> total_delay evs = 0%Z.
Proof. intros H. unfold total_delay. rewrite H. reflexivity. Qed.

Lemma resolve_is_quiet (env : Env) (serviceIdentifier : string) :
  exists r evs,
    (forall w, resolveServiceWithFallback env serviceIdentifier w
               = (Ok r, after_events w evs))
    /\ delays_of evs = [].
Proof.
  destruct (resolve_try_reads env serviceIdentifier empty_world) as [rt [evs [_ Ht]]].
  assert (Hq : delays_of evs = []).
  { clear - Ht. revert Ht. unfold_async. cbn beta iota.
    repeat (split_match; cbn beta iota); intros Ht;
      specialize (Ht empty_world); cbn in Ht;
      injection Ht as _ Ht; subst evs; reflexivity. }
  destruct rt as [v|e]; [exists v, evs | exists None, evs]; (split; [|exact Hq]);
    intro w; unfold resolveServiceWithFallback, try_catch; rewrite Ht; reflexivity.
Qed.

Section Waiting.

Variable env : Env.

(** The invoicing retries wait 0, 1000 or 3000 ms in all. *)
Lemma retry_waits (order : Order) (service : Service) (client : Client)
      (quantity : Z) (transactionId : string) (w : World) :
  exists r w' evs,
    createZohoInvoiceWithRetry env order service client quantity transactionId w
    = (r, w')
    /\ events w' = (events w ++ evs)%list
    /\ (0 <= total_delay evs <= 3000)%Z.
Proof.
  unfold createZohoInvoiceWithRetry. cbn [seq MAX_RETRIES].
  destruct (call_effect env order service client quantity transactionId w)
    as [r1 [ev1 [E1 D1]]].
  destruct r1 as [v|e1].
  { rewrite (retry_step_ok _ _ _ _ _ _ _ _ _ _ _ E1). eexists; eexists; exists ev1.
    split; [reflexivity|]. cbn. rewrite (total_delay_quiet _ D1). split; [reflexivity|lia]. }
  rewrite (retry_step_throw _ _ _ _ _ _ _ _ _ _ _ E1). cbn [Nat.eqb MAX_RETRIES].
  match goal with |- context [createZohoInvoiceWithRetry_loop _ _ _ _ _ _ _ ?x] =>
    destruct (call_effect env order service client quantity transactionId x)
      as [r2 [ev2 [E2 D2]]] end.
  destruct r2 as [v|e2].
  { rewrite (retry_step_ok _ _ _ _ _ _ _ _ _ _ _ E2). eexists; eexists.
    exists (ev1 ++ [EvDelay (RETRY_DELAY * Z.of_nat 1)] ++ ev2)%list.
    split; [reflexivity|]. cbn [events after_events].
    split; [rewrite <- !app_assoc; reflexivity|].
    rewrite !total_delay_app, (total_delay_quiet _ D1), (total_delay_quiet _ D2),
      total_delay_one.
    change (RETRY_DELAY * Z.of_nat 1)%Z with 1000%Z. lia. }
  rewrite (retry_step_throw _ _ _ _ _ _ _ _ _ _ _ E2). cbn [Nat.eqb MAX_RETRIES].
  match goal with |- context [createZohoInvoiceWithRetry_loop _ _ _ _ _ _ _ ?x] =>
    destruct (call_effect env order service client quantity transactionId x)
      as [r3 [ev3 [E3 D3]]] end.
  assert (Hsum : (0 <= total_delay
                         (ev1 ++ [EvDelay (RETRY_DELAY * Z.of_nat 1)] ++ ev2
                          ++ [EvDelay (RETRY_DELAY * Z.of_nat 2)] ++ ev3) <= 3000)%Z).
  { rewrite !total_delay_app, (total_delay_quiet _ D1), (total_delay_quiet _ D2),
      (total_delay_quiet _ D3), !total_delay_one.
    change (RETRY_DELAY * Z.of_nat 1)%Z with 1000%Z.
    change (RETRY_DELAY * Z.of_nat 2)%Z with 2000%Z. lia. }
  destruct r3 as [v|e3].
  { rewrite (retry_step_ok _ _ _ _ _ _ _ _ _ _ _ E3). eexists; eexists; eexists.
    split; [reflexivity|]. cbn [events after_events].
    split; [|exact Hsum]. rewrite <- !app_assoc. reflexivity. }
  rewrite (retry_step_throw _ _ _ _ _ _ _ _ _ _ _ E3). cbn [Nat.eqb MAX_RETRIES].
  eexists; eexists; eexists. split; [reflexivity|]. cbn [events after_events].
  split; [|exact Hsum]. rewrite <- !app_assoc. reflexivity.
Qed.

Variables serviceIdentifier packageType currency : string.
Variable totalPrice : number.
Variable quantity : Z.

Let txn := new_transaction_id env.
Let attempt :=
  createPaymentIntentAttempt env serviceIdentifier packageType totalPrice
                             currency quantity txn.

(** One attempt waits at most 3000 ms. *)
Lemma attempt_waits (w : World) :
  exists r w' evs,
    attempt w = (r, w')
    /\ events w' = (events w ++ evs)%list
    /\ (0 <= total_delay evs <= 3000)%Z.
Proof.
  assert (Hnil : forall w0 : World, events w0 = (events w0 ++ [])%list)
    by (intro; rewrite app_nil_r; reflexivity).
  assert (Hz : (0 <= total_delay [] <= 3000)%Z) by (cbn; lia).
  unfold attempt, createPaymentIntentAttempt.
  destruct (if auth_error env then None else auth_user env) as [user|];
    [|eexists; eexists; exists []; split; [reflexivity|]; split; [apply Hnil|exact Hz]].
  destruct (negb (is_confirmed user));
    [eexists; eexists; exists []; split; [reflexivity|]; split; [apply Hnil|exact Hz]|].
  destruct (resolve_is_quiet env serviceIdentifier) as [v [evs [H Dq]]].
  assert (Hq : (0 <= total_delay evs <= 3000)%Z)
    by (rewrite (total_delay_quiet _ Dq); lia).
  unfold bind at 1. rewrite H.
  destruct v as [[|c0 sid]|];
    try (eexists; eexists; exists evs; split; [reflexivity|]; split;
         [reflexivity|exact Hq]).
  unfold bind at 1. unfold lift at 1.
  destruct (getServiceById env (String c0 sid)) as [[service|]|e];
    try (eexists; eexists; exists evs; split; [reflexivity|]; split;
         [reflexivity|exact Hq]).
  destruct (negb (package_available service packageType));
    [eexists; eexists; exists evs; split; [reflexivity|]; split;
     [reflexivity|exact Hq]|].
  destruct (clients_error env);
    [eexists; eexists; exists evs; split; [reflexivity|]; split;
     [reflexivity|exact Hq]|].
  destruct (find (fun c => client_id c =? user_id user) (clients env)) as [cl|];
    [|eexists; eexists; exists evs; split; [reflexivity|]; split;
      [reflexivity|exact Hq]].
  unfold bind at 1. unfold insert_order at 1.
  destruct (order_insert_error env) as [msg|];
    [eexists; eexists; exists evs; split; [reflexivity|]; split;
     [reflexivity|exact Hq]|].
  unfold bind at 1.
  match goal with |- context [createZohoInvoiceWithRetry env ?o ?s ?c ?q ?t ?x] =>
    destruct (retry_waits o s c q t x) as [r [w2 [evs2 [E [Ev B]]]]] end.
  rewrite E. cbn [events after_events] in Ev.
  assert (Hboth : (0 <= total_delay (evs ++ evs2) <= 3000)%Z)
    by (rewrite total_delay_app, (total_delay_quiet _ Dq); lia).
  destruct r as [zohoResult|e].
  - unfold bind, update_order_zoho.
    destruct (order_update_ok env); unfold modify, ret; cbn beta iota;
      (eexists; eexists; exists (evs ++ evs2)%list; split; [reflexivity|];
       cbn [events]; rewrite Ev, <- app_assoc; split; [reflexivity|exact Hboth]).
  - eexists; eexists; exists (evs ++ evs2)%list. split; [reflexivity|].
    rewrite Ev, <- app_assoc. split; [reflexivity|exact Hboth].
Qed.

End Waiting.

(** X8. One call of [createPaymentIntent] spends at most 12 seconds
    waiting: at most 3000 ms between the invoicing calls of each of its
    (at most three) attempts, and 1000 ms and 2000 ms between the
    attempts. *)
Theorem a_call_waits_at_most_twelve_seconds
        (env : Env) (serviceIdentifier packageType currency : string)
        (totalPrice : number) (quantity : Z) (w : World) :
  exists r w' evs,
    createPaymentIntent env serviceIdentifier packageType totalPrice currency
                        quantity w = (r, w')
    /\ events w' = (events w ++ evs)%list
    /\ (0 <= total_delay evs <= 12000)%Z.
Proof.
  pose (txn := new_transaction_id env).
  pose proof (loop_step_throw env serviceIdentifier packageType currency totalPrice
                              quantity) as step_throw.
  pose proof (loop_step_ok env serviceIdentifier packageType currency totalPrice
                           quantity) as step_ok.
  pose proof (attempt_waits env serviceIdentifier packageType currency totalPrice
                            quantity) as waits.
  assert (Hlog : forall e0 w1,
             exists w',
               (logPaymentFailure env txn (message e0) ;;;
                throw (A:=PaymentIntent) (enhanceError e0 txn)) w1
               = (Throw (enhanceError e0 txn), w') /\ events w' = events w1).
  { intros e0 w1. destruct (log_then_throw env e0 w1) as [w' [L [_ [_ [_ LE]]]]].
    exists w'. split; [exact L | exact LE]. }
  unfold createPaymentIntent. cbn [seq MAX_RETRIES].
  destruct (waits w) as [r1 [w1 [ev1 [E1 [V1 B1]]]]].
  destruct r1 as [v|e1].
  { rewrite (step_ok _ _ _ _ _ E1). eexists; eexists; exists ev1.
    split; [reflexivity|]. split; [exact V1 | lia]. }
  rewrite (step_throw _ _ _ _ _ E1).
  destruct ((1 =? MAX_RETRIES)%nat || negb (isRetryableError e1)).
  { destruct (Hlog e1 w1) as [w' [L LE]]. eexists; eexists; exists ev1.
    split; [exact L|]. rewrite LE. split; [exact V1 | lia]. }
  match goal with |- context [createPaymentIntent_loop _ _ _ _ _ _ _ _ ?x] =>
    destruct (waits x) as [r2 [w2 [ev2 [E2 [V2 B2]]]]] end.
  cbn [events after_events] in V2. rewrite V1 in V2.
  assert (S2 : (0 <= total_delay
                       (ev1 ++ [EvDelay (RETRY_DELAY * 2 ^ (Z.of_nat 1 - 1))] ++ ev2)
                  <= 7000)%Z)
    by (rewrite !total_delay_app, total_delay_one;
        change (RETRY_DELAY * 2 ^ (Z.of_nat 1 - 1))%Z with 1000%Z; lia).
  rewrite <- !app_assoc in V2.
  destruct r2 as [v|e2].
  { rewrite (step_ok _ _ _ _ _ E2). eexists; eexists; eexists.
    split; [reflexivity|]. split; [exact V2 | lia]. }
  rewrite (step_throw _ _ _ _ _ E2).
  destruct ((2 =? MAX_RETRIES)%nat || negb (isRetryableError e2)).
  { destruct (Hlog e2 w2) as [w' [L LE]]. eexists; eexists; eexists.
    split; [exact L|]. rewrite LE. split; [exact V2 | lia]. }
  match goal with |- context [createPaymentIntent_loop _ _ _ _ _ _ _ _ ?x] =>
    destruct (waits x) as [r3 [w3 [ev3 [E3 [V3 B3]]]]] end.
  cbn [events after_events] in V3. rewrite V2 in V3.
  assert (S3 : (0 <= total_delay
                       (ev1 ++ [EvDelay (RETRY_DELAY * 2 ^ (Z.of_nat 1 - 1))] ++ ev2
                        ++ [EvDelay (RETRY_DELAY * 2 ^ (Z.of_nat 2 - 1))] ++ ev3)
                  <= 12000)%Z)
    by (rewrite !total_delay_app, !total_delay_one;
        change (RETRY_DELAY * 2 ^ (Z.of_nat 1 - 1))%Z with 1000%Z;
        change (RETRY_DELAY * 2 ^ (Z.of_nat 2 - 1))%Z with 2000%Z; lia).
  rewrite <- !app_assoc in V3.
  destruct r3 as [v|e3].
  { rewrite (step_ok _ _ _ _ _ E3). eexists; eexists; eexists.
    split; [reflexivity|]. split; [exact V3 | exact S3]. }
  rewrite (step_throw _ _ _ _ _ E3). cbn [Nat.eqb MAX_RETRIES orb].
  destruct (Hlog e3 w3) as [w' [L LE]]. eexists; eexists; eexists.
  split; [exact L|]. rewrite LE. split; [exact V3 | exact S3].
Qed.

(** ** The payment service: what the invoice request bills *)

Section Growth.

Variable env : Env.

(** The invoicing retries only add to the trace. *)
Lemma retry_grows (order : Order) (service : Service) (client : Client)
      (quantity : Z) (transactionId : string) (l : list nat) (w : World) :
  exists r w' evs,
    createZohoInvoiceWithRetry_loop l env order service client quantity
                                    transactionId w = (r, w')
    /\ events w' = (events w ++ evs)%list.
Proof.
  revert w. induction l as [|n rest IH]; intro w.
  - eexists; eexists; exists []. split; [reflexivity|]. rewrite app_nil_r. reflexivity.
  - destruct (call_effect env order service client quantity transactionId w)
      as [r1 [ev1 [E1 _]]].
    destruct r1 as [v|e1].
    + rewrite (retry_step_ok _ _ _ _ _ _ _ _ _ _ _ E1).
      eexists; eexists; exists ev1. split; reflexivity.
    + rewrite (retry_step_throw _ _ _ _ _ _ _ _ _ _ _ E1).
      destruct (n =? MAX_RETRIES)%nat.
      * eexists; eexists; exists ev1. split; reflexivity.
      * match goal with |- context [createZohoInvoiceWithRetry_loop _ _ _ _ _ _ _ ?x] =>
          destruct (IH x) as [r [w' [evs [E V]]]] end.
        rewrite E. eexists; eexists; eexists. split; [reflexivity|].
        rewrite V. cbn [events after_events]. rewrite <- !app_assoc. reflexivity.
Qed.

Variables serviceIdentifier packageType currency : string.
Variable totalPrice : number.
Variable quantity : Z.

(** The attempts of a call only add to the trace. *)
Lemma loop_grows (l : list nat) (w : World) :
  exists r w' evs,
    createPaymentIntent_loop l env serviceIdentifier packageType totalPrice
                             currency quantity (new_transaction_id env) w = (r, w')
    /\ events w' = (events w ++ evs)%list.
Proof.
  revert w. induction l as [|n rest IH]; intro w.
  - eexists; eexists; exists []. split; [reflexivity|]. rewrite app_nil_r. reflexivity.
  - destruct (attempt_waits env serviceIdentifier packageType currency totalPrice
                            quantity w) as [r1 [w1 [ev1 [E1 [V1 _]]]]].
    destruct r1 as [v|e1].
    + rewrite (loop_step_ok env serviceIdentifier packageType currency totalPrice
                            quantity _ _ _ _ _ E1).
      eexists; eexists; exists ev1. split; [reflexivity | exact V1].
    + rewrite (loop_step_throw env serviceIdentifier packageType currency totalPrice
                               quantity _ _ _ _ _ E1).
      destruct ((n =? MAX_RETRIES)%nat || negb (isRetryableError e1)).
      * destruct (log_then_throw env e1 w1) as [w' [L [_ [_ [_ LE]]]]].
        eexists; eexists; exists ev1. split; [exact L|]. rewrite LE. exact V1.
      * match goal with |- context [createPaymentIntent_loop _ _ _ _ _ _ _ _ ?x] =>
          destruct (IH x) as [r [w' [evs [E V]]]] end.
        rewrite E. eexists; eexists; eexists. split; [reflexivity|].
        rewrite V. cbn [events after_events]. rewrite V1, <- !app_assoc. reflexivity.
Qed.

End Growth.

Lemma first_post_quiet_app (a b : list Event) :
  posts_of a = [] -> first_post (a ++ b) = first_post b.
Proof.
  induction a as [|e a IH]; cbn; [reflexivity|].
  destruct e; cbn; intro H; try (apply IH; exact H). discriminate.
Qed.

Lemma resolve_posts_nothing (env : Env) (serviceIdentifier : string) :
  exists r evs,
    (forall w, resolveServiceWithFallback env serviceIdentifier w
               = (Ok r, after_events w evs))
    /\ posts_of evs = [].
Proof.
  destruct (resolve_try_reads env serviceIdentifier empty_world) as [rt [evs [_ Ht]]].
  assert (Hq : posts_of evs = []).
  { clear - Ht. revert Ht. unfold_async. cbn beta iota.
    repeat (split_match; cbn beta iota); intros Ht;
      specialize (Ht empty_world); cbn in Ht;
      injection Ht as _ Ht; subst evs; reflexivity. }
  destruct rt as [v|e]; [exists v, evs | exists None, evs]; (split; [|exact Hq]);
    intro w; unfold resolveServiceWithFallback, try_catch; rewrite Ht; reflexivity.
Qed.

Lemma first_post_app_some (a b : list Event) (body : InvoiceRequest) :
  first_post a = Some body -> first_post (a ++ b) = Some body.
Proof.
  induction a as [|e a IH]; cbn; [discriminate|].
  destruct e; cbn; auto.
Qed.

Section Billing.

Variable env : Env.
Variables serviceIdentifier packageType currency : string.
Variable totalPrice : number.
Variable quantity : Z.

(** After a healthy probe the request is posted, whatever comes back. *)
Lemma healthy_call_posts (order : Order) (service : Service) (client : Client)
      (transactionId : string) (err : option string) (w : World) :
  zoho_health env (zoho_attempts w) = HealthJson true err ->
  exists r,
    createZohoInvoiceAttempt env order service client quantity transactionId w
    = (r, mkWorld (orders w) (audit w) (S (zoho_attempts w))
                  (events w
                   ++ [EvHealth (zoho_attempts w);
                       EvInvoicePost (zoho_attempts w)
                                     (invoice_request_for order service client
                                                          quantity transactionId)])).
Proof.
  intro Hh. unfold invoice_request_for, charged. unfold_async. cbn beta iota.
  rewrite Hh. cbn [fst snd negb events orders audit zoho_attempts].
  repeat (split_match; cbn beta iota);
    eexists; rewrite <- ?app_assoc; cbn [app]; reflexivity.
Qed.

(** The first attempt of a call, when steps 1 to 6 go through and the probe
    is healthy: the trace gains the resolver's queries, the probe and the
    request for the order of step 6. *)
Lemma attempt_first_post (user : User) (serviceId : string) (service : Service)
      (client : Client) (err : option string) (w : World) :
  reaches_invoicing env serviceIdentifier packageType user serviceId service client ->
  zoho_health env (zoho_attempts w) = HealthJson true err ->
  exists r w' evs,
    createPaymentIntentAttempt env serviceIdentifier packageType totalPrice
                               currency quantity (new_transaction_id env) w
    = (r, w')
    /\ events w' = (events w ++ evs)%list
    /\ first_post evs
       = Some (invoice_request_for
                 (step6_order env user serviceId packageType totalPrice currency
                              (fresh_order_id env (length (orders w))))
                 service client quantity (new_transaction_id env)).
Proof.
  intros (Ha & Hu & Hc & Hr & Hne & Hs & Hp & Hce & Hcl & Hins) Hh.
  destruct (resolve_posts_nothing env serviceIdentifier) as [v [evs0 [Hres Hq]]].
  assert (Hv : v = Some serviceId).
  { rewrite Hres in Hr. cbn in Hr. congruence. }
  subst v.
  unfold createPaymentIntentAttempt.
  rewrite Ha, Hu, Hc. cbn [negb].
  unfold bind at 1. rewrite Hres.
  destruct serviceId as [|c0 sid]; [congruence|].
  unfold bind at 1. unfold lift at 1. rewrite Hs, Hp. cbn [negb].
  rewrite Hce, Hcl.
  unfold bind at 1. unfold insert_order at 1. rewrite Hins.
  cbn [orders after_events zoho_attempts audit events].
  set (order := mkOrder _ _ _ _ _ _ _ _ _ _ _ _).
  set (w1 := mkWorld _ _ _ _).
  destruct (healthy_call_posts order service client (new_transaction_id env) err w1 Hh)
    as [r1 C].
  assert (Hfirst : forall more,
             first_post (evs0 ++ ([EvHealth (zoho_attempts w1);
                                   EvInvoicePost (zoho_attempts w1)
                                     (invoice_request_for order service client quantity
                                                          (new_transaction_id env))]
                                  ++ more))
             = Some (invoice_request_for order service client quantity
                                         (new_transaction_id env))).
  { intro more. rewrite (first_post_quiet_app _ _ Hq). reflexivity. }
  unfold bind at 1. unfold createZohoInvoiceWithRetry. cbn [seq MAX_RETRIES].
  destruct r1 as [zohoResult|e1].
  - rewrite (retry_step_ok _ _ _ _ _ _ _ _ _ _ _ C).
    unfold bind, update_order_zoho.
    destruct (order_update_ok env); unfold modify, ret; cbn beta iota;
      (eexists; eexists; eexists; split; [reflexivity|];
       cbn [events w1]; rewrite <- app_assoc; split; [reflexivity|];
       rewrite <- (app_nil_r [EvHealth _; _]); apply Hfirst).
  - rewrite (retry_step_throw _ _ _ _ _ _ _ _ _ _ _ C). cbn [Nat.eqb MAX_RETRIES].
    match goal with |- context [createZohoInvoiceWithRetry_loop ?l _ ?o ?s ?c ?q ?t ?x] =>
      destruct (retry_grows env o s c q t l x) as [r [w' [evs [E V]]]] end.
    rewrite E. cbn [events after_events w1] in V.
    assert (Hev : events w'
                  = (events w
                     ++ evs0
                     ++ [EvHealth (zoho_attempts w1);
                         EvInvoicePost (zoho_attempts w1)
                           (invoice_request_for order service client quantity
                                                (new_transaction_id env))]
                     ++ (EvDelay (RETRY_DELAY * Z.of_nat 1) :: evs))%list).
    { rewrite V, <- !app_assoc. reflexivity. }
    destruct r as [zohoResult|e].
    + unfold bind, update_order_zoho.
      destruct (order_update_ok env); unfold modify, ret; cbn beta iota;
        (eexists; eexists; eexists; split; [reflexivity|]; cbn [events];
         split; [exact Hev | apply Hfirst]).
    + eexists; eexists; eexists. split; [reflexivity|].
      split; [exact Hev | apply Hfirst].
Qed.

End Billing.

(** X9. When steps 1 to 6 go through and the edge function answers the
    probe, the first request a call of [createPaymentIntent] posts is for
    one line: its total is the price handed to the call, rounded to two
    decimals and not multiplied by the quantity; its unit price is that
    total divided by the quantity.  The request names the currency of the
    call and the address of the client's profile. *)
Theorem the_invoice_bills_the_price_of_the_call
        (env : Env) (serviceIdentifier packageType currency : string)
        (totalPrice : number) (quantity : Z) (w : World)
        (user : User) (serviceId : string) (service : Service) (client : Client)
        (err : option string) :
  reaches_invoicing env serviceIdentifier packageType user serviceId service client ->
  zoho_health env (zoho_attempts w) = HealthJson true err ->
  supported currency ->
  quantity <> 0%Z ->
  exists r w' evs body item,
    createPaymentIntent env serviceIdentifier packageType totalPrice currency
                        quantity w = (r, w')
    /\ events w' = (events w ++ evs)%list
    /\ first_post evs = Some body
    /\ req_serviceItems body = [item]
    /\ si_totalPrice item = toFixed2 totalPrice
    /\ si_unitPrice item = (toFixed2 totalPrice / Number.of_Z quantity)%num
    /\ si_quantity item = quantity
    /\ req_currency body = currency
    /\ cd_email (req_customerData body) = client_email client.
Proof.
  intros Hreach Hh Hc _.
  destruct (attempt_first_post env serviceIdentifier packageType currency totalPrice
              quantity user serviceId service client err w Hreach Hh)
    as [r1 [w1 [evs1 [E1 [V1 F1]]]]].
  set (order := step6_order env user serviceId packageType totalPrice currency
                            (fresh_order_id env (length (orders w)))) in *.
  assert (Hcharged : charged order = toFixed2 totalPrice).
  { rewrite <- (own_component env totalPrice currency Hc). reflexivity. }
  assert (Hbody : forall r w' evs,
             createPaymentIntent env serviceIdentifier packageType totalPrice
                                 currency quantity w = (r, w') ->
             events w' = (events w ++ evs1 ++ evs)%list ->
             exists r w' evs body item,
               createPaymentIntent env serviceIdentifier packageType totalPrice
                                   currency quantity w = (r, w')
               /\ events w' = (events w ++ evs)%list
               /\ first_post evs = Some body
               /\ req_serviceItems body = [item]
               /\ si_totalPrice item = toFixed2 totalPrice
               /\ si_unitPrice item = (toFixed2 totalPrice / Number.of_Z quantity)%num
               /\ si_quantity item = quantity
               /\ req_currency body = currency
               /\ cd_email (req_customerData body) = client_email client).
  { intros r w' evs E V. exists r, w', (evs1 ++ evs)%list.
    eexists; eexists. split; [exact E|]. split; [exact V|].
    split; [apply first_post_app_some; exact F1|].
    unfold invoice_request_for. cbn [req_serviceItems req_currency req_customerData
                                     cd_email].
    split; [reflexivity|]. cbn [si_totalPrice si_unitPrice si_quantity].
    rewrite Hcharged. repeat split; reflexivity. }
  unfold createPaymentIntent in *. cbn [seq MAX_RETRIES] in *.
  destruct r1 as [v|e1].
  { apply (Hbody (Ok v) w1 []).
    - apply (loop_step_ok env serviceIdentifier packageType currency totalPrice
                          quantity _ _ _ _ _ E1).
    - rewrite app_nil_r. exact V1. }
  pose proof (loop_step_throw env serviceIdentifier packageType currency totalPrice
                              quantity 1 [2; 3]%nat _ _ _ E1) as S1.
  destruct ((1 =? MAX_RETRIES)%nat || negb (isRetryableError e1)).
  { destruct (log_then_throw env e1 w1) as [w' [L [_ [_ [_ LE]]]]].
    apply (Hbody (Throw (enhanceError e1 (new_transaction_id env))) w' []).
    - rewrite S1. exact L.
    - rewrite app_nil_r, LE. exact V1. }
  match type of S1 with _ = createPaymentIntent_loop ?l _ _ _ _ _ _ _ ?x =>
    destruct (loop_grows env serviceIdentifier packageType currency totalPrice
                         quantity l x) as [r [w' [evs [E V]]]] end.
  apply (Hbody r w' (EvDelay (RETRY_DELAY * 2 ^ (Z.of_nat 1 - 1)) :: evs)).
  - rewrite S1. exact E.
  - rewrite V. cbn [events after_events]. rewrite V1, <- !app_assoc. reflexivity.
Qed.

Lemma the_invoice_bills_the_price_of_the_call_witness :
  exists r w' evs body item,
    createPaymentIntent Sample.base "email" "basic" (Number.of_Z 200) "USD" 50 empty_world
    = (r, w')
    /\ events w' = (events empty_world ++ evs)%list
    /\ first_post evs = Some body
    /\ req_serviceItems body = [item]
    /\ si_totalPrice item = toFixed2 (Number.of_Z 200)
    /\ si_unitPrice item = (toFixed2 (Number.of_Z 200) / Number.of_Z 50)%num
    /\ si_quantity item = 50%Z
    /\ req_currency body = "USD"
    /\ cd_email (req_customerData body) = client_email Sample.alice_profile.
Proof.
  refine (the_invoice_bills_the_price_of_the_call
            Sample.base "email" "basic" "USD" (Number.of_Z 200) 50 empty_world
            Sample.alice "11111111-1111-4111-8111-111111111111"
            Sample.email_migration Sample.alice_profile None
            (sample_reaches_invoicing _ _) eq_refl (or_introl eq_refl) _).
  discriminate.
Defined.

(** ** The payment service: the system health check *)

(** X10. The health check never raises and writes neither an order nor an
    audit row.  Its report lists one issue for each check that failed, so it
    is empty exactly when the store, the edge function and the catalog are
    all fine; the overall verdict is that of the store and the catalog, and
    a failing edge function alone does not change it. *)
Theorem the_health_report_lists_each_failed_check
        (env : Env) (checks : PaymentExtra.Checks) (w : World) :
  exists rep w',
    PaymentExtra.performSystemHealthCheck env checks w = (Ok rep, w')
    /\ length (PaymentExtra.issues rep) = failed_checks rep
    /\ (PaymentExtra.issues rep = []
        <-> PaymentExtra.database rep = true /\ PaymentExtra.zoho rep = true
            /\ PaymentExtra.services rep = true)
    /\ PaymentExtra.overall rep
       = PaymentExtra.database rep && PaymentExtra.services rep
    /\ orders w' = orders w
    /\ audit w' = audit w.
Proof.
  unfold PaymentExtra.performSystemHealthCheck, failed_checks.
  unfold_async. cbn beta iota.
  destruct (PaymentExtra.count_services checks) as [|m|m];
    destruct (zoho_health env (zoho_attempts w)) as [m'|st|[|] e];
    destruct (PaymentExtra.getAllServices checks) as [[|s l]|e'];
    cbn; eexists; eexists; (split; [reflexivity|]); cbn;
      (split; [reflexivity|]);
      (split; [split; [intro H; try discriminate H; auto
                      | intros (H1 & H2 & H3); try discriminate; reflexivity]|]);
      auto.
Qed.

(** ** The alternative channels: the choice of a method *)

Section Choice.

Variable showNumber : number -> string.

(** X11. [createPaymentWithFallback] probes the edge function once and then
    always takes the email channel: the handler of the invoicing method
    raises whenever it is called, so even when the probe reports the edge
    function as working the result is that of [createEmailPayment]. *)
Theorem the_fallback_always_takes_the_email_channel
        (env : Env) (orderData : OrderData) (w : World) :
  AlternativeExtra.createPaymentWithFallback showNumber env orderData w
  = createEmailPayment showNumber env orderData (probed w).
Proof.
  unfold AlternativeExtra.createPaymentWithFallback,
    AlternativeExtra.getAvailablePaymentMethods, probed.
  unfold bind at 1. unfold bind at 1. unfold next_attempt at 1.
  unfold bind at 1. unfold emit, modify. cbn [zoho_attempts events orders audit].
  destruct (zoho_health env (zoho_attempts w)) as [m|st|[|] e];
    unfold ret at 1; cbn beta iota;
    unfold AlternativeExtra.set_first_available;
    cbn [find AlternativeExtra.id AlternativeExtra.available
              AlternativeExtra.handler String.eqb Ascii.eqb Bool.eqb andb];
    unfold bind, try_catch, throw, ret; cbn beta iota; reflexivity.
Qed.

End Choice.

(** ** The alternative channels: the payment links *)

Import LinkSpec.

Lemma occurrences_app (c : ascii) (s t : string) :
  occurrences c (s ++ t) = (occurrences c s + occurrences c t)%nat.
Proof. induction s as [|d s IH]; cbn; [reflexivity | rewrite IH; lia]. Qed.

(** An encoded text holds unreserved characters and percent signs only. *)
Lemma encoded_has_no_reserved (c : ascii) (s : string) :
  unreserved c = false -> c <> "%"%char ->
  occurrences c (encodeURIComponent s) = 0%nat.
Proof.
  intros Hu Hp. induction s as [|d s IH]; cbn [encodeURIComponent]; [reflexivity|].
  destruct (unreserved d) eqn:Hd.
  - cbn [occurrences]. rewrite IH.
    destruct (Ascii.eqb c d) eqn:E; [|reflexivity].
    apply Ascii.eqb_eq in E. congruence.
  - cbn [occurrences]. rewrite IH.
    assert (Hpc : Ascii.eqb c "%" = false) by (apply Ascii.eqb_neq; exact Hp).
    rewrite Hpc.
    assert (Hhex : forall n, (n < 16)%nat -> Ascii.eqb c (hex_digit n) = false).
    { intros n Hn. destruct (Ascii.eqb c (hex_digit n)) eqn:E; [|reflexivity].
      apply Ascii.eqb_eq in E. subst c. exfalso.
      do 16 (destruct n as [|n]; [discriminate Hu|]). lia. }
    rewrite !Hhex; [reflexivity | apply Nat.mod_upper_bound; lia |].
    apply Nat.Div0.div_lt_upper_bound.
    pose proof (nat_ascii_bounded d). lia.
Qed.

Section Links.

Variable showNumber : number -> string.

(** X12. The link of the email channel is always well formed: whatever the
    service name, the client's name and address or the rendering of the
    amount contain, the address has one question mark, one ampersand, the
    two equals signs of [subject=] and [body=], and no space or line
    break. *)
Theorem the_email_link_is_well_formed
        (env : Env) (orderData : OrderData) (w w' : World) (url : string) :
  createEmailPayment showNumber env orderData w = (Ok url, w') ->
  occurrences "?" url = 1%nat
  /\ occurrences "&" url = 1%nat
  /\ occurrences "=" url = 2%nat
  /\ occurrences " " url = 0%nat
  /\ occurrences (ascii_of_nat 10) url = 0%nat.
Proof.
  unfold createEmailPayment, insert_order, bind, ret, throw.
  destruct (auth_user env) as [user|]; [|discriminate].
  destruct (order_insert_error env) as [msg|]; [discriminate|].
  cbv zeta. intro H.
  match type of H with (Ok ?u, _) = _ => assert (Hu : u = url) by congruence end.
  rewrite <- Hu. clear.
  rewrite !occurrences_app.
  rewrite !encoded_has_no_reserved by (reflexivity || discriminate).
  repeat split; reflexivity.
Qed.

End Links.

Lemma the_email_link_is_well_formed_witness :
  let url := "mailto:contact@mechinweb.com?subject="
             ++ encodeURIComponent "Payment for Email Migration & Setup - Order order-0"
             ++ "&body="
             ++ encodeURIComponent (email_body Sample.show_2001 "order-0"
                                               Sample.mailbox_order) in
  occurrences "?" url = 1%nat
  /\ occurrences "&" url = 1%nat
  /\ occurrences "=" url = 2%nat
  /\ occurrences " " url = 0%nat
  /\ occurrences (ascii_of_nat 10) url = 0%nat.
Proof.
  refine (the_email_link_is_well_formed
            Sample.show_2001 Sample.base Sample.mailbox_order empty_world _ _ _).
  vm_compute. reflexivity.
Defined.

(** ** The payment service: the direct payment *)

Section DirectPayment.

Variable showNumber : number -> string.

(** X13. [createDirectPayment] either raises and leaves the world as it
    was, or writes exactly one order: the row the email and bank-transfer
    channels write for the same data, tagged [direct] and pending.  Its
    link, unlike the one of the email channel, is not encoded: it holds the
    twelve spaces of its fixed text at least. *)
Theorem a_direct_payment_writes_one_pending_order
        (env : Env) (service package : string) (price : number) (code : string)
        (w : World) :
  match PaymentExtra.createDirectPayment showNumber env service package price
                                         code w with
  | (Ok p, w') =>
    exists user,
      auth_user env = Some user
      /\ PaymentExtra.orderId p = fresh_order_id env (length (orders w))
      /\ w' = mkWorld (orders w
                       ++ [channel_order user
                                         (direct_order_data service package price code)
                                         "direct" (PaymentExtra.orderId p)])
                      (audit w) (zoho_attempts w) (events w)
      /\ Payment.status
           (channel_order user (direct_order_data service package price code)
                          "direct" (PaymentExtra.orderId p)) = "pending"
      /\ (12 <= occurrences " " (PaymentExtra.paymentUrl p))%nat
  | (Throw e, w') =>
    w' = w
    /\ (auth_user env = None -> message e = "Authentication required")
    /\ (forall user msg, auth_user env = Some user ->
                         order_insert_error env = Some msg -> message e = msg)
  end.
Proof.
  unfold PaymentExtra.createDirectPayment, try_catch, insert_order, bind, ret, throw.
  destruct (auth_user env) as [user|].
  - destruct (order_insert_error env) as [msg|].
    + split; [reflexivity|]. split; [discriminate|].
      intros u m _ Hm. injection Hm as <-. reflexivity.
    + exists user. cbn [PaymentExtra.orderId PaymentExtra.paymentUrl order_id].
      split; [reflexivity|]. split; [reflexivity|].
      split; [reflexivity|]. split; [reflexivity|].
      rewrite !occurrences_app.
      change (occurrences " " "mailto:contact@mechinweb.com?subject=Payment for Order ")
        with 3%nat.
      change (occurrences " " "&body=Please process payment for order ") with 5%nat.
      change (occurrences " " " - Amount: ") with 3%nat.
      change (occurrences " " " ") with 1%nat.
      lia.
  - split; [reflexivity|]. split; [reflexivity|]. discriminate.
Qed.

(** X14. The direct payment checks less than [createPaymentIntent]: for a
    signed-in user whose address is not confirmed, [createPaymentIntent]
    raises EMAIL_NOT_VERIFIED and writes no order, whereas
    [createDirectPayment] with the same arguments writes its order, whatever
    the service identifier and the package are. *)
Theorem a_direct_payment_needs_no_confirmed_address
        (env : Env) (service package : string) (price : number) (code : string)
        (quantity : Z) (user : User) (w : World) :
  auth_error env = false ->
  auth_user env = Some user ->
  is_confirmed user = false ->
  order_insert_error env = None ->
  (exists e w1,
      createPaymentIntent env service package price code quantity w = (Throw e, w1)
      /\ JS.code e = Some "EMAIL_NOT_VERIFIED"
      /\ orders w1 = orders w)
  /\ (exists p w2,
         PaymentExtra.createDirectPayment showNumber env service package price
                                          code w = (Ok p, w2)
         /\ orders w2
            = (orders w
               ++ [channel_order user (direct_order_data service package price code)
                                 "direct" (PaymentExtra.orderId p)])%list).
Proof.
  intros Ha Hu Hc Hins. split.
  - destruct (createPaymentIntent_constant_failure
                env service package code price quantity
                (PaymentError "EMAIL_NOT_VERIFIED"
                   "Email verification required. Please verify your email before making purchases."))
      with (w := w) as [w1 [E [O _]]].
    + intro w0. exists w0.
      rewrite (attempt_unverified env service package code price quantity user w0
                                  Ha Hu Hc).
      repeat split; reflexivity.
    + eexists; exists w1. split; [exact E|]. split; [reflexivity | exact O].
  - unfold PaymentExtra.createDirectPayment, try_catch, insert_order, bind, ret, throw.
    rewrite Hu, Hins. eexists; eexists. split; reflexivity.
Qed.

End DirectPayment.

Lemma a_direct_payment_needs_no_confirmed_address_witness :
  (exists e w1,
      createPaymentIntent Sample.unverified "no-such-service" "platinum" (Number.of_Z 5)
                          "USD" 1 empty_world = (Throw e, w1)
      /\ JS.code e = Some "EMAIL_NOT_VERIFIED"
      /\ orders w1 = orders empty_world)
  /\ (exists p w2,
         PaymentExtra.createDirectPayment Sample.show_2001 Sample.unverified
                                          "no-such-service" "platinum" (Number.of_Z 5)
                                          "USD" empty_world = (Ok p, w2)
         /\ orders w2
            = (orders empty_world
               ++ [channel_order Sample.alice_unverified
                                 (direct_order_data "no-such-service" "platinum"
                                                    (Number.of_Z 5) "USD")
                                 "direct" (PaymentExtra.orderId p)])%list).
Proof.
  apply (a_direct_payment_needs_no_confirmed_address
           Sample.show_2001 Sample.unverified "no-such-service" "platinum" (Number.of_Z 5)
           "USD" 1 Sample.alice_unverified empty_world);
    reflexivity.
Defined.

(** ** The edge function: the request handler *)

Import EdgeSpec.

Lemma skipn_past {A} (h x : list A) : skipn (length h) (h ++ x) = x.
Proof. induction h as [|a h IH]; [reflexivity | exact IH]. Qed.

Lemma probe_is_no_api_call (l : list ZohoApi.Request) :
  ~ In EdgeFunction.ProbeCall (map EdgeFunction.ApiCall l).
Proof. induction l as [|r l IH]; cbn; [tauto | intros [H|H]; [discriminate | auto]]. Qed.

Ltac unfold_serve :=
  unfold EdgeFunction.serve, EdgeFunction.getZohoAccessToken,
    EdgeFunction.testZohoConnection, EdgeFunction.in_api,
    bind, ret, throw, try_catch.

Section Handler.

Variable createZohoCustomer :
  ZohoApi.Provider -> ZohoApi.ZohoConfig -> ZohoApi.CustomerData
  -> M ZohoApi.History ZohoApi.Contact.
Variable createZohoInvoice :
  ZohoApi.Provider -> ZohoApi.ZohoConfig -> Z -> string -> ZohoApi.InvoiceRequest
  -> M ZohoApi.History ZohoApi.InvoiceResult.

Let handler := EdgeFunction.serve createZohoCustomer createZohoInvoice.

(** X15. The handler always answers: no error escapes it.  The status is
    200 or 500, and 500 exactly when the body reports a failure.  It sends
    nothing for a preflight request and nothing unless all four secrets are
    set; when it sends anything, the token request comes first. *)
Theorem the_handler_always_answers
        (config : ZohoApi.ZohoConfig) (platform : EdgeFunction.Platform) (now : Z)
        (req : EdgeFunction.HttpRequest) (cs : EdgeFunction.Calls) :
  exists resp more,
    handler config platform now req cs = (Ok resp, (cs ++ more)%list)
    /\ (EdgeFunction.status resp = 200%Z \/ EdgeFunction.status resp = 500%Z)
    /\ (EdgeFunction.status resp = 500%Z
        <-> is_failure (EdgeFunction.payload resp) = true)
    /\ (EdgeFunction.method req = "OPTIONS" -> more = [])
    /\ (more <> []
        -> EdgeFunction.missing_secrets config = []
           /\ exists rest, more = EdgeFunction.TokenCall :: rest).
Proof.
  unfold handler. unfold_serve. cbn beta iota.
  assert (Hlen : forall l : list string,
             (0 <? length l)%nat = false -> l = []).
  { intros [|a l]; [reflexivity | discriminate]. }
  repeat (split_match; cbn beta iota; cbn [fst snd]);
    first [ eexists; exists []; split; [rewrite app_nil_r; reflexivity|]
          | eexists; eexists; split; [rewrite <- ?app_assoc; cbn [app]; reflexivity|] ];
    cbn [EdgeFunction.status EdgeFunction.payload is_failure];
    (split; [auto|]);
    (split; [split; intro; (reflexivity || discriminate || lia)|]);
    (split; [intro Hm; try reflexivity;
             try (rewrite Hm in *; discriminate)|]);
    intro Hmore; try (exfalso; apply Hmore; reflexivity);
    (split; [auto | eexists; reflexivity]).
Qed.

End Handler.

Section HandlerPost.

Variable createZohoCustomer :
  ZohoApi.Provider -> ZohoApi.ZohoConfig -> ZohoApi.CustomerData
  -> M ZohoApi.History ZohoApi.Contact.
Variable createZohoInvoice :
  ZohoApi.Provider -> ZohoApi.ZohoConfig -> Z -> string -> ZohoApi.InvoiceRequest
  -> M ZohoApi.History ZohoApi.InvoiceResult.

Let handler := EdgeFunction.serve createZohoCustomer createZohoInvoice.

(** X16. The body of a POST is looked at only after a token has been asked
    for: with all secrets set, a request whose body fails the checks is
    answered 500, and the token request is the one call made for it. *)
Theorem a_malformed_post_costs_a_token_request
        (config : ZohoApi.ZohoConfig) (platform : EdgeFunction.Platform) (now : Z)
        (req : EdgeFunction.HttpRequest) (cs : EdgeFunction.Calls) :
  EdgeFunction.missing_secrets config = [] ->
  EdgeFunction.method req = "POST" ->
  well_formed req = false ->
  exists error,
    handler config platform now req cs
    = (Ok (EdgeFunction.mkResponse
             500 (EdgeFunction.Failed error (EdgeFunction.debug_of config))),
       (cs ++ [EdgeFunction.TokenCall])%list).
Proof.
  intros Hs Hm Hw. unfold handler. unfold_serve. unfold well_formed in Hw.
  rewrite Hs, Hm. cbn beta iota.
  change ("POST" =? "OPTIONS") with false.
  change ("POST" =? "GET") with false.
  change ("POST" =? "POST") with true.
  cbn [length Nat.ltb Nat.leb].
  destruct (EdgeFunction.token_endpoint platform cs) as [m|st t d|m|[[|c t]|]];
    cbn beta iota; try (eexists; reflexivity).
  destruct (EdgeFunction.body req) as [requestData|]; [|eexists; reflexivity].
  destruct (EdgeFunction.raw_customerData requestData) as [customerData|];
    [|eexists; reflexivity].
  destruct (ZohoApi.email customerData =? "")%string; [eexists; reflexivity|].
  destruct (ZohoApi.name customerData =? "")%string; [eexists; reflexivity|].
  destruct (length (EdgeFunction.raw_serviceItems requestData) =? 0)%nat;
    [eexists; reflexivity|].
  destruct (EdgeFunction.raw_currency requestData =? "")%string;
    [eexists; reflexivity | discriminate Hw].
Qed.

End HandlerPost.

Lemma a_malformed_post_costs_a_token_request_witness :
  exists error,
    EdgeFunction.serve_listed SampleProvider.config SampleEdge.platform
                              SampleProvider.now SampleEdge.empty_post []
    = (Ok (EdgeFunction.mkResponse
             500 (EdgeFunction.Failed error
                                      (EdgeFunction.debug_of SampleProvider.config))),
       [EdgeFunction.TokenCall]).
Proof.
  apply (a_malformed_post_costs_a_token_request
           ZohoIntegration.createZohoCustomer ZohoIntegration.createZohoInvoice
           SampleProvider.config SampleEdge.platform SampleProvider.now
           SampleEdge.empty_post []); reflexivity.
Defined.

Lemma listed_bills_the_given_customer :
  bills_the_given_customer ZohoIntegration.createZohoInvoice.
Proof.
  intros p config now customerId invoiceData h r h' Hrun.
  unfold ZohoIntegration.createZohoInvoice in Hrun.
  destruct (ZohoApi.valid_customer_id customerId); cbn [negb] in Hrun;
    [|discriminate].
  cbv zeta in Hrun. unfold ZohoApi.fetch, bind, ret, throw in Hrun.
  cbn beta iota in Hrun.
  match type of Hrun with
  | context [match ZohoApi.create_invoice ?a ?b ?c with _ => _ end] =>
    destruct (ZohoApi.create_invoice a b c) as [?|? ? ?|?|[inv|]]; try discriminate
  end.
  injection Hrun as <- <-. split; [reflexivity|]. split; [reflexivity|].
  eexists; exists []. split; reflexivity.
Qed.

Lemma revised_bills_the_given_customer :
  bills_the_given_customer ZohoIntegrationRevised.createZohoInvoice.
Proof.
  intros p config now customerId invoiceData h r h' Hrun.
  unfold ZohoIntegrationRevised.createZohoInvoice in Hrun.
  destruct (ZohoApi.valid_customer_id customerId); cbn [negb] in Hrun;
    [|discriminate].
  cbv zeta in Hrun.
  unfold ZohoIntegrationRevised.sendZohoInvoice,
    ZohoIntegrationRevised.getZohoPaymentUrl,
    ZohoApi.fetch, bind, ret, throw, try_catch in Hrun.
  cbn beta iota in Hrun.
  repeat match type of Hrun with
         | context [match ?t with _ => _ end] =>
           lazymatch t with
           | context [match _ with _ => _ end] => fail
           | _ => destruct t eqn:?; try discriminate Hrun
           end
         end;
    injection Hrun as <- <-; (split; [reflexivity|]); (split; [reflexivity|]);
    eexists; eexists; (split; [rewrite <- ?app_assoc; cbn [app]; reflexivity|]);
    reflexivity.
Qed.

Section HandlerCreated.

Variable createZohoCustomer :
  ZohoApi.Provider -> ZohoApi.ZohoConfig -> ZohoApi.CustomerData
  -> M ZohoApi.History ZohoApi.Contact.
Variable createZohoInvoice :
  ZohoApi.Provider -> ZohoApi.ZohoConfig -> Z -> string -> ZohoApi.InvoiceRequest
  -> M ZohoApi.History ZohoApi.InvoiceResult.
Hypothesis invoice_ok : bills_the_given_customer createZohoInvoice.

Lemma created_means_billed
      (config : ZohoApi.ZohoConfig) (platform : EdgeFunction.Platform) (now : Z)
      (req : EdgeFunction.HttpRequest) (cs cs' : EdgeFunction.Calls) (st : Z)
      (customer : ZohoApi.Contact) (invoice : ZohoApi.InvoiceResult) :
  EdgeFunction.serve createZohoCustomer createZohoInvoice config platform now req cs
  = (Ok (EdgeFunction.mkResponse st (EdgeFunction.Created customer invoice)), cs') ->
  st = 200%Z
  /\ EdgeFunction.method req = "POST"
  /\ well_formed req = true
  /\ ZohoApi.r_customer_id invoice = ZohoApi.contact_id customer
  /\ ZohoApi.valid_customer_id (ZohoApi.contact_id customer) = true
  /\ exists more payload,
      cs' = (cs ++ EdgeFunction.TokenCall :: more)%list
      /\ In (EdgeFunction.ApiCall (ZohoApi.CreateInvoice payload)) more
      /\ ZohoApi.ip_customer_id payload = ZohoApi.contact_id customer
      /\ ~ In EdgeFunction.ProbeCall more.
Proof.
  unfold_serve. unfold well_formed. cbn beta iota.
  destruct (EdgeFunction.method req =? "OPTIONS")%string; [discriminate|].
  destruct (0 <? length (EdgeFunction.missing_secrets config))%nat; [discriminate|].
  destruct (EdgeFunction.token_endpoint platform cs) as [m|s t d|m|[[|c t]|]];
    cbn beta iota; try discriminate.
  destruct (EdgeFunction.method req =? "GET")%string eqn:Hget.
  { destruct (EdgeFunction.contacts_probe platform _) as [m|s t' d|m|l];
      cbn beta iota; discriminate. }
  destruct (EdgeFunction.method req =? "POST")%string eqn:Hpost; [|discriminate].
  apply String.eqb_eq in Hpost.
  destruct (EdgeFunction.body req) as [requestData|]; [|discriminate].
  destruct (EdgeFunction.raw_customerData requestData) as [customerData|];
    [|discriminate].
  destruct (ZohoApi.email customerData =? "")%string; [discriminate|].
  destruct (ZohoApi.name customerData =? "")%string; [discriminate|].
  destruct (length (EdgeFunction.raw_serviceItems requestData) =? 0)%nat;
    [discriminate|].
  destruct (EdgeFunction.raw_currency requestData =? "")%string; [discriminate|].
  destruct (createZohoCustomer _ _ _ _) as [[c1|e1] h1]; [|discriminate].
  cbn beta iota.
  destruct (ZohoApi.contact_id c1 =? "")%string; [discriminate|].
  destruct (createZohoInvoice _ _ _ _ _ _) as [[r2|e2] h2] eqn:Hinv;
    cbn beta iota; [|discriminate].
  intro H. injection H as <- <- <- <-.
  destruct (invoice_ok _ _ _ _ _ _ _ _ Hinv) as [Hc [Hv [payload [rest [Hh Hp]]]]].
  split; [reflexivity|]. split; [exact Hpost|]. split; [reflexivity|].
  split; [exact Hc|]. split; [exact Hv|].
  rewrite Hh, skipn_past.
  eexists; exists payload. split; [rewrite <- !app_assoc; cbn [app]; reflexivity|].
  split; [|split].
  - apply in_or_app. right. left. reflexivity.
  - exact Hp.
  - intro Hin. apply in_app_or in Hin.
    destruct Hin as [Hin|Hin]; exact (probe_is_no_api_call _ Hin).
Qed.

End HandlerCreated.

(** X17. In both revisions of the function, an answer that reports a
    created invoice is an answer 200 to a POST whose body passed the checks,
    and the invoice is the customer's: the create-invoice request that was
    sent after the token request names the contact returned in the same
    answer, whose id is a real one.  The contacts list is not probed on
    that path. *)
Theorem a_created_invoice_belongs_to_the_returned_customer
        (handler : ZohoApi.ZohoConfig -> EdgeFunction.Platform -> Z
                   -> EdgeFunction.HttpRequest
                   -> M EdgeFunction.Calls EdgeFunction.HttpResponse)
        (config : ZohoApi.ZohoConfig) (platform : EdgeFunction.Platform) (now : Z)
        (req : EdgeFunction.HttpRequest) (cs cs' : EdgeFunction.Calls) (st : Z)
        (customer : ZohoApi.Contact) (invoice : ZohoApi.InvoiceResult) :
  handler = EdgeFunction.serve_listed \/ handler = EdgeFunction.serve_revised ->
  handler config platform now req cs
  = (Ok (EdgeFunction.mkResponse st (EdgeFunction.Created customer invoice)), cs') ->
  st = 200%Z
  /\ EdgeFunction.method req = "POST"
  /\ well_formed req = true
  /\ ZohoApi.r_customer_id invoice = ZohoApi.contact_id customer
  /\ ZohoApi.valid_customer_id (ZohoApi.contact_id customer) = true
  /\ exists more payload,
      cs' = (cs ++ EdgeFunction.TokenCall :: more)%list
      /\ In (EdgeFunction.ApiCall (ZohoApi.CreateInvoice payload)) more
      /\ ZohoApi.ip_customer_id payload = ZohoApi.contact_id customer
      /\ ~ In EdgeFunction.ProbeCall more.
Proof.
  intros [ -> | -> ] H.
  - exact (created_means_billed _ _ listed_bills_the_given_customer
                                _ _ _ _ _ _ _ _ _ H).
  - exact (created_means_billed _ _ revised_bills_the_given_customer
                                _ _ _ _ _ _ _ _ _ H).
Qed.

Lemma a_created_invoice_belongs_to_the_returned_customer_witness :
  exists customer invoice cs',
    EdgeFunction.serve_listed SampleProvider.config SampleEdge.platform
                              SampleProvider.now SampleEdge.invoice_post []
    = (Ok (EdgeFunction.mkResponse 200 (EdgeFunction.Created customer invoice)), cs')
    /\ ZohoApi.r_customer_id invoice = ZohoApi.contact_id customer
    /\ ZohoApi.valid_customer_id (ZohoApi.contact_id customer) = true.
Proof.
  eexists; eexists; eexists.
  assert (Hrun :
            EdgeFunction.serve_listed SampleProvider.config SampleEdge.platform
                                      SampleProvider.now SampleEdge.invoice_post []
            = (Ok (EdgeFunction.mkResponse
                     200
                     (EdgeFunction.Created
                        SampleProvider.alice_contact
                        (ZohoApi.mkInvoiceResult
                           "INV-1" "INV-000001"
                           "https://invoice.zoho.in/invoices/INV-1/payment"
                           (Number.of_Z 200) "draft" "CUST-1"))),
               snd (EdgeFunction.serve_listed SampleProvider.config
                                              SampleEdge.platform SampleProvider.now
                                              SampleEdge.invoice_post [])))
    by (vm_compute; reflexivity).
  split; [exact Hrun|].
  destruct (a_created_invoice_belongs_to_the_returned_customer
              EdgeFunction.serve_listed SampleProvider.config SampleEdge.platform
              SampleProvider.now SampleEdge.invoice_post [] _ _ _ _
              (or_introl eq_refl) Hrun)
    as (_ & _ & _ & Hc & Hv & _).
  split; [exact Hc | exact Hv].
Defined.

(** ** The payment service in front of the edge function *)

Section Wiring.

Variable createZohoCustomer :
  ZohoApi.Provider -> ZohoApi.ZohoConfig -> ZohoApi.CustomerData
  -> M ZohoApi.History ZohoApi.Contact.
Variable createZohoInvoice :
  ZohoApi.Provider -> ZohoApi.ZohoConfig -> Z -> string -> ZohoApi.InvoiceRequest
  -> M ZohoApi.History ZohoApi.InvoiceResult.

(** The probe is answered with a success or with a bare 500. *)
Lemma probe_answers (config : ZohoApi.ZohoConfig) (platform : EdgeFunction.Platform)
      (now : Z) (cs : EdgeFunction.Calls) :
  let answer := probe_answer createZohoCustomer createZohoInvoice config platform
                             now cs in
  (answer = HealthJson true None \/ answer = HealthNotOk 500)
  /\ (EdgeFunction.missing_secrets config <> [] -> answer = HealthNotOk 500).
Proof.
  cbv zeta. unfold probe_answer, probe_request. unfold_serve.
  cbn [EdgeFunction.method]. change ("GET" =? "OPTIONS") with false.
  change ("GET" =? "GET") with true. cbn beta iota.
  destruct (EdgeFunction.missing_secrets config) as [|a l]; cbn [length Nat.ltb Nat.leb].
  - split; [|congruence].
    destruct (EdgeFunction.token_endpoint platform cs) as [m|s t d|m|[[|c t]|]];
      cbn beta iota; cbn [fst]; auto.
    destruct (EdgeFunction.contacts_probe platform _) as [m|s t' d|m|x];
      cbn beta iota; cbn [fst]; auto.
  - split; [right|intros _]; reflexivity.
Qed.

(** X18. Why the edge function fails does not reach the payment service
    through its probe: served by the handler, the probe is answered with a
    success or with status 500 and nothing else.  So when a secret is
    missing the invoicing call raises ZOHO_UNAVAILABLE with the text
    [HTTP 500], not ZOHO_CONFIG_MISSING; no invoice request is posted, and
    the error is not one [createPaymentIntent] retries. *)
Theorem a_missing_secret_reaches_the_client_as_http_500
        (config : ZohoApi.ZohoConfig) (platform : EdgeFunction.Platform) (now : Z)
        (cs : EdgeFunction.Calls)
        (env : Env) (order : Order) (service : Service) (client : Client)
        (quantity : Z) (transactionId : string) (w : World) :
  zoho_health env (zoho_attempts w)
  = probe_answer createZohoCustomer createZohoInvoice config platform now cs ->
  EdgeFunction.missing_secrets config <> [] ->
  let error := PaymentError "ZOHO_UNAVAILABLE"
                            "Zoho integration unavailable: HTTP 500" in
  createZohoInvoiceAttempt env order service client quantity transactionId w
  = (Throw error, probed w)
  /\ isRetryableError error = false.
Proof.
  intros Hwire Hmiss.
  destruct (probe_answers config platform now cs) as [_ H500].
  rewrite (H500 Hmiss) in Hwire. cbv zeta. split; [|reflexivity].
  unfold probed. unfold_async. cbn beta iota. rewrite Hwire. reflexivity.
Qed.

End Wiring.

Lemma a_missing_secret_reaches_the_client_as_http_500_witness :
  let error := PaymentError "ZOHO_UNAVAILABLE"
                            "Zoho integration unavailable: HTTP 500" in
  createZohoInvoiceAttempt SampleEdge.misconfigured
                           (step6_order SampleEdge.misconfigured Sample.alice
                                        "11111111-1111-4111-8111-111111111111"
                                        "basic" (Number.of_Z 200) "USD" "order-0")
                           Sample.email_migration Sample.alice_profile 50
                           "txn_1_abc" empty_world
  = (Throw error, probed empty_world)
  /\ isRetryableError error = false.
Proof.
  apply (a_missing_secret_reaches_the_client_as_http_500
           ZohoIntegration.createZohoCustomer ZohoIntegration.createZohoInvoice
           SampleEdge.no_client_id SampleEdge.platform SampleProvider.now []);
    [reflexivity | discriminate].
Defined.

(** ** The payment service: which failures are retried *)

Lemma prefix_app (x s b : string) :
  String.prefix x s = true -> String.prefix x (s ++ b) = true.
Proof.
  revert s. induction x as [|c x IH]; intros s H;
    [destruct (s ++ b); reflexivity|].
  destruct s as [|d s]; [discriminate|]. cbn in *.
  destruct (ascii_dec c d); [apply IH; exact H | discriminate].
Qed.

Lemma includes_app_r (s b x : string) :
  includes s x = true -> includes (s ++ b) x = true.
Proof.
  induction s as [|d s IH]; cbn [includes]; intro H.
  - rewrite orb_false_r in H. change ("" ++ b) with b.
    destruct x as [|c x]; [destruct b; reflexivity | discriminate].
  - apply orb_true_iff in H. destruct H as [H|H].
    + change (String d s ++ b) with (String d (s ++ b)). cbn [includes].
      pose proof (prefix_app _ _ b H) as Hp.
      change (String d s ++ b) with (String d (s ++ b)) in Hp.
      rewrite Hp. reflexivity.
    + change (String d s ++ b) with (String d (s ++ b)). cbn [includes].
      rewrite (IH H). apply orb_true_r.
Qed.

Lemma includes_app_l (a s x : string) :
  includes s x = true -> includes (a ++ s) x = true.
Proof.
  intro H. induction a as [|d a IH]; [exact H|].
  change (String d a ++ s) with (String d (a ++ s)). cbn [includes].
  rewrite IH. apply orb_true_r.
Qed.

Lemma includes_inside (a s b x : string) :
  includes s x = true -> includes (a ++ s ++ b) x = true.
Proof. intro H. apply includes_app_l, includes_app_r, H. Qed.

(** X19. The identifier handed to [createPaymentIntent] decides whether a
    failed lookup is retried: the error text quotes it, and an error whose
    text contains timeout, network or temporary counts as retryable.  For a
    verified user and an identifier that resolves to nothing the call raises
    SERVICE_NOT_FOUND at once when the error is not retryable, and only
    after three lookups, with waits of 1000 and 2000 ms, when it is, which
    is the case as soon as the identifier contains one of the three
    words. *)
Theorem a_lookup_failure_is_retried_when_the_identifier_says_so
        (env : Env) (serviceIdentifier packageType currency : string)
        (totalPrice : number) (quantity : Z) (user : User) (w : World) :
  auth_error env = false ->
  auth_user env = Some user ->
  is_confirmed user = true ->
  fst (resolveServiceWithFallback env serviceIdentifier empty_world) = Ok None ->
  let error := PaymentError "SERVICE_NOT_FOUND"
                 ("Service not found: " ++ serviceIdentifier
                  ++ ". Please check the service ID and try again.") in
  (exists w',
      createPaymentIntent env serviceIdentifier packageType totalPrice currency
                          quantity w
      = (Throw (not_found_error env serviceIdentifier), w')
      /\ delays_of (events w')
         = (delays_of (events w)
            ++ (if isRetryableError error then [1000; 2000] else []))%list%Z)
  /\ retryable (not_found_error env serviceIdentifier) = isRetryableError error
  /\ (includes serviceIdentifier "timeout" = true
      \/ includes serviceIdentifier "network" = true
      \/ includes serviceIdentifier "temporary" = true
      -> isRetryableError error = true).
Proof.
  intros Ha Hu Hc Hr. cbv zeta.
  set (error := PaymentError "SERVICE_NOT_FOUND" _).
  destruct (resolve_is_quiet env serviceIdentifier) as [v [evs [Hres Hq]]].
  assert (Hv : v = None) by (rewrite Hres in Hr; cbn in Hr; congruence).
  subst v.
  assert (Hattempt : forall w0,
             createPaymentIntentAttempt env serviceIdentifier packageType totalPrice
                                        currency quantity (new_transaction_id env) w0
             = (Throw error, after_events w0 evs)).
  { intro w0. unfold createPaymentIntentAttempt. rewrite Ha, Hu, Hc. cbn [negb].
    unfold bind. rewrite Hres. reflexivity. }
  pose proof (loop_step_throw env serviceIdentifier packageType currency totalPrice
                              quantity) as step.
  split; [|split].
  - unfold createPaymentIntent. cbn [seq MAX_RETRIES].
    rewrite (step _ _ _ _ _ (Hattempt w)).
    destruct (isRetryableError error) eqn:Hretry; cbn [Nat.eqb MAX_RETRIES orb negb].
    + rewrite (step _ _ _ _ _ (Hattempt _)). rewrite Hretry.
      cbn [Nat.eqb MAX_RETRIES orb negb].
      rewrite (step _ _ _ _ _ (Hattempt _)). cbn [Nat.eqb MAX_RETRIES orb negb].
      match goal with |- context [(_ ;;; _) ?x] =>
        destruct (log_then_throw env error x) as [w' [L [_ [_ [_ LE]]]]] end.
      exists w'. split; [exact L|]. rewrite LE. cbn [events after_events].
      rewrite !delays_of_app, Hq. cbn [app delays_of]. rewrite <- !app_assoc.
      reflexivity.
    + destruct (log_then_throw env error (after_events w evs))
        as [w' [L [_ [_ [_ LE]]]]].
      exists w'. split; [exact L|]. rewrite LE. cbn [events after_events].
      rewrite delays_of_app, Hq. reflexivity.
  - reflexivity.
  - intros Hword. unfold isRetryableError, retryableErrors.
    cbn [existsb]. apply orb_true_iff. left.
    unfold error, PaymentError. cbn [message].
    destruct Hword as [H|[H|H]];
      rewrite (includes_inside "Service not found: " serviceIdentifier
                               ". Please check the service ID and try again." _ H);
      rewrite ?orb_true_r; reflexivity.
Qed.

Lemma a_lookup_failure_is_retried_when_the_identifier_says_so_witness :
  let error := PaymentError "SERVICE_NOT_FOUND"
                 "Service not found: network-audit. Please check the service ID and try again." in
  (exists w',
      createPaymentIntent Sample.base "network-audit" "basic" (Number.of_Z 200) "USD" 1
                          empty_world
      = (Throw (not_found_error Sample.base "network-audit"), w')
      /\ delays_of (events w')
         = (delays_of (events empty_world)
            ++ (if isRetryableError error then [1000; 2000] else []))%list%Z)
  /\ retryable (not_found_error Sample.base "network-audit") = isRetryableError error
  /\ (includes "network-audit" "timeout" = true
      \/ includes "network-audit" "network" = true
      \/ includes "network-audit" "temporary" = true
      -> isRetryableError error = true).
Proof.
  apply (a_lookup_failure_is_retried_when_the_identifier_says_so
           Sample.base "network-audit" "basic" "USD" (Number.of_Z 200) 1 Sample.alice
           empty_world); reflexivity.
Defined.

Lemma api_of_app (a b : EdgeFunction.Calls) :
  EdgeFunction.api_of (a ++ b)%list
  = (EdgeFunction.api_of a ++ EdgeFunction.api_of b)%list.
Proof.
  induction a as [|c a IH]; [reflexivity|].
  destruct c; cbn; rewrite IH; reflexivity.
Qed.

Section HandlerProbe.

Variable createZohoCustomer :
  ZohoApi.Provider -> ZohoApi.ZohoConfig -> ZohoApi.CustomerData
  -> M ZohoApi.History ZohoApi.Contact.
Variable createZohoInvoice :
  ZohoApi.Provider -> ZohoApi.ZohoConfig -> Z -> string -> ZohoApi.InvoiceRequest
  -> M ZohoApi.History ZohoApi.InvoiceResult.

Let handler := EdgeFunction.serve createZohoCustomer createZohoInvoice.

(** X20. Probing the function changes nothing at the provider: a GET is
    answered after at most the token request and one reading of the
    contacts list, it sends no request that creates or looks up a contact
    or an invoice, and it is answered 200 only when both requests were
    made. *)
Theorem a_probe_sends_no_contact_or_invoice_request
        (config : ZohoApi.ZohoConfig) (platform : EdgeFunction.Platform) (now : Z)
        (req : EdgeFunction.HttpRequest) (cs : EdgeFunction.Calls) :
  EdgeFunction.method req = "GET" ->
  exists resp more,
    handler config platform now req cs = (Ok resp, (cs ++ more)%list)
    /\ EdgeFunction.api_of (cs ++ more)%list = EdgeFunction.api_of cs
    /\ (more = [] \/ more = [EdgeFunction.TokenCall]
        \/ more = [EdgeFunction.TokenCall; EdgeFunction.ProbeCall])
    /\ (EdgeFunction.status resp = 200%Z
        -> more = [EdgeFunction.TokenCall; EdgeFunction.ProbeCall]
           /\ EdgeFunction.payload resp
              = EdgeFunction.Working "Zoho integration is working correctly").
Proof.
  intro Hm. unfold handler. unfold_serve. rewrite Hm.
  change ("GET" =? "OPTIONS") with false. change ("GET" =? "GET") with true.
  cbn beta iota.
  destruct (0 <? length (EdgeFunction.missing_secrets config))%nat.
  { eexists; exists []. rewrite app_nil_r. split; [reflexivity|].
    split; [reflexivity|]. split; [auto | discriminate]. }
  destruct (EdgeFunction.token_endpoint platform cs) as [m|s t d|m|[[|c t]|]];
    cbn beta iota;
    try (eexists; exists [EdgeFunction.TokenCall]; split; [reflexivity|];
         split; [rewrite api_of_app; cbn; apply app_nil_r|];
         split; [auto | discriminate]).
  destruct (EdgeFunction.contacts_probe platform _) as [m|s t' d|m|x];
    cbn beta iota;
    eexists; exists [EdgeFunction.TokenCall; EdgeFunction.ProbeCall];
    (split; [rewrite <- app_assoc; reflexivity|]);
    (split; [rewrite api_of_app; cbn; apply app_nil_r|]);
    (split; [auto|]); cbn [EdgeFunction.status EdgeFunction.payload];
    intro H; try discriminate H; split; reflexivity.
Qed.

End HandlerProbe.

Lemma a_probe_sends_no_contact_or_invoice_request_witness :
  exists resp more,
    EdgeFunction.serve_listed SampleProvider.config SampleEdge.platform
                              SampleProvider.now probe_request []
    = (Ok resp, ([] ++ more)%list)
    /\ EdgeFunction.api_of ([] ++ more)%list = EdgeFunction.api_of []
    /\ (more = [] \/ more = [EdgeFunction.TokenCall]
        \/ more = [EdgeFunction.TokenCall; EdgeFunction.ProbeCall])
    /\ (EdgeFunction.status resp = 200%Z
        -> more = [EdgeFunction.TokenCall; EdgeFunction.ProbeCall]
           /\ EdgeFunction.payload resp
              = EdgeFunction.Working "Zoho integration is working correctly").
Proof.
  apply (a_probe_sends_no_contact_or_invoice_request
           ZohoIntegration.createZohoCustomer ZohoIntegration.createZohoInvoice
           SampleProvider.config SampleEdge.platform SampleProvider.now
           probe_request []).
  reflexivity.
Defined.
